(** * mango_trader: scoring, result recording and self-improvement

    A shallow embedding of the core of the trading bot:
    - [src/utils.py]                (coin universe, database schema),
    - [src/03_predict_and_trade.py] (prediction and its persistence),
    - [src/04_record_results.py]    (rank of the chosen coin),
    - [src/05_self_improve.py]      (backtest, promotion, versioning).

    Python floats are idealised as rationals ([Q]); Python ints that
    count positions are [nat], version numbers are [Z].  A Python
    [dict] whose iteration order matters is an association list in
    insertion order; JSON objects and SQL rows keyed by coin are
    [gmap]s.  A Python [str] is the [string] of the bytes of its
    UTF-8 encoding.  An exception that leaves a function is the [Raise]
    result. *)

From Stdlib Require Import QArith Lqa.
From stdpp Require Import gmap strings list fin_maps pretty sorting.

(** ** Python runtime *)

Module Py.

Inductive exn : Type :=
| ValueError (msg : string)
| TypeError
| KeyError (key : string)
| ZeroDivisionError
| OtherError (msg : string).

Inductive res (A : Type) : Type :=
| Ok (a : A)
| Raise (e : exn).
Arguments Ok {A} a.
Arguments Raise {A} e.

Definition bind {A B : Type} (r : res A) (k : A -> res B) : res B :=
  match r with
  | Ok a => k a
  | Raise e => Raise e
  end.

(** [a < b] on numbers. *)
Definition Qltb (a b : Q) : bool := negb (Qle_bool b a).

Section builtins.
Context {A : Type} (key : A -> Q).

(** One insertion of the stable descending sort: [x] comes from an
    earlier input position than every element of [l], so it is put
    in front of the first element whose key does not exceed its own. *)
Fixpoint insert_desc (x : A) (l : list A) : list A :=
  match l with
  | [] => [x]
  | y :: l' =>
      if Qle_bool (key y) (key x) then x :: y :: l'
      else y :: insert_desc x l'
  end.

(** [sorted(l, key=key, reverse=True)]: descending by key, elements
    with equal keys keep their input order. *)
Definition sorted_desc (l : list A) : list A := foldr insert_desc [] l.

(** [max(l, key=key)]: the first element with the largest key;
    [ValueError] on an empty sequence. *)
Definition py_max (l : list A) : res A :=
  match l with
  | [] => Raise (ValueError "max() arg is an empty sequence")
  | x :: l' =>
      Ok (foldl (fun best y => if Qltb (key best) (key y) then y else best) x l')
  end.

(** [a] may stand in front of [b] in a descending list. *)
Definition desc (a b : A) : Prop := (key b <= key a)%Q.

(** The first maximum, computed from the right as the sort does. *)
Fixpoint first_max (l : list A) : option A :=
  match l with
  | [] => None
  | x :: l' =>
      match first_max l' with
      | Some y => if Qle_bool (key y) (key x) then Some x else Some y
      | None => Some x
      end
  end.
End builtins.

(** [enumerate(l, start)]. *)
Fixpoint enumerate {A : Type} (start : nat) (l : list A) : list (nat * A) :=
  match l with
  | [] => []
  | x :: l' => (start, x) :: enumerate (S start) l'
  end.

(** [dict(l)] for a list of pairs, and a dict comprehension over it: a
    later pair with the same key overwrites an earlier one. *)
Definition dict_of {V : Type} (l : list (string * V)) : gmap string V :=
  foldl (fun m kv => <[kv.1 := kv.2]> m) ∅ l.

(** [d[k]]. *)
Definition getitem {V : Type} (d : gmap string V) (k : string) : res V :=
  match d !! k with
  | Some v => Ok v
  | None => Raise (KeyError k)
  end.

(** [[f(x) for x in l]] where [f] may raise. *)
Fixpoint comprehension {A B : Type} (f : A -> res B) (l : list A) : res (list B) :=
  match l with
  | [] => Ok []
  | x :: l' => bind (f x) (fun y => bind (comprehension f l') (fun ys => Ok (y :: ys)))
  end.

(** The values of the items as [max] and [sorted] can order them:
    ordering a [None] against anything, a number or another [None],
    is a [TypeError], and among two or more items every one of them is
    compared with another. *)
Definition comparable_items (l : list (string * option Q)) : res (list (string * Q)) :=
  comprehension (fun kv => match kv.2 with
                           | Some q => Ok (kv.1, q)
                           | None => Raise TypeError
                           end) l.

(** The items of a dict whose values are all numbers. *)
Definition number_items (l : list (string * Q)) : list (string * option Q) :=
  map (fun kv => (kv.1, Some kv.2)) l.

(** [max(d.items(), key=lambda x: x[1])] on values that may be [None]:
    a single item comes back without any comparison. *)
Definition max_item (l : list (string * option Q)) : res (string * option Q) :=
  match l with
  | [] => Raise (ValueError "max() arg is an empty sequence")
  | [x] => Ok x
  | _ =>
      bind (comparable_items l) (fun items =>
      bind (py_max snd items) (fun best => Ok (best.1, Some best.2)))
  end.

(** [f"{x:.2f}"]: the format specification of a float raises
    [TypeError] on [None].  The text itself is not kept. *)
Definition format_float (x : option Q) : res unit :=
  match x with
  | Some _ => Ok tt
  | None => Raise TypeError
  end.

(** The first [n] bytes of a text. *)
Definition written (n : nat) (text : string) : string := String.substring 0 n text.

(** [numpy.mean] of a non-empty list. *)
Definition np_mean (l : list Q) : Q :=
  (foldl Qplus 0 l / inject_Z (Z.of_nat (length l)))%Q.

(** The characters [str.strip()] removes are those of [str.isspace]:
    U+0009..U+000D, U+001C..U+0020, U+0085, U+00A0, U+1680,
    U+2000..U+200A, U+2028, U+2029, U+202F, U+205F and U+3000.  The
    first ten are one byte long in UTF-8, the next two take two bytes
    and the others three. *)
Definition is_space (c : Ascii.ascii) : bool :=
  let n := Ascii.nat_of_ascii c in
  ((9 <=? n) && (n <=? 13)) || ((28 <=? n) && (n <=? 32)).

(** U+0085 is [C2 85], U+00A0 is [C2 A0]. *)
Definition is_space2 (c1 c2 : Ascii.ascii) : bool :=
  let n1 := Ascii.nat_of_ascii c1 in
  let n2 := Ascii.nat_of_ascii c2 in
  (n1 =? 194) && ((n2 =? 133) || (n2 =? 160)).

(** U+1680 is [E1 9A 80]; U+2000..U+200A are [E2 80 80]..[E2 80 8A],
    U+2028, U+2029 and U+202F are [E2 80 A8], [E2 80 A9] and [E2 80 AF];
    U+205F is [E2 81 9F]; U+3000 is [E3 80 80]. *)
Definition is_space3 (c1 c2 c3 : Ascii.ascii) : bool :=
  let n1 := Ascii.nat_of_ascii c1 in
  let n2 := Ascii.nat_of_ascii c2 in
  let n3 := Ascii.nat_of_ascii c3 in
  ((n1 =? 225) && (n2 =? 154) && (n3 =? 128))
  || ((n1 =? 226) && (n2 =? 128)
      && (((128 <=? n3) && (n3 <=? 138)) || (n3 =? 168) || (n3 =? 169) || (n3 =? 175)))
  || ((n1 =? 226) && (n2 =? 129) && (n3 =? 159))
  || ((n1 =? 227) && (n2 =? 128) && (n3 =? 128)).

(** [s.lstrip()]. *)
Fixpoint lstrip (s : string) : string :=
  match s with
  | EmptyString => EmptyString
  | String c1 s1 =>
      if is_space c1 then lstrip s1
      else
        match s1 with
        | EmptyString => s
        | String c2 s2 =>
            if is_space2 c1 c2 then lstrip s2
            else
              match s2 with
              | EmptyString => s
              | String c3 s3 => if is_space3 c1 c2 c3 then lstrip s3 else s
              end
        end
  end.

(** [s.strip().startswith(p)] for a [p] that holds no whitespace:
    stripping the right end then cannot change the answer. *)
Definition strip_startswith (p s : string) : bool := String.prefix p (lstrip s).

(** The line feed character. *)
Definition LF : Ascii.ascii := Ascii.ascii_of_nat 10.

(** [s.endswith('\n')]. *)
Fixpoint endswith_newline (s : string) : bool :=
  match s with
  | EmptyString => false
  | String c EmptyString => bool_decide (c = LF)
  | String _ s' => endswith_newline s'
  end.

Definition newline : string := String LF EmptyString.

End Py.

Import Py.

(** ** [src/utils.py] *)

Module Utils.

Definition COINS : list string :=
  [ "BTCUSD"; "ETHUSD"; "SOLUSD"; "ADAUSD"; "DOGEUSD"; "AVAXUSD";
    "LINKUSD"; "MATICUSD"; "DOTUSD"; "LTCUSD"; "BCHUSD"; "XLMUSD";
    "ALGOUSD"; "UNIUSD"; "AAVEUSD"; "MKRUSD" ].

(** The six per-coin columns of table [trades]; every SQL column is
    nullable, [None] is [NULL]. *)
Record coin_columns : Type := {
  return_1h : option Q;
  return_6h : option Q;
  return_24h : option Q;
  rsi_14 : option Q;
  volume_ratio : option Q;
  news_sentiment : option Q
}.

Definition null_columns : coin_columns :=
  {| return_1h := None; return_6h := None; return_24h := None;
     rsi_14 := None; volume_ratio := None; news_sentiment := None |}.

(** A row of table [trades] (the [id] column is the position in the
    table).  [per_coin] holds the [<COIN>_*] columns; a coin without an
    entry has all six columns [NULL]. *)
Record trade : Type := {
  date : string;
  chosen_coin : option string;
  chosen_score : option Q;
  actual_24h_return_of_chosen : option Q;
  rank_of_chosen : option nat;
  per_coin : gmap string coin_columns;
  news_headlines : option string;
  perplexity_summary : option string;
  model_version : option Z
}.

Inductive improvement : Type := initial | daily | long_term.

(** A row of table [model_history]. *)
Record model_history_row : Type := {
  mh_date : string;
  version : Z;
  scorer_code : string;
  spearman_correlation : Q;
  avg_daily_return : Q;
  improvement_type : improvement
}.

Record database : Type := {
  trades : list trade;
  model_history : list model_history_row
}.

(** The persistent state: [trades.db], the file [current_scorer.py]
    ([None] when it does not exist) and the files
    [current_scorer.py.backup.v<n>], keyed by [n]. *)
Record world : Type := {
  db : database;
  current_scorer : option string;
  backups : gmap Z string
}.

(** The value of column [<coin>_<col>] of a row. *)
Definition column (col : coin_columns -> option Q) (row : trade) (coin : string) : option Q :=
  per_coin row !! coin ≫= col.

(** [SELECT * FROM trades WHERE date = ?] followed by [fetchone()]. *)
Definition select_by_date (d : string) (ts : list trade) : option trade :=
  find (fun r => bool_decide (date r = d)) ts.

Definition resolved (r : trade) : bool :=
  match actual_24h_return_of_chosen r with Some _ => true | None => false end.

(** Stable insertion sort of rows by an order on dates. *)
Fixpoint insert_row (before : string -> string -> bool) (x : trade) (l : list trade) : list trade :=
  match l with
  | [] => [x]
  | y :: l' =>
      if before (date x) (date y) then x :: y :: l'
      else y :: insert_row before x l'
  end.

Definition order_by_date (before : string -> string -> bool) (l : list trade) : list trade :=
  foldr (insert_row before) [] l.

(** [ORDER BY date DESC]: [x] goes in front of [y] when [date y <= date x]. *)
Definition date_desc (x y : string) : bool := String.leb y x.
Definition date_asc (x y : string) : bool := String.leb x y.

End Utils.

Import Utils.

(** ** [src/04_record_results.py] *)

Module RecordResults.

(** The [for rank, (coin, return_pct) in enumerate(sorted_coins, 1)]
    loop of [calculate_rank]: the first position holding [chosen_coin]. *)
Fixpoint first_rank (chosen_coin : string) (l : list (nat * (string * Q))) : option nat :=
  match l with
  | [] => None
  | (rank, (coin, _)) :: l' =>
      if bool_decide (coin = chosen_coin) then Some rank
      else first_rank chosen_coin l'
  end.

(** [calculate_rank(chosen_coin, all_returns)]; [all_returns] is the
    dict of realized returns as its [items()]. *)
Definition calculate_rank (chosen_coin : string) (all_returns : list (string * Q))
  : nat * list (string * Q) :=
  let sorted_coins := sorted_desc snd all_returns in
  match first_rank chosen_coin (enumerate 1 sorted_coins) with
  | Some rank => (rank, sorted_coins)
  | None => (16, sorted_coins)
  end.

End RecordResults.

(** ** [src/03_predict_and_trade.py] *)

Module PredictAndTrade.

(** The loaded [score_coin] function: called with the four features
    (a Python [None] is passed through as [None]) it returns a number,
    returns [None] (as a function does that ends without reaching a
    [return]), or raises.  Return values of other types are outside
    the model. *)
Definition score_fn : Type :=
  option Q -> option Q -> option Q -> option Q -> res (option Q).

(** [sentiment_cache.json]: only the ['sentiment'] object is read here. *)
Record sentiment_cache : Type := {
  sentiment : option (gmap string Q)
}.

(** [d.get(k, default)] on a JSON object of numbers. *)
Definition get_default (d : gmap string Q) (k : string) (dflt : Q) : Q :=
  default dflt (d !! k).

(** One iteration of the loop of [predict_best_coin]; [scores] is the
    dict built so far, in insertion order. *)
Definition predict_step (score_coin : score_fn)
    (price_data : gmap string (gmap string Q)) (sentiment_data : sentiment_cache)
    (scores : list (string * option Q)) (coin : string)
  : res (list (string * option Q)) :=
  match price_data !! coin with
  | None => Ok scores                                     (* continue *)
  | Some coin_price =>
      match default ∅ (sentiment sentiment_data) !! coin with
      | None => Ok scores                                 (* continue *)
      | Some coin_sentiment =>
          bind (score_coin (Some (get_default coin_price "return_24h" 0))
                           (Some (get_default coin_price "return_6h" 0))
                           (Some (get_default coin_price "volume_ratio" 1))
                           (Some coin_sentiment))
               (fun score => Ok (scores ++ [(coin, score)]))
      end
  end.

Fixpoint predict_loop (score_coin : score_fn)
    (price_data : gmap string (gmap string Q)) (sentiment_data : sentiment_cache)
    (scores : list (string * option Q)) (coins : list string)
  : res (list (string * option Q)) :=
  match coins with
  | [] => Ok scores
  | coin :: coins' =>
      bind (predict_step score_coin price_data sentiment_data scores coin)
           (fun scores' => predict_loop score_coin price_data sentiment_data scores' coins')
  end.

(** [predict_best_coin(price_data, sentiment_data)] with the module
    level [current_scorer.score_coin] as a parameter. *)
Definition predict_best_coin (score_coin : score_fn)
    (price_data : gmap string (gmap string Q)) (sentiment_data : sentiment_cache)
  : res (string * option Q * list (string * option Q)) :=
  bind (predict_loop score_coin price_data sentiment_data [] COINS) (fun scores =>
    match scores with
    | [] => Raise (ValueError "No coins could be scored")
    | _ => bind (max_item scores) (fun best_coin => Ok (best_coin.1, best_coin.2, scores))
    end).

Definition set_prediction (coin : string) (score : Q) (r : trade) : trade :=
  {| date := date r;
     chosen_coin := Some coin;
     chosen_score := Some score;
     actual_24h_return_of_chosen := actual_24h_return_of_chosen r;
     rank_of_chosen := rank_of_chosen r;
     per_coin := per_coin r;
     news_headlines := news_headlines r;
     perplexity_summary := perplexity_summary r;
     model_version := model_version r |}.

(** [INSERT INTO trades (date, chosen_coin, chosen_score)]: the other
    columns are [NULL], [model_version] takes its default 1. *)
Definition new_trade (today coin : string) (score : Q) : trade :=
  {| date := today;
     chosen_coin := Some coin;
     chosen_score := Some score;
     actual_24h_return_of_chosen := None;
     rank_of_chosen := None;
     per_coin := ∅;
     news_headlines := None;
     perplexity_summary := None;
     model_version := Some 1%Z |}.

(** [record_prediction(coin, score, all_scores)] run on the day
    [today]; [all_scores] is not used by the source either. *)
Definition record_prediction (today : string) (coin : string) (score : Q)
    (all_scores : list (string * Q)) (d : database) : database :=
  match select_by_date today (trades d) with
  | Some _ =>
      {| trades := map (fun r => if bool_decide (date r = today)
                                 then set_prediction coin score r else r) (trades d);
         model_history := model_history d |}
  | None =>
      {| trades := trades d ++ [new_trade today coin score];
         model_history := model_history d |}
  end.

End PredictAndTrade.

(** ** [src/05_self_improve.py] *)

Module SelfImprove.
Import PredictAndTrade.

(** Accumulators of the day loop of [backtest_scorer]; [score_calls]
    counts the invocations of [score_func] made so far. *)
Record backtest_acc : Type := {
  all_predicted_ranks : list nat;
  all_actual_ranks : list nat;
  daily_returns : list Q;
  score_calls : nat
}.

Definition empty_acc : backtest_acc :=
  {| all_predicted_ranks := []; all_actual_ranks := [];
     daily_returns := []; score_calls := 0 |}.

(** The guarded call [try: score = score_func(...) except: score = 0]
    for one coin of one day; every column exists in the row, so the
    defaults of [row_dict.get] are never taken and a [NULL] reaches
    the function as [None]. *)
Definition guarded_score (score_func : score_fn) (row : trade) (coin : string)
  : option Q :=
  match score_func (column return_24h row coin) (column return_6h row coin)
                   (column volume_ratio row coin) (column news_sentiment row coin) with
  | Ok score => score
  | Raise _ => Some 0%Q
  end.

(** The loop [for coin in COINS] filling [scores]. *)
Definition score_all (score_func : score_fn) (row : trade) (calls : nat)
  : list (string * option Q) * nat :=
  foldl (fun '(scores, n) coin =>
           (scores ++ [(coin, guarded_score score_func row coin)], S n))
        ([], calls) COINS.

(** [{coin: i+1 for i, (coin, _) in enumerate(sorted_items)}]. *)
Definition ranking (sorted_items : list (string * Q)) : gmap string nat :=
  dict_of (map (fun '(i, (coin, _)) => (coin, i + 1)) (enumerate 0 sorted_items)).

(** [{coin: row_dict.get(f'{coin}_return_24h', 0) for coin in COINS}]. *)
Definition actual_returns_of (row : trade) : list (string * option Q) :=
  map (fun coin => (coin, column return_24h row coin)) COINS.

(** The body of [for row in rows].  [scores] and [actual_returns]
    hold the sixteen coins, so [sorted] compares every score and every
    return. *)
Definition backtest_day (score_func : score_fn) (acc : backtest_acc) (row : trade)
  : res backtest_acc :=
  let '(scores, calls) := score_all score_func row (score_calls acc) in
  match scores with
  | [] => Ok {| all_predicted_ranks := all_predicted_ranks acc;
                all_actual_ranks := all_actual_ranks acc;
                daily_returns := daily_returns acc;
                score_calls := calls |}                        (* continue *)
  | _ =>
    bind (max_item scores) (fun predicted =>
    let predicted_coin := predicted.1 in
    let actual_returns := actual_returns_of row in
    bind (comparable_items scores) (fun numbers =>
    let sorted_by_score := sorted_desc snd numbers in
    let predicted_ranking := ranking sorted_by_score in
    bind (comparable_items actual_returns) (fun returns =>
    let sorted_by_return := sorted_desc snd returns in
    let actual_ranking := ranking sorted_by_return in
    bind (comprehension (getitem predicted_ranking) COINS) (fun predicted_ranks_for_day =>
    bind (comprehension (getitem actual_ranking) COINS) (fun actual_ranks_for_day =>
    let actual_return := default 0%Q (dict_of returns !! predicted_coin) in
    Ok {| all_predicted_ranks := all_predicted_ranks acc ++ predicted_ranks_for_day;
          all_actual_ranks := all_actual_ranks acc ++ actual_ranks_for_day;
          daily_returns := daily_returns acc ++ [actual_return];
          score_calls := calls |})))))
  end.

Fixpoint backtest_rows (score_func : score_fn) (acc : backtest_acc) (rows : list trade)
  : res backtest_acc :=
  match rows with
  | [] => Ok acc
  | row :: rows' =>
      bind (backtest_day score_func acc row) (fun acc' =>
        backtest_rows score_func acc' rows')
  end.

(** [SELECT * FROM trades WHERE actual_24h_return_of_chosen IS NOT NULL
     ORDER BY date DESC LIMIT days]. *)
Definition select_resolved (days : nat) (w : world) : list trade :=
  take days (order_by_date date_desc (List.filter resolved (trades (db w)))).

(** [get_current_performance()]: SQL [AVG] and [COUNT] over the
    resolved rows. *)
Definition get_current_performance (w : world) : option Q * nat :=
  let returns := omap actual_24h_return_of_chosen (trades (db w)) in
  if 0 <? length returns then (Some (np_mean returns), length returns)
  else (None, 0).

Definition get_current_scorer_code (w : world) : option string := current_scorer w.

(** SQL [MAX(model_version)]: [NULL]s are skipped, [NULL] on no value. *)
Definition max_model_version (ts : list trade) : option Z :=
  foldr (fun r acc =>
           match model_version r, acc with
           | Some v, Some a => Some (Z.max v a)
           | Some v, None => Some v
           | None, _ => acc
           end) None ts.

(** [get_current_model_version()]: the maximum, or 1 when it is
    [NULL] or zero. *)
Definition get_current_model_version (w : world) : Z :=
  match max_model_version (trades (db w)) with
  | Some v => if (v =? 0)%Z then 1%Z else v
  | None => 1%Z
  end.

Definition get_yesterday_trade_data (yesterday : string) (w : world) : option trade :=
  select_by_date yesterday (trades (db w)).

(** The promotion test [corr_improvement >= 0.04 or return_improvement >= 0.25]. *)
Definition threshold_met (corr_improvement return_improvement : Q) : bool :=
  Qle_bool 0.04 corr_improvement || Qle_bool 0.25 return_improvement.

(** Where an exception raised by a write can stop [upgrade_model]:
    opening the backup file, writing it, opening [current_scorer.py]
    (which truncates it), writing it, and the [INSERT] with its commit.
    A failing write is stopped after [n] bytes reached the file. *)
Inductive fault : Type :=
| BackupOpenFails
| BackupWriteFails (n : nat)
| ScorerOpenFails
| ScorerWriteFails (n : nat)
| InsertFails.

Definition set_backup (n : Z) (code : string) (w : world) : world :=
  {| db := db w; current_scorer := current_scorer w;
     backups := <[n := code]> (backups w) |}.

Definition set_scorer (text : string) (w : world) : world :=
  {| db := db w; current_scorer := Some text; backups := backups w |}.

Definition insert_model_history (row : model_history_row) (w : world) : world :=
  {| db := {| trades := trades (db w);
              model_history := model_history (db w) ++ [row] |};
     current_scorer := current_scorer w; backups := backups w |}.

(** The text written to [current_scorer.py]. *)
Definition scorer_file_text (new_version : Z) (code : string) : string :=
  "# Version " +:+ pretty new_version
    +:+ " – auto-upgraded by self-improvement engine" +:+ newline
    +:+ code +:+ (if endswith_newline code then "" else newline).

Section externals.

(** [exec(scorer_code, namespace)] then [namespace.get('score_coin')]:
    [None] when the code raises or defines no such function. *)
Variable py_exec : string -> option score_fn.

(** [scipy.stats.spearmanr], its correlation component. *)
Variable spearmanr : list nat -> list nat -> Q.

(** [re.search] with the [def score_coin(...): ... return <word>]
    pattern and with the fenced code block pattern. *)
Variable re_search_score_coin : string -> option string.
Variable re_search_code_block : string -> option string.

(** [backtest_scorer(scorer_code, days)], with the number of
    [score_func] invocations it made.  A [None] in place of the
    code makes [exec] raise inside the [try]. *)
Definition backtest_scorer_counted (scorer_code : option string) (days : nat) (w : world)
  : res (option (Q * Q) * nat) :=
  let rows := select_resolved days w in
  if length rows <? 10 then Ok (None, 0)
  else
    match scorer_code ≫= py_exec with
    | None => Ok (None, 0)
    | Some score_func =>
        bind (backtest_rows score_func empty_acc rows) (fun acc =>
          if length (all_predicted_ranks acc) <? 10 then Ok (None, score_calls acc)
          else
            let correlation :=
              spearmanr (all_predicted_ranks acc) (all_actual_ranks acc) in
            let avg_return := np_mean (daily_returns acc) in
            Ok (Some (correlation, avg_return), score_calls acc))
    end.

Definition backtest_scorer (scorer_code : option string) (days : nat) (w : world)
  : res (option (Q * Q)) :=
  bind (backtest_scorer_counted scorer_code days w) (fun r => Ok r.1).

(** The reformatting of the code in [upgrade_model]. *)
Definition format_code (new_scorer_code : string) : string :=
  if negb (strip_startswith "def" new_scorer_code) then
    match re_search_score_coin new_scorer_code with
    | Some func_match => func_match
    | None => new_scorer_code
    end
  else new_scorer_code.

(** [upgrade_model(new_scorer_code, correlation, avg_return,
    improvement_type)] run on the day [today]. *)
Definition upgrade_model (today : string) (new_scorer_code : string)
    (correlation avg_return : Q) (improvement_type : improvement) (w : world) : world :=
  (* Backup old version *)
  let w1 := match current_scorer w with
            | Some old_code => set_backup (get_current_model_version w) old_code w
            | None => w
            end in
  (* Write new version *)
  let new_version := (get_current_model_version w1 + 1)%Z in
  let code := format_code new_scorer_code in
  let w2 := set_scorer (scorer_file_text new_version code) w1 in
  (* Record in model_history *)
  insert_model_history
    {| mh_date := today; version := new_version; scorer_code := code;
       spearman_correlation := correlation; avg_daily_return := avg_return;
       improvement_type := improvement_type |} w2.

(** The same function in a run that [stop] interrupts: nothing in
    [upgrade_model] catches the exception, so the run ends there with
    what was written so far.  [open(..., 'w')] creates or truncates the
    file before anything is written to it, so a write that fails leaves
    the first bytes of the text, none when [n] is 0.  A fault of the
    backup step does not occur when there is no file to back up.  The
    second component tells whether the run completed. *)
Definition upgrade_model_io (stop : option fault) (today : string)
    (new_scorer_code : string) (correlation avg_return : Q)
    (improvement_type : improvement) (w : world) : world * bool :=
  let backup :=
    match current_scorer w with
    | Some old_code =>
        let slot := get_current_model_version w in
        match stop with
        | Some BackupOpenFails => (w, false)
        | Some (BackupWriteFails n) => (set_backup slot (written n old_code) w, false)
        | _ => (set_backup slot old_code w, true)
        end
    | None => (w, true)
    end in
  let '(w1, ok1) := backup in
  if negb ok1 then (w1, false)
  else
    let new_version := (get_current_model_version w1 + 1)%Z in
    let code := format_code new_scorer_code in
    let text := scorer_file_text new_version code in
    match stop with
    | Some ScorerOpenFails => (w1, false)
    | Some (ScorerWriteFails n) => (set_scorer (written n text) w1, false)
    | Some InsertFails => (set_scorer text w1, false)
    | _ =>
        (insert_model_history
           {| mh_date := today; version := new_version; scorer_code := code;
              spearman_correlation := correlation; avg_daily_return := avg_return;
              improvement_type := improvement_type |} (set_scorer text w1), true)
    end.

(** The code taken from the oracle's answer, in
    [ask_perplexity_why_right_wrong] and in [long_term_improvement]. *)
Definition extract_code (answer : string) : string :=
  match re_search_score_coin answer with
  | Some code_match => code_match
  | None =>
      match re_search_code_block answer with
      | Some code_block => code_block
      | None => answer
      end
  end.

(** [ask_perplexity_why_right_wrong(yesterday_data)]: [key_set] tells
    whether [PERPLEXITY_KEY] is set and [reply] is the content of the
    oracle's reply, [None] when the request or the extraction raises
    inside the [try].  The prompt is built before the [try]: it formats
    the return of every coin and the return of the chosen coin with
    [:.2f], and every column is a key of the row, so a [NULL] is
    formatted as [None]. *)
Definition ask_perplexity_why_right_wrong (key_set : bool) (reply : option string)
    (yesterday_data : trade) : res (option string) :=
  if negb key_set then Ok None
  else
    bind (comprehension
            (fun coin => format_float (column return_24h yesterday_data coin)) COINS)
      (fun returns_str =>
    bind (format_float (actual_24h_return_of_chosen yesterday_data))
      (fun actual_return =>
    match reply with
    | Some answer => Ok (Some (extract_code answer))
    | None => Ok None                                    (* except Exception *)
    end)).

(** [long_term_improvement()] run on the day [today]; [answer] is the
    oracle's reply, [None] when the key is not set or the request
    raises (which the [try] catches). *)
Definition long_term_improvement (today : string) (answer : option string) (w : world)
  : world :=
  let count := length (List.filter resolved (trades (db w))) in
  if count <? 30 then w
  else
    match answer with
    | None => w
    | Some answer =>
        let scorer_code := extract_code answer in
        match backtest_scorer (Some scorer_code) 180 w with
        | Raise _ => w                                   (* except Exception *)
        | Ok None => w
        | Ok (Some (correlation, avg_return_new)) =>
            match backtest_scorer (get_current_scorer_code w) 180 w with
            | Raise _ => w                               (* except Exception *)
            | Ok current =>
                match fst <$> current, (get_current_performance w).1 with
                | Some current_corr, Some current_avg =>
                    let corr_improvement :=
                      if Qeq_bool current_corr 0 then 0%Q
                      else (correlation - current_corr)%Q in
                    let return_improvement :=
                      if Qeq_bool current_avg 0 then 0%Q
                      else (avg_return_new - current_avg)%Q in
                    if threshold_met corr_improvement return_improvement
                    then upgrade_model today scorer_code correlation avg_return_new
                                       long_term w
                    else w
                | _, _ => w
                end
            end
        end
    end.

(** The comparison made by [main] once the candidate has been
    backtested and an active scorer exists: the two improvements. *)
Definition daily_improvement (correlation avg_return : Q)
    (current_scorer_code : string) (w : world) : res (Q * Q) :=
  bind (backtest_scorer (Some current_scorer_code) 180 w) (fun current =>
    let current_corr := default 0%Q (fst <$> current) in
    let current_avg := default 0%Q (get_current_performance w).1 in
    let corr_improvement := (correlation - current_corr)%Q in
    let return_improvement := (avg_return - current_avg)%Q in
    Ok (corr_improvement, return_improvement)).

(** [main()] from [if not new_scorer_code] to the end of step 3:
    [Ok None] is an early [return], [Ok (Some w')] falls through to
    step 4. *)
Definition daily_step3 (today : string) (new_scorer_code : option string)
    (w : world) : res (option world) :=
  match new_scorer_code with
  | None | Some EmptyString => Ok None
  | Some new_scorer_code =>
      bind (backtest_scorer (Some new_scorer_code) 180 w) (fun candidate =>
        match candidate with
        | None => Ok None
        | Some (correlation, avg_return) =>
            match get_current_scorer_code w with
            | None | Some EmptyString =>
                Ok (Some (upgrade_model today new_scorer_code correlation
                                        avg_return initial w))
            | Some current_scorer_code =>
                bind (daily_improvement correlation avg_return
                                        current_scorer_code w)
                  (fun improvement =>
                     if threshold_met improvement.1 improvement.2
                     then Ok (Some (upgrade_model today new_scorer_code correlation
                                                  avg_return daily w))
                     else Ok (Some w))
            end
        end)
  end.

(** Steps 1 and 3 of [main()] for a given result [new_scorer_code] of
    step 2. *)
Definition daily_cycle (today yesterday : string) (new_scorer_code : option string)
    (w : world) : res (option world) :=
  match get_yesterday_trade_data yesterday w with
  | None => Ok None
  | Some yesterday_data => daily_step3 today new_scorer_code w
  end.

(** [main()]: [today] and [yesterday] are the formatted dates,
    [days_since_start] the days elapsed since 2024-01-01, [key_set]
    and [reply] what [ask_perplexity_why_right_wrong] gets from the
    environment and from the oracle, and [long_answer] the oracle's
    reply to the long-term prompt.  An exception leaves [main] before
    anything is written. *)
Definition main (today yesterday : string) (days_since_start : Z)
    (key_set : bool) (reply long_answer : option string) (w : world) : res world :=
  match get_yesterday_trade_data yesterday w with
  | None => Ok w
  | Some yesterday_data =>
      bind (ask_perplexity_why_right_wrong key_set reply yesterday_data)
        (fun new_scorer_code =>
      bind (daily_step3 today new_scorer_code w) (fun step3 =>
        match step3 with
        | None => Ok w
        | Some w' =>
            if (days_since_start mod 30 =? 0)%Z
            then Ok (long_term_improvement today long_answer w')
            else Ok w'
        end))
  end.

End externals.

End SelfImprove.

(** ** Vocabulary of the statements *)

Module Spec.
Import PredictAndTrade SelfImprove.

(** Number of items whose value is strictly greater than [v]. *)
Definition count_gt (v : Q) (l : list (string * Q)) : nat :=
  length (List.filter (fun kv => Qltb v kv.2) l).

(** The value of coin [c] in [l] together with the number of items that
    stand ahead of it in the descending order: an item listed before
    [c] is ahead when its value is at least that of [c], an item
    listed after [c] when its value is strictly greater. *)
Fixpoint standing (c : string) (l : list (string * Q)) : option (Q * nat) :=
  match l with
  | [] => None
  | (k, v) :: l' =>
      if bool_decide (k = c) then Some (v, count_gt v l')
      else match standing c l' with
           | Some (vc, n) => Some (vc, if Qle_bool vc v then S n else n)
           | None => None
           end
  end.

(** The 1-indexed rank of [c] among the items [l]; 0 when [c] is not
    among them. *)
Definition rank_among (l : list (string * Q)) (c : string) : nat :=
  match standing c l with
  | Some (_, n) => S n
  | None => 0
  end.

(** A strategy: a scoring function that maps the features of an asset
    to a real-valued score, or fails. *)
Definition strategy : Type :=
  option Q -> option Q -> option Q -> option Q -> res Q.

(** The Python function that computes a strategy. *)
Definition scorer_of (s : strategy) : score_fn := fun return_24h return_6h volume_ratio
                                                     news_sentiment =>
  match s return_24h return_6h volume_ratio news_sentiment with
  | Ok score => Ok (Some score)
  | Raise e => Raise e
  end.

(** The score of an asset on a day: the strategy applied to the
    features stored in the record of that day, the neutral score 0
    when the invocation fails. *)
Definition strategy_score (s : strategy) (row : trade) (coin : string) : Q :=
  match s (column return_24h row coin) (column return_6h row coin)
          (column volume_ratio row coin) (column news_sentiment row coin) with
  | Ok score => score
  | Raise _ => 0%Q
  end.

(** The scores of a day under a strategy, in universe order. *)
Definition day_scores (score_func : strategy) (row : trade) : list (string * Q) :=
  map (fun coin => (coin, strategy_score score_func row coin)) COINS.

(** The realized returns of a day, in universe order. *)
Definition day_returns (row : trade) : list (string * Q) :=
  map (fun coin => (coin, default 0%Q (column return_24h row coin))) COINS.

(** Every coin of the universe has a realized return in the row. *)
Definition complete (row : trade) : Prop :=
  Forall (fun coin => is_Some (column return_24h row coin)) COINS.

(** The coin ranked first by the scores of the day. *)
Definition first_ranked (score_func : strategy) (row : trade) : option string :=
  find (fun coin => rank_among (day_scores score_func row) coin =? 1) COINS.

(** The realized return of the coin ranked first that day. *)
Definition top_return (score_func : strategy) (row : trade) : Q :=
  match first_ranked score_func row with
  | Some coin => default 0%Q (column return_24h row coin)
  | None => 0%Q
  end.

(** The pooled rank sequences of a window: for every day, the rank of
    every coin of the universe. *)
Definition pooled_predicted (score_func : strategy) (rows : list trade) : list nat :=
  concat (map (fun row => map (rank_among (day_scores score_func row)) COINS) rows).

Definition pooled_actual (rows : list trade) : list nat :=
  concat (map (fun row => map (rank_among (day_returns row)) COINS) rows).

(** The features handed to the scorer for a coin that has both a
    price snapshot and a sentiment entry. *)
Definition features (price_data : gmap string (gmap string Q))
    (sentiment_data : sentiment_cache) (coin : string) : option (Q * Q * Q * Q) :=
  match price_data !! coin, default ∅ (sentiment sentiment_data) !! coin with
  | Some coin_price, Some coin_sentiment =>
      Some (get_default coin_price "return_24h" 0,
            get_default coin_price "return_6h" 0,
            get_default coin_price "volume_ratio" 1,
            coin_sentiment)
  | _, _ => None
  end.

Definition apply_scorer (score_coin : strategy) (f : Q * Q * Q * Q) : res Q :=
  score_coin (Some f.1.1.1) (Some f.1.1.2) (Some f.1.2) (Some f.2).

(** The entry of [scores] a coin gets, if any. *)
Definition scored (score_coin : strategy) (price_data : gmap string (gmap string Q))
    (sentiment_data : sentiment_cache) (coin : string) : option (string * Q) :=
  match features price_data sentiment_data coin with
  | Some f => match apply_scorer score_coin f with
              | Ok score => Some (coin, score)
              | Raise _ => None
              end
  | None => None
  end.

(** The mean realized return of the chosen coin over all resolved
    rows of the table. *)
Definition realized_mean (w : world) : option Q :=
  match omap actual_24h_return_of_chosen (trades (db w)) with
  | [] => None
  | returns => Some (np_mean returns)
  end.

(** Rows agree on everything but the two prediction columns. *)
Definition same_outcome_and_features (r r' : trade) : Prop :=
  date r' = date r
  ∧ actual_24h_return_of_chosen r' = actual_24h_return_of_chosen r
  ∧ rank_of_chosen r' = rank_of_chosen r
  ∧ per_coin r' = per_coin r
  ∧ news_headlines r' = news_headlines r
  ∧ perplexity_summary r' = perplexity_summary r
  ∧ model_version r' = model_version r.

(** The active scorer file holds code recorded in [model_history]. *)
Definition active_code_logged (w : world) : Prop :=
  match current_scorer w with
  | Some text =>
      ∃ row, row ∈ model_history (db w)
             ∧ text = scorer_file_text (version row) (scorer_code row)
  | None => True
  end.

End Spec.

(** ** Concrete data *)

Module Scenarios.
Import PredictAndTrade SelfImprove Spec.

(** [def score_coin(...): return return_24h + return_6h] *)
Definition momentum_src : string :=
  "def score_coin(return_24h, return_6h, volume_ratio, news_sentiment):
    return return_24h + return_6h".

Definition momentum : strategy := fun return_24h return_6h _ _ =>
  match return_24h, return_6h with
  | Some a, Some b => Ok (a + b)%Q
  | _, _ => Raise TypeError
  end.

(** [def score_coin(...): return -return_24h] *)
Definition contrarian_src : string :=
  "def score_coin(return_24h, return_6h, volume_ratio, news_sentiment):
    return -return_24h".

Definition contrarian : strategy := fun return_24h _ _ _ =>
  match return_24h with
  | Some a => Ok (- a)%Q
  | None => Raise TypeError
  end.

(** [def score_coin(...): return return_24h / volume_ratio] *)
Definition per_volume : strategy := fun return_24h _ volume_ratio _ =>
  match return_24h, volume_ratio with
  | Some a, Some v => if Qeq_bool v 0 then Raise ZeroDivisionError else Ok (a / v)%Q
  | _, _ => Raise TypeError
  end.

(** A loader that knows the two sources above. *)
Definition exec_known (code : string) : option score_fn :=
  if bool_decide (code = momentum_src) then Some (scorer_of momentum)
  else if bool_decide (code = contrarian_src) then Some (scorer_of contrarian)
  else None.

Definition sumQ (l : list nat) : Q := inject_Z (Z.of_nat (foldr Nat.add 0 l)).

(** The Pearson coefficient of two sequences with the same spread:
    what [spearmanr] gives on two sequences in which every rank
    occurs equally often. *)
Definition rank_pearson (xs ys : list nat) : Q :=
  let n := inject_Z (Z.of_nat (length xs)) in
  ((n * sumQ (zip_with Nat.mul xs ys) - sumQ xs * sumQ ys)
   / (n * sumQ (zip_with Nat.mul xs xs) - sumQ xs * sumQ xs))%Q.

Definition no_match (s : string) : option string := None.

Definition columns (r24 : Q) : coin_columns :=
  {| return_1h := Some 0%Q; return_6h := Some 0%Q; return_24h := Some r24;
     rsi_14 := Some 50%Q; volume_ratio := Some 1%Q; news_sentiment := Some 0%Q |}.

(** Day [k]: the coin at position [i] of the universe returned
    [(7 i + k) mod 16] percent. *)
Definition day_return (k i : nat) : Q := inject_Z (Z.of_nat ((7 * i + k) mod 16)).

Definition day_columns (k : nat) : gmap string coin_columns :=
  list_to_map (imap (fun i coin => (coin, columns (day_return k i))) COINS).

(** A resolved row: BTCUSD was chosen. *)
Definition resolved_day (d : string) (k : nat) : trade :=
  {| date := d;
     chosen_coin := Some "BTCUSD";
     chosen_score := Some 1%Q;
     actual_24h_return_of_chosen := Some (day_return k 0);
     rank_of_chosen :=
       Some (RecordResults.calculate_rank "BTCUSD"
               (imap (fun i coin => (coin, day_return k i)) COINS)).1;
     per_coin := day_columns k;
     news_headlines := Some "";
     perplexity_summary := Some "";
     model_version := Some 1%Z |}.

Definition history : list trade :=
  [ resolved_day "2024-03-01" 1; resolved_day "2024-03-02" 2;
    resolved_day "2024-03-03" 3; resolved_day "2024-03-04" 4;
    resolved_day "2024-03-05" 5; resolved_day "2024-03-06" 6;
    resolved_day "2024-03-07" 7; resolved_day "2024-03-08" 8;
    resolved_day "2024-03-09" 9; resolved_day "2024-03-10" 10;
    resolved_day "2024-03-11" 11; resolved_day "2024-03-12" 12 ].

(** Twelve resolved days, the contrarian scorer active. *)
Definition world12 : world :=
  {| db := {| trades := history; model_history := [] |};
     current_scorer := Some contrarian_src;
     backups := ∅ |}.

(** The same history with an active file that does not load. *)
Definition world_broken : world :=
  {| db := {| trades := history; model_history := [] |};
     current_scorer := Some "score_coin = ";
     backups := ∅ |}.

(** Three resolved days only. *)
Definition world3 : world :=
  {| db := {| trades := take 3 history; model_history := [] |};
     current_scorer := Some contrarian_src;
     backups := ∅ |}.

(** A price cache without BTCUSD; ETHUSD lacks its volume ratio. *)
Definition prices_no_btc : gmap string (gmap string Q) :=
  {[ "ETHUSD" := {[ "return_24h" := 2%Q; "return_6h" := 1%Q ]} ]}.

Definition sentiment_eth : sentiment_cache :=
  {| sentiment := Some {[ "ETHUSD" := 0.5%Q ]} |}.

(** A price cache in which no volume was traded in BTCUSD. *)
Definition prices_flat_volume : gmap string (gmap string Q) :=
  {[ "BTCUSD" := {[ "return_24h" := 3%Q; "return_6h" := 1%Q; "volume_ratio" := 0%Q ]};
     "ETHUSD" := {[ "return_24h" := 2%Q; "return_6h" := 1%Q; "volume_ratio" := 1%Q ]} ]}.

Definition sentiment_both : sentiment_cache :=
  {| sentiment := Some {[ "BTCUSD" := 0%Q; "ETHUSD" := 0.5%Q ]} |}.

(** A resolved day on which no volume was traded in BTCUSD. *)
Definition flat_volume_day : trade :=
  {| date := "2024-03-01";
     chosen_coin := Some "BTCUSD";
     chosen_score := Some 1%Q;
     actual_24h_return_of_chosen := Some 3%Q;
     rank_of_chosen := Some 13;
     per_coin :=
       <["BTCUSD" := {| return_1h := Some 0%Q; return_6h := Some 1%Q;
                        return_24h := Some 3%Q; rsi_14 := Some 50%Q;
                        volume_ratio := Some 0%Q; news_sentiment := Some 0%Q |}]>
         (day_columns 1);
     news_headlines := Some "";
     perplexity_summary := Some "";
     model_version := Some 1%Z |}.

(** The realized returns of day 1 as [fetch_actual_returns] builds them. *)
Definition returns_day1 : list (string * Q) :=
  imap (fun i coin => (coin, day_return 1 i)) COINS.

(** A table holding one prediction, with the database defaults. *)
Definition one_prediction : world :=
  {| db := {| trades := [new_trade "2024-03-13" "BTCUSD" 1]; model_history := [] |};
     current_scorer := Some contrarian_src;
     backups := ∅ |}.

(** The same table before any scorer file has been written. *)
Definition fresh_world : world :=
  {| db := {| trades := [new_trade "2024-03-13" "BTCUSD" 1]; model_history := [] |};
     current_scorer := None;
     backups := ∅ |}.

(** A run in which the [INSERT] into [model_history] raises, and one
    in which the first write to [current_scorer.py] does. *)
Definition insert_fails : option fault := Some InsertFails.

Definition header_write_fails : option fault := Some (ScorerWriteFails 0).

End Scenarios.

(** ** More of the Python runtime *)

Module PyDict.

(** [d[k] = v] on a dict kept as its items in insertion order: an
    existing key keeps its place, a new key goes last. *)
Fixpoint dict_set {V : Type} (k : string) (v : V) (d : list (string * V))
  : list (string * V) :=
  match d with
  | [] => [(k, v)]
  | (k', v') :: d' =>
      if bool_decide (k' = k) then (k, v) :: d'
      else (k', v') :: dict_set k v d'
  end.

(** [d.get(k)] on such a dict. *)
Fixpoint dict_get {V : Type} (k : string) (d : list (string * V)) : option V :=
  match d with
  | [] => None
  | (k', v') :: d' => if bool_decide (k' = k) then Some v' else dict_get k d'
  end.

(** [sep.join(l)] for a list of strings. *)
Fixpoint join (sep : string) (l : list string) : string :=
  match l with
  | [] => ""
  | [s] => s
  | s :: l' => s +:+ sep +:+ join sep l'
  end.

(** [needle in hay] for strings. *)
Fixpoint contains (needle hay : string) : bool :=
  String.prefix needle hay
  || match hay with
     | EmptyString => false
     | String _ hay' => contains needle hay'
     end.

(** Truth value of a number. *)
Definition truthy (q : Q) : bool := negb (Qeq_bool q 0).

(** A JSON object whose values are strings or [null]. *)
Definition json_strings : Type := gmap string (option string).

(** [h.get(k, '')]: the default only replaces a missing key, a [null]
    comes back as [None]. *)
Definition get_str (h : json_strings) (k : string) : option string :=
  match h !! k with
  | Some v => v
  | None => Some ""
  end.

(** A value used where Python needs a [str]. *)
Definition as_str (v : option string) : res string :=
  match v with
  | Some s => Ok s
  | None => Raise TypeError
  end.

End PyDict.

Import PyDict.

(** ** [src/04_record_results.py], the rest *)

Module Recorder.
Import RecordResults PredictAndTrade.

(** What the two [client.get_aggs] calls for one coin give: the closes
    of the hourly bars around 24 hours ago and of the latest bars;
    either call may raise. *)
Record aggs_reply : Type := {
  aggs_24h : res (list Q);
  aggs_now : res (list Q)
}.

(** The body of the [try] of [fetch_actual_returns] for one coin. *)
Definition coin_return (reply : aggs_reply) : Q :=
  match aggs_24h reply with
  | Raise _ => 0%Q                                          (* except *)
  | Ok bars_24h =>
      match aggs_now reply with
      | Raise _ => 0%Q                                      (* except *)
      | Ok bars_now =>
          match last bars_24h, last bars_now with
          | Some price_24h_ago, Some price_now =>
              if truthy price_24h_ago && truthy price_now && Qltb 0 price_24h_ago
              then ((price_now / price_24h_ago - 1) * 100)%Q
              else 0%Q
          | _, _ => 0%Q                                     (* an empty list *)
          end
      end
  end.

(** [fetch_actual_returns()]: the dict [returns], as its items. *)
Definition fetch_actual_returns (api : string -> aggs_reply) : list (string * Q) :=
  foldl (fun returns coin => dict_set coin (coin_return (api coin)) returns) [] COINS.

(** [sentiment_cache.json] in full. *)
Record sentiment_file : Type := {
  sf_sentiment : option (gmap string Q);
  sf_headlines : option (gmap string (list json_strings));
  sf_summaries : option (gmap string (option string))
}.

(** The columns written for one coin. *)
Definition coin_update (all_returns : list (string * Q))
    (price_data : gmap string (gmap string Q)) (sentiment_data : sentiment_file)
    (coin : string) : coin_columns :=
  let return_val := default 0%Q (dict_get coin all_returns) in
  let sentiment_val := default 0%Q (default ∅ (sf_sentiment sentiment_data) !! coin) in
  match price_data !! coin with
  | Some coin_price =>
      {| return_1h := Some (get_default coin_price "return_1h" 0);
         return_6h := Some (get_default coin_price "return_6h" 0);
         return_24h := Some return_val;
         rsi_14 := Some (get_default coin_price "rsi_14" 50);
         volume_ratio := Some (get_default coin_price "volume_ratio" 1);
         news_sentiment := Some sentiment_val |}
  | None =>
      {| return_1h := Some 0%Q;
         return_6h := Some 0%Q;
         return_24h := Some return_val;
         rsi_14 := Some 50%Q;
         volume_ratio := Some 1%Q;
         news_sentiment := Some sentiment_val |}
  end.

(** ["\n".join([h.get('title', '') for h in headlines[:5]])] for the
    chosen coin, [""] when it has no headlines entry. *)
Definition headlines_text_of (chosen_coin : option string)
    (sentiment_data : sentiment_file) : res string :=
  match chosen_coin ≫= (fun c => default ∅ (sf_headlines sentiment_data) !! c) with
  | Some headlines =>
      bind (comprehension (fun h => as_str (get_str h "title")) (take 5 headlines))
           (fun titles => Ok (join newline titles))
  | None => Ok ""
  end.

(** [sentiment_data['summaries'].get(chosen_coin, '')], [""] when the
    coin has no summaries entry. *)
Definition summary_text_of (chosen_coin : option string)
    (sentiment_data : sentiment_file) : option string :=
  match chosen_coin ≫= (fun c => default ∅ (sf_summaries sentiment_data) !! c) with
  | Some summary => summary
  | None => Some ""
  end.

(** The [SET] part of the [UPDATE] applied to one row. *)
Definition set_outcome (actual_return : Q) (rank : nat)
    (all_returns : list (string * Q)) (price_data : gmap string (gmap string Q))
    (sentiment_data : sentiment_file) (headlines_text : string)
    (summary_text : option string) (r : trade) : trade :=
  {| date := date r;
     chosen_coin := chosen_coin r;
     chosen_score := chosen_score r;
     actual_24h_return_of_chosen := Some actual_return;
     rank_of_chosen := Some rank;
     per_coin :=
       foldl (fun cols coin =>
                <[coin := coin_update all_returns price_data sentiment_data coin]> cols)
             (per_coin r) COINS;
     news_headlines := Some headlines_text;
     perplexity_summary := summary_text;
     model_version := model_version r |}.

(** [record_results(chosen_coin, actual_return, rank, all_returns,
    price_data, sentiment_data)] run for the day [yesterday]. *)
Definition record_results (yesterday : string) (chosen_coin : option string)
    (actual_return : Q) (rank : nat) (all_returns : list (string * Q))
    (price_data : gmap string (gmap string Q)) (sentiment_data : sentiment_file)
    (d : database) : res database :=
  bind (headlines_text_of chosen_coin sentiment_data) (fun headlines_text =>
    let summary_text := summary_text_of chosen_coin sentiment_data in
    Ok {| trades :=
            map (fun r => if bool_decide (date r = yesterday)
                          then set_outcome actual_return rank all_returns price_data
                                           sentiment_data headlines_text summary_text r
                          else r) (trades d);
          model_history := model_history d |}).

(** [main()] of the recorder: [api] stands for the market data service,
    [price_data] and [sentiment_data] for the two cache files (empty
    objects when a file is missing). *)
Definition main (yesterday : string) (api : string -> aggs_reply)
    (price_data : gmap string (gmap string Q)) (sentiment_data : sentiment_file)
    (d : database) : res database :=
  match select_by_date yesterday (trades d) with
  | None => Ok d
  | Some result =>
      let chosen := chosen_coin result in
      let all_returns := fetch_actual_returns api in
      let actual_return :=
        default 0%Q (chosen ≫= fun c => dict_get c all_returns) in
      let rank :=
        match chosen with
        | Some c => (calculate_rank c all_returns).1
        | None => 16
        end in
      record_results yesterday chosen actual_return rank all_returns
                     price_data sentiment_data d
  end.

End Recorder.

(** ** [src/03_predict_and_trade.py], the rest *)

Module Trader.
Import PredictAndTrade.

(** The brokerage client as [execute_trade] uses it: every call may
    raise. *)
Record broker : Type := {
  get_account_cash : res Q;
  get_all_positions : res (list string);
  close_position : string -> res unit;
  submit_order : string -> Q -> res string
}.

(** A call that changed the account. *)
Inductive action : Type :=
| Closed (symbol : string)
| Bought (symbol : string) (notional : Q).

(** The loop closing the other positions; it stops at the first call
    that raises. *)
Fixpoint close_others (b : broker) (coin : string) (positions : list string)
    (done : list action) : list action * bool :=
  match positions with
  | [] => (done, true)
  | symbol :: positions' =>
      if bool_decide (symbol = coin) then close_others b coin positions' done
      else match close_position b symbol with
           | Ok _ => close_others b coin positions' (done ++ [Closed symbol])
           | Raise _ => (done, false)
           end
  end.

(** [execute_trade(coin, client)]: the calls that took effect and the
    order returned ([None] for Python's [None]). *)
Definition execute_trade (coin : string) (b : broker) : list action * option string :=
  match get_account_cash b with
  | Raise _ => ([], None)
  | Ok cash =>
      if Qltb cash 1 then ([], None)
      else
        match get_all_positions b with
        | Raise _ => ([], None)
        | Ok positions =>
            if existsb (fun symbol => bool_decide (symbol = coin)) positions
            then ([], None)
            else
              match close_others b coin positions [] with
              | (done, false) => (done, None)
              | (done, true) =>
                  match submit_order b coin cash with
                  | Ok order => (done ++ [Bought coin cash], Some order)
                  | Raise _ => (done, None)
                  end
              end
        end
  end.

(** [main()] of the predictor run on the day [today]: the two cache
    files ([None] when missing), the active scorer and the broker
    ([None] when the client cannot be built).  The result holds the
    database and the brokerage calls that took effect. *)
Definition main (today : string) (score_coin : score_fn)
    (data_file : option (gmap string (gmap string Q)))
    (sentiment_file : option sentiment_cache) (client : option broker)
    (d : database) : res (database * list action) :=
  match data_file, sentiment_file with
  | Some price_data, Some sentiment_data =>
      bind (predict_best_coin score_coin price_data sentiment_data) (fun prediction =>
        let '(best_coin, best_score, all_scores) := prediction in
        (* the log lines format the best score and every score with :.4f *)
        match best_score with
        | None => Raise TypeError
        | Some score =>
            bind (comparable_items all_scores) (fun scores =>
              let d' := record_prediction today best_coin score scores d in
              match client with
              | Some b => Ok (d', (execute_trade best_coin b).1)
              | None => Ok (d', [])
              end)
        end)
  | _, _ => Raise (OtherError "FileNotFoundError")
  end.

End Trader.

(** ** [src/02_sentiment.py] *)

Module Sentiment.

Definition positive_keywords : list string :=
  [ "surge"; "rally"; "up"; "gain"; "bullish"; "breakthrough"; "launch";
    "partnership"; "adoption" ].

Definition negative_keywords : list string :=
  [ "crash"; "drop"; "down"; "loss"; "bearish"; "hack"; "ban"; "regulation";
    "warning" ].

(** [sum(1 for word in keywords if word in text)]. *)
Definition keyword_count (keywords : list string) (text : string) : nat :=
  length (List.filter (fun word => contains word text) keywords).

(** The contribution of one headline to the score, in tenths. *)
Definition tenths (text : string) : Z :=
  Z.of_nat (keyword_count positive_keywords text)
  - Z.of_nat (keyword_count negative_keywords text).

Section lower.

(** [str.lower]. *)
Variable py_lower : string -> string.

(** [(headline.get('title', '') + ' ' + headline.get('description', '')).lower()]. *)
Definition headline_text (headline : json_strings) : res string :=
  bind (as_str (get_str headline "title")) (fun t =>
  bind (as_str (get_str headline "description")) (fun d =>
  Ok (py_lower (t +:+ " " +:+ d)))).

(** The loop over the headlines. *)
Fixpoint score_headlines (score : Q) (headlines : list json_strings) : res Q :=
  match headlines with
  | [] => Ok score
  | headline :: headlines' =>
      bind (headline_text headline) (fun text =>
        let pos_count := keyword_count positive_keywords text in
        let neg_count := keyword_count negative_keywords text in
        score_headlines
          (score + inject_Z (Z.of_nat pos_count - Z.of_nat neg_count) * 0.1)%Q
          headlines')
  end.

(** [max(-1.0, min(1.0, x))]. *)
Definition clamp (x : Q) : Q :=
  let m := if Qltb x 1 then x else 1%Q in
  if Qltb (-1) m then m else (-1)%Q.

(** [calculate_sentiment_score(headlines, summary)]. *)
Definition calculate_sentiment_score (headlines : list json_strings)
    (summary : option string) : res Q :=
  match headlines with
  | [] => Ok 0%Q
  | _ =>
      bind (score_headlines 0 headlines) (fun score =>
        Ok (clamp (score / inject_Z (Z.of_nat (length headlines)))))
  end.

End lower.

End Sentiment.

(** ** The daily operations as steps on the persistent state *)

Module System.
Import PredictAndTrade SelfImprove.

Definition with_db (d : database) (w : world) : world :=
  {| db := d; current_scorer := current_scorer w; backups := backups w |}.

(** An installation before its first run: empty tables, any scorer file. *)
Definition installed (scorer_file : option string) : world :=
  {| db := {| trades := []; model_history := [] |};
     current_scorer := scorer_file;
     backups := ∅ |}.

Section externals.

Variable py_exec : string -> option score_fn.
Variable spearmanr : list nat -> list nat -> Q.
Variable re_search_score_coin : string -> option string.
Variable re_search_code_block : string -> option string.

(** The states the three daily jobs can produce, whatever the market
    data, the caches, the scorer, the oracle and the calendar give. *)
Inductive reachable : world -> Prop :=
| reach_installed (scorer_file : option string) :
    reachable (installed scorer_file)
| reach_predict (w : world) (today coin : string) (score : Q)
    (all_scores : list (string * Q)) :
    reachable w ->
    reachable (with_db (record_prediction today coin score all_scores (db w)) w)
| reach_record (w : world) (yesterday : string) (api : string -> Recorder.aggs_reply)
    (price_data : gmap string (gmap string Q))
    (sentiment_data : Recorder.sentiment_file) (d' : database) :
    reachable w ->
    Recorder.main yesterday api price_data sentiment_data (db w) = Ok d' ->
    reachable (with_db d' w)
| reach_improve (w w' : world) (today yesterday : string) (days_since_start : Z)
    (key_set : bool) (reply long_answer : option string) :
    reachable w ->
    main py_exec spearmanr re_search_score_coin re_search_code_block
         today yesterday days_since_start key_set reply long_answer w = Ok w' ->
    reachable w'.

End externals.

End System.

(** ** More concrete data *)

Module Scenarios2.
Import PredictAndTrade SelfImprove Spec Scenarios Recorder Trader.

(** A market data service for which BTCUSD rose from 100 to 105, the
    request for ETHUSD fails and every other coin has no bars. *)
Definition api_btc_up (coin : string) : aggs_reply :=
  if bool_decide (coin = "BTCUSD")
  then {| aggs_24h := Ok [99%Q; 100%Q]; aggs_now := Ok [104%Q; 105%Q] |}
  else if bool_decide (coin = "ETHUSD")
  then {| aggs_24h := Raise (OtherError "timeout"); aggs_now := Ok [10%Q] |}
  else {| aggs_24h := Ok []; aggs_now := Ok [] |}.

Definition empty_sentiment_file : sentiment_file :=
  {| sf_sentiment := None; sf_headlines := None; sf_summaries := None |}.

(** Headlines for BTCUSD, the second without a title. *)
Definition sentiment_null_title : sentiment_file :=
  {| sf_sentiment := Some {[ "BTCUSD" := 0.2%Q ]};
     sf_headlines :=
       Some {[ "BTCUSD" := [ {[ "title" := Some "Bitcoin rally" ]};
                             {[ "title" := None ]} ] ]};
     sf_summaries := Some {[ "BTCUSD" := None ]} |}.

Definition sentiment_titles : sentiment_file :=
  {| sf_sentiment := Some {[ "BTCUSD" := 0.2%Q ]};
     sf_headlines :=
       Some {[ "BTCUSD" := [ {[ "title" := Some "Bitcoin rally" ]};
                             {[ "description" := Some "no title here" ]} ] ]};
     sf_summaries := Some {[ "BTCUSD" := Some "Bullish." ]} |}.

(** A table with the prediction of 2024-03-13 only. *)
Definition predicted_db : database := db one_prediction.

(** A broker holding ETHUSD and SOLUSD with 250 in cash; every call
    succeeds. *)
Definition broker_two_positions : broker :=
  {| get_account_cash := Ok 250%Q;
     get_all_positions := Ok ["ETHUSD"; "SOLUSD"];
     close_position := fun _ => Ok tt;
     submit_order := fun _ _ => Ok "order-1" |}.

(** The same broker when closing SOLUSD fails. *)
Definition broker_close_fails : broker :=
  {| get_account_cash := Ok 250%Q;
     get_all_positions := Ok ["ETHUSD"; "SOLUSD"];
     close_position := fun symbol =>
       if bool_decide (symbol = "SOLUSD") then Raise (OtherError "rejected")
       else Ok tt;
     submit_order := fun _ _ => Ok "order-1" |}.

(** Two headlines with keywords, already in lower case. *)
Definition two_headlines : list json_strings :=
  [ {[ "title" := Some "bitcoin rally after launch";
       "description" := Some "prices up" ]};
    {[ "title" := Some "exchange hack";
       "description" := Some "regulation warning" ]} ].

Definition ascii_lower (s : string) : string := s.

(** [def score_coin(...): return return_24h * 1] *)
Definition foresight_src : string :=
  "def score_coin(return_24h, return_6h, volume_ratio, news_sentiment):
    return return_24h * 1".

Definition foresight : strategy := fun return_24h _ _ _ =>
  match return_24h with
  | Some a => Ok a
  | None => Raise TypeError
  end.

(** A resolved row whose per-coin columns were never written. *)
Definition gap_day : trade :=
  {| date := "2024-03-13";
     chosen_coin := Some "BTCUSD";
     chosen_score := Some 1%Q;
     actual_24h_return_of_chosen := Some 1%Q;
     rank_of_chosen := Some 16;
     per_coin := ∅;
     news_headlines := None;
     perplexity_summary := None;
     model_version := Some 1%Z |}.

Definition world_gap : world :=
  {| db := {| trades := history ++ [gap_day]; model_history := [] |};
     current_scorer := Some contrarian_src;
     backups := ∅ |}.

(** Twelve resolved days and no scorer file yet. *)
Definition world_cold : world :=
  {| db := {| trades := history; model_history := [] |};
     current_scorer := None;
     backups := ∅ |}.

(** Thirty resolved days in April. *)
Definition april (k : nat) : string :=
  "2024-04-" +:+ (if k <? 10 then "0" else "") +:+ pretty k.

Definition history30 : list trade :=
  map (fun k => resolved_day (april k) k) (seq 1 30).

Definition world30 : world :=
  {| db := {| trades := history30; model_history := [] |};
     current_scorer := Some contrarian_src;
     backups := ∅ |}.

(** A correlation that is 0 on every input. *)
Definition zero_correlation (xs ys : list nat) : Q := 0%Q.

Definition exec_foresight (code : string) : option score_fn :=
  if bool_decide (code = foresight_src) then Some (scorer_of foresight) else None.

(** A function that ends without a value when the return is not
    positive:
    [def score_coin(...):
         if return_24h > 0:
             return return_24h] *)
Definition cut_src : string :=
  "def score_coin(return_24h, return_6h, volume_ratio, news_sentiment):
    if return_24h > 0:
        return return_24h".

Definition cut : score_fn := fun return_24h _ _ _ =>
  match return_24h with
  | Some a => if Qltb 0 a then Ok (Some a) else Ok None
  | None => Raise TypeError
  end.

Definition exec_cut (code : string) : option score_fn :=
  if bool_decide (code = cut_src) then Some cut else None.

(** [def score_coin(...): return return_6h * 1] and
    [def score_coin(...): return volume_ratio * 1] *)
Definition by_6h_src : string :=
  "def score_coin(return_24h, return_6h, volume_ratio, news_sentiment):
    return return_6h * 1".

Definition by_6h : strategy := fun _ return_6h _ _ =>
  match return_6h with
  | Some a => Ok a
  | None => Raise TypeError
  end.

Definition by_volume_src : string :=
  "def score_coin(return_24h, return_6h, volume_ratio, news_sentiment):
    return volume_ratio * 1".

Definition by_volume : strategy := fun _ _ volume_ratio _ =>
  match volume_ratio with
  | Some a => Ok a
  | None => Raise TypeError
  end.

Definition exec_boundary (code : string) : option score_fn :=
  if bool_decide (code = by_6h_src) then Some (scorer_of by_6h)
  else if bool_decide (code = by_volume_src) then Some (scorer_of by_volume)
  else None.

(** Three ways to order the universe by a feature: as the realized
    returns do (16 for the first coin down to 1 for the last), the
    other way round, and as the returns do but for three pairs of
    coins that change places. *)
Definition ladder (i : nat) : Q := inject_Z (Z.of_nat (16 - i)).

Definition reversed (i : nat) : Q := inject_Z (Z.of_nat (i + 1)).

Definition swapped (i : nat) : Q :=
  ladder (match i with
          | 0 => 12 | 12 => 0
          | 1 => 9 | 9 => 1
          | 2 => 10 | 10 => 2
          | _ => i
          end).

(** A resolved day on which the coin at position [i] returned
    [ladder i] percent, BTCUSD was chosen and the features [return_6h]
    and [volume_ratio] are as given. *)
Definition boundary_day (d : string) (r6 vol : nat -> Q) : trade :=
  {| date := d;
     chosen_coin := Some "BTCUSD";
     chosen_score := Some 16%Q;
     actual_24h_return_of_chosen := Some (ladder 0);
     rank_of_chosen := Some 1;
     per_coin :=
       list_to_map
         (imap (fun i coin =>
                  (coin, {| return_1h := Some 0%Q; return_6h := Some (r6 i);
                            return_24h := Some (ladder i); rsi_14 := Some 50%Q;
                            volume_ratio := Some (vol i);
                            news_sentiment := Some 0%Q |})) COINS);
     news_headlines := Some "";
     perplexity_summary := Some "";
     model_version := Some 1%Z |}.

(** Thirty resolved days.  [return_6h] orders the coins as the returns
    do on days 1 to 15, the other way round on days 16 to 29 and with
    the three swaps on day 30; [volume_ratio] orders them as the
    returns do on odd days and the other way round on even days. *)
Definition boundary_history : list trade :=
  map (fun k => boundary_day (april k)
                  (if k <=? 15 then ladder else if k <=? 29 then reversed else swapped)
                  (if Nat.odd k then ladder else reversed))
      (seq 1 30).

(** The scorer by volume ratio is active. *)
Definition world_boundary : world :=
  {| db := {| trades := boundary_history; model_history := [] |};
     current_scorer := Some by_volume_src;
     backups := ∅ |}.

End Scenarios2.

(** * Proofs *)

Import RecordResults PredictAndTrade SelfImprove Spec Scenarios.

(** * Facts about the Python built-ins *)

Module PyFacts.

Lemma Qle_bool_true (a b : Q) : Qle_bool a b = true <-> (a <= b)%Q.
Proof. apply Qle_bool_iff. Qed.

Lemma Qle_bool_false (a b : Q) : Qle_bool a b = false <-> (b < a)%Q.
Proof.
  split; intros H.
  - apply Qnot_le_lt. intros Hle. apply Qle_bool_iff in Hle. congruence.
  - destruct (Qle_bool a b) eqn:E; [|done].
    apply Qle_bool_iff in E. exfalso. lra.
Qed.

Lemma Qltb_true (a b : Q) : Qltb a b = true <-> (a < b)%Q.
Proof.
  unfold Qltb. rewrite negb_true_iff. apply Qle_bool_false.
Qed.

Lemma Qltb_false (a b : Q) : Qltb a b = false <-> (b <= a)%Q.
Proof.
  unfold Qltb. rewrite negb_false_iff. apply Qle_bool_true.
Qed.

(** Turns every boolean comparison of the context into an order fact. *)
Ltac order_facts :=
  repeat match goal with
    | H : Qle_bool _ _ = true |- _ => apply Qle_bool_true in H
    | H : Qle_bool _ _ = false |- _ => apply Qle_bool_false in H
    | H : Qltb _ _ = true |- _ => apply Qltb_true in H
    | H : Qltb _ _ = false |- _ => apply Qltb_false in H
    end.

Section sorting.
Context {A : Type} (key : A -> Q).

Lemma insert_desc_perm (x : A) (l : list A) : insert_desc key x l ≡ₚ x :: l.
Proof.
  induction l as [|y l IH]; simpl; [done|].
  destruct (Qle_bool (key y) (key x)); [done|].
  rewrite IH. apply Permutation_swap.
Qed.

Lemma sorted_desc_perm (l : list A) : sorted_desc key l ≡ₚ l.
Proof.
  induction l as [|x l IH]; simpl; [done|].
  rewrite insert_desc_perm. by rewrite IH.
Qed.

Lemma sorted_desc_length (l : list A) : length (sorted_desc key l) = length l.
Proof. by rewrite sorted_desc_perm. Qed.

Lemma insert_desc_sorted (x : A) (l : list A) :
  StronglySorted (desc key) l -> StronglySorted (desc key) (insert_desc key x l).
Proof.
  induction 1 as [|y l Hs IH Hy]; simpl.
  - repeat constructor.
  - destruct (Qle_bool (key y) (key x)) eqn:E; order_facts.
    + constructor; [by constructor|].
      constructor; [done|].
      eapply Forall_impl; [exact Hy|]. unfold desc. intros z Hz. lra.
    + constructor; [done|].
      rewrite insert_desc_perm. constructor; [|done].
      unfold desc. lra.
Qed.

Lemma sorted_desc_sorted (l : list A) : StronglySorted (desc key) (sorted_desc key l).
Proof.
  induction l as [|x l IH]; simpl; [constructor|].
  by apply insert_desc_sorted.
Qed.

Lemma head_insert_desc (x : A) (l : list A) :
  head (insert_desc key x l) =
    match head l with
    | Some y => if Qle_bool (key y) (key x) then Some x else Some y
    | None => Some x
    end.
Proof.
  destruct l as [|y l]; simpl; [done|].
  by destruct (Qle_bool (key y) (key x)).
Qed.

Lemma head_sorted_desc (l : list A) : head (sorted_desc key l) = first_max key l.
Proof.
  induction l as [|x l IH]; simpl; [done|].
  by rewrite head_insert_desc, IH.
Qed.

Lemma foldl_max_first_max (l : list A) (best : A) :
  foldl (fun b y => if Qltb (key b) (key y) then y else b) best l =
    match first_max key l with
    | Some y => if Qle_bool (key y) (key best) then best else y
    | None => best
    end.
Proof.
  revert best. induction l as [|x l IH]; intros best; simpl; [done|].
  rewrite IH. destruct (first_max key l) as [y|].
  - destruct (Qltb (key best) (key x)) eqn:E1;
      destruct (Qle_bool (key y) (key x)) eqn:E2;
      destruct (Qle_bool (key y) (key best)) eqn:E3;
      destruct (Qle_bool (key x) (key best)) eqn:E4;
      order_facts; try done; exfalso; lra.
  - destruct (Qltb (key best) (key x)) eqn:E1;
      destruct (Qle_bool (key x) (key best)) eqn:E4;
      order_facts; try done; exfalso; lra.
Qed.

(** [max] picks the element that the stable descending sort puts first. *)
Lemma py_max_head (l : list A) (x : A) :
  py_max key l = Ok x <-> head (sorted_desc key l) = Some x.
Proof.
  rewrite head_sorted_desc.
  destruct l as [|a l]; simpl; [split; intros; discriminate|].
  rewrite foldl_max_first_max.
  destruct (first_max key l) as [y|]; [|split; intros; congruence].
  destruct (Qle_bool (key y) (key a)); split; intros; congruence.
Qed.
End sorting.

(** Items whose values are all numbers can be ordered, and only they. *)
Lemma comparable_number_items (l : list (string * Q)) :
  comparable_items (number_items l) = Ok l.
Proof.
  unfold comparable_items, number_items.
  induction l as [|[k v] l IH]; [done|].
  cbn [map comprehension fst snd bind]. by rewrite IH.
Qed.

Lemma comparable_items_numbers (l : list (string * option Q)) (l' : list (string * Q)) :
  comparable_items l = Ok l' -> l = number_items l'.
Proof.
  unfold comparable_items, number_items. revert l'.
  induction l as [|[k [v|]] l IH]; intros l'; cbn [comprehension fst snd bind].
  - by intros [= <-].
  - destruct (comprehension _ l) as [ys|e]; [|done].
    cbn [bind]. intros [= <-]. cbn [map fst snd]. by rewrite <- (IH ys).
  - done.
Qed.

Lemma comparable_items_none (l : list (string * option Q)) (k : string) :
  (k, None) ∈ l -> comparable_items l = Raise TypeError.
Proof.
  unfold comparable_items.
  induction l as [|[k' [v|]] l IH]; intros Hin; cbn [comprehension fst snd bind].
  - by apply elem_of_nil in Hin.
  - apply elem_of_cons in Hin as [Hin|Hin]; [discriminate|].
    by rewrite (IH Hin).
  - done.
Qed.

Lemma comparable_items_cases (l : list (string * option Q)) :
  (∃ l', comparable_items l = Ok l') ∨ comparable_items l = Raise TypeError.
Proof.
  unfold comparable_items.
  induction l as [|[k [v|]] l IH]; cbn [comprehension fst snd bind].
  - left. by eexists.
  - destruct IH as [[l' ->]| ->]; [left; by eexists|by right].
  - by right.
Qed.

Lemma number_items_keys (l : list (string * Q)) : (number_items l).*1 = l.*1.
Proof.
  unfold number_items. rewrite <- list_fmap_compose. by apply list_fmap_ext.
Qed.

(** [max] over items that are all numbers. *)
Lemma max_item_numbers (l : list (string * Q)) (x : string * Q) :
  py_max snd l = Ok x -> max_item (number_items l) = Ok (x.1, Some x.2).
Proof.
  destruct l as [|[k v] [|kv l]].
  - done.
  - cbn. by intros [= <-].
  - intros Hmax. unfold max_item.
    change (number_items ((k, v) :: kv :: l))
      with ((k, Some v) :: (kv.1, Some kv.2) :: number_items l).
    cbv iota beta.
    change ((k, Some v) :: (kv.1, Some kv.2) :: number_items l)
      with (number_items ((k, v) :: kv :: l)).
    rewrite comparable_number_items. cbn [bind]. by rewrite Hmax.
Qed.

(** [max] over two or more items of which one is [None]. *)
Lemma max_item_none (l : list (string * option Q)) (k : string) :
  2 <= length l -> (k, None) ∈ l -> max_item l = Raise TypeError.
Proof.
  intros Hlen Hin. destruct l as [|x [|y l]]; [simpl in Hlen; lia..|].
  unfold max_item. by rewrite (comparable_items_none _ k Hin).
Qed.

End PyFacts.

Import PyFacts.

(** * Positions in the sorted order *)

Module RankFacts.

Implicit Types (l s : list (string * Q)) (c k : string) (v u : Q) (n : nat).

Lemma NoDup_COINS : NoDup COINS.
Proof. refine (bool_decide_unpack _ _). vm_compute. exact I. Qed.

Lemma length_COINS : length COINS = 16.
Proof. reflexivity. Qed.

Lemma first_rank_shift c n l :
  first_rank c (enumerate (S n) l) = S <$> first_rank c (enumerate n l).
Proof.
  revert n. induction l as [|[k v] l IH]; intros n; simpl; [done|].
  case_bool_decide; [done|]. apply IH.
Qed.

Lemma first_rank_absent c n l :
  c ∉ l.*1 -> first_rank c (enumerate n l) = None.
Proof.
  revert n. induction l as [|[k v] l IH]; intros n Hc; simpl; [done|].
  simpl in Hc. apply not_elem_of_cons in Hc as [Hne Hc].
  case_bool_decide; [congruence|]. by apply IH.
Qed.

Lemma first_rank_present c n l r :
  first_rank c (enumerate n l) = Some r ->
  ∃ v, l !! (r - n) = Some (c, v) ∧ n <= r ∧ r < n + length l.
Proof.
  revert n. induction l as [|[k v] l IH]; intros n; simpl; [done|].
  case_bool_decide as Hk.
  - intros [= <-]. subst k. exists v. rewrite Nat.sub_diag. split; [done|lia].
  - intros Hr. destruct (IH _ Hr) as (v' & Hl & Hle & Hlt).
    exists v'. replace (r - n) with (S (r - S n)) by lia. split; [done|lia].
Qed.

Lemma count_gt_perm v l l' : l ≡ₚ l' -> count_gt v l = count_gt v l'.
Proof.
  intros Hp. unfold count_gt.
  induction Hp as [|x l1 l2 _ IH|x y l1|l1 l2 l3 _ IH1 _ IH2]; simpl.
  - done.
  - destruct (Qltb v x.2); simpl; lia.
  - destruct (Qltb v x.2), (Qltb v y.2); simpl; lia.
  - lia.
Qed.

Lemma count_gt_zero v s :
  Forall (fun kv => (kv.2 <= v)%Q) s -> count_gt v s = 0.
Proof.
  unfold count_gt. induction 1 as [|x s Hx _ IH]; simpl; [done|].
  destruct (Qltb v x.2) eqn:E; [|done]. order_facts. exfalso. lra.
Qed.

(** A new item lands behind exactly the items that are strictly greater. *)
Lemma first_rank_insert_self c v n s :
  StronglySorted (desc snd) s -> c ∉ s.*1 ->
  first_rank c (enumerate n (insert_desc snd (c, v) s)) = Some (n + count_gt v s).
Proof.
  intros Hs. revert n. induction Hs as [|[k u] s Hs IH Hall]; intros n Hc; simpl.
  - rewrite bool_decide_eq_true_2 by done. f_equal. unfold count_gt. simpl. lia.
  - simpl in Hc. apply not_elem_of_cons in Hc as [Hne Hc].
    destruct (Qle_bool u v) eqn:E; simpl.
    + rewrite bool_decide_eq_true_2 by done.
      rewrite (count_gt_zero v ((k, u) :: s)); [f_equal; lia|].
      order_facts. constructor; [done|].
      eapply Forall_impl; [exact Hall|]. unfold desc. simpl. intros z Hz. lra.
    + rewrite bool_decide_eq_false_2 by congruence.
      rewrite IH by done. f_equal. unfold count_gt. simpl.
      unfold Qltb at 2. simpl. rewrite E. simpl. lia.
Qed.

(** Inserting another coin moves [c] back by one exactly when the new
    value is at least the value of [c]. *)
Lemma first_rank_insert_other c v k u n s :
  StronglySorted (desc snd) s -> k ≠ c ->
  (c, v) ∈ s -> (∀ v', (c, v') ∈ s -> v' = v) ->
  first_rank c (enumerate n (insert_desc snd (k, u) s)) =
    (fun r => if Qle_bool v u then S r else r) <$> first_rank c (enumerate n s).
Proof.
  intros Hs Hk. revert n.
  induction Hs as [|[k' u'] s Hs IH Hall]; intros n Hin Huniq; simpl.
  - by apply elem_of_nil in Hin.
  - destruct (decide (k' = c)) as [->|Hk'].
    + assert (u' = v) as -> by (apply Huniq; left).
      destruct (Qle_bool v u) eqn:E; simpl.
      * rewrite bool_decide_eq_false_2 by done.
        by rewrite bool_decide_eq_true_2.
      * by rewrite bool_decide_eq_true_2.
    + apply elem_of_cons in Hin as [Hin|Hin]; [congruence|].
      destruct (Qle_bool u' u) eqn:E; simpl.
      * rewrite !bool_decide_eq_false_2 by done.
        assert (Qle_bool v u = true) as ->.
        { rewrite Forall_forall in Hall. specialize (Hall _ Hin).
          unfold desc in Hall. simpl in Hall. order_facts.
          apply Qle_bool_true. lra. }
        apply first_rank_shift.
      * rewrite bool_decide_eq_false_2 by done.
        apply IH; [done|]. intros v' Hv'. apply Huniq. by right.
Qed.

Lemma standing_elem c l vc n : standing c l = Some (vc, n) -> (c, vc) ∈ l.
Proof.
  revert n. induction l as [|[k v] l IH]; intros n; simpl; [done|].
  case_bool_decide as Hk.
  - intros [= <- _]. subst k. left.
  - destruct (standing c l) as [[vc' m]|] eqn:E; [|done].
    intros [= <- _]. right. by eapply IH.
Qed.

Lemma standing_absent c l : standing c l = None <-> c ∉ l.*1.
Proof.
  induction l as [|[k v] l IH]; simpl.
  - split; [intros _; apply not_elem_of_nil|done].
  - rewrite not_elem_of_cons. case_bool_decide as Hk.
    + split; [done|]. intros [Hne _]. congruence.
    + destruct (standing c l) as [[vc m]|].
      * split; [done|]. intros [_ Hc]. by apply IH in Hc.
      * split; [|done]. intros _. split; [congruence|]. by apply IH.
Qed.

Lemma unique_value c v l :
  NoDup l.*1 -> (c, v) ∈ l -> ∀ v', (c, v') ∈ l -> v' = v.
Proof.
  intros Hnd Hin v' Hin'.
  apply (elem_of_list_to_map (M := gmap string)) in Hin; [|done].
  apply (elem_of_list_to_map (M := gmap string)) in Hin'; [|done].
  congruence.
Qed.

(** The position of a coin in the sorted items is its standing. *)
Lemma first_rank_sorted c n l :
  NoDup l.*1 ->
  first_rank c (enumerate n (sorted_desc snd l)) =
    (fun p => n + p.2) <$> standing c l.
Proof.
  induction l as [|[k v] l IH]; intros Hnd; simpl; [done|].
  simpl in Hnd. apply NoDup_cons in Hnd as [Hk Hnd].
  case_bool_decide as Hkc.
  - subst k. rewrite first_rank_insert_self.
    + simpl. do 2 f_equal. apply count_gt_perm, sorted_desc_perm.
    + apply sorted_desc_sorted.
    + by rewrite sorted_desc_perm.
  - destruct (standing c l) as [[vc m]|] eqn:E.
    + assert ((c, vc) ∈ l) as Hin by (by eapply standing_elem).
      rewrite (first_rank_insert_other c vc).
      * rewrite IH by done. simpl. destruct (Qle_bool vc v); simpl; f_equal; lia.
      * apply sorted_desc_sorted.
      * done.
      * by rewrite sorted_desc_perm.
      * intros v'. rewrite sorted_desc_perm. by apply unique_value.
    + simpl. apply first_rank_absent.
      rewrite insert_desc_perm, sorted_desc_perm. simpl.
      apply not_elem_of_cons. split; [congruence|]. by apply standing_absent.
Qed.

Lemma dict_of_nodup {V : Type} (l : list (string * V)) :
  NoDup l.*1 -> dict_of l = list_to_map l.
Proof.
  unfold dict_of.
  assert (∀ m : gmap string V, NoDup l.*1 ->
            foldl (fun m kv => <[kv.1 := kv.2]> m) m l = list_to_map l ∪ m) as H.
  { induction l as [|[k v] l IH]; intros m Hnd; simpl.
    - by rewrite (left_id_L ∅ (∪)).
    - simpl in Hnd. apply NoDup_cons in Hnd as [Hk Hnd].
      rewrite IH by done. rewrite <- insert_union_r, insert_union_l; [done|].
      by apply not_elem_of_list_to_map_1. }
  intros Hnd. rewrite H by done. by rewrite (right_id_L ∅ (∪)).
Qed.

Lemma ranking_keys n s :
  (map (fun '(i, (coin, _)) => (coin, i + 1)) (enumerate n s)).*1 = s.*1.
Proof.
  revert n. induction s as [|[k v] s IH]; intros n; simpl; [done|].
  by rewrite IH.
Qed.

Lemma ranking_lookup_from c n s :
  (list_to_map (map (fun '(i, (coin, _)) => (coin, i + 1)) (enumerate n s))
     : gmap string nat) !! c = first_rank c (enumerate (S n) s).
Proof.
  revert n. induction s as [|[k v] s IH]; intros n; simpl; [done|].
  case_bool_decide as Hk.
  - subst k. rewrite lookup_insert_eq. f_equal. lia.
  - rewrite lookup_insert_ne by done. apply IH.
Qed.

(** The ranking dict gives the 1-indexed position. *)
Lemma ranking_lookup c s :
  NoDup s.*1 -> ranking s !! c = first_rank c (enumerate 1 s).
Proof.
  intros Hnd. unfold ranking. rewrite dict_of_nodup by (by rewrite ranking_keys).
  apply ranking_lookup_from.
Qed.

(** The ranking dict of the sorted items holds the rank of every coin. *)
Lemma ranking_sorted c l :
  NoDup l.*1 -> c ∈ l.*1 ->
  ranking (sorted_desc snd l) !! c = Some (rank_among l c).
Proof.
  intros Hnd Hc. rewrite ranking_lookup by (by rewrite sorted_desc_perm).
  rewrite first_rank_sorted by done. unfold rank_among.
  destruct (standing c l) as [[vc m]|] eqn:E; [done|].
  by apply standing_absent in E.
Qed.

Lemma comprehension_getitem {V : Type} (d : gmap string V) (f : string -> V) (cs : list string) :
  (∀ c, c ∈ cs -> d !! c = Some (f c)) ->
  comprehension (getitem d) cs = Ok (map f cs).
Proof.
  induction cs as [|c cs IH]; intros H; simpl; [done|].
  unfold getitem at 1. rewrite (H c) by left. simpl.
  rewrite IH; [done|]. intros c' Hc'. apply H. by right.
Qed.

(** The list comprehension over the universe reads off all ranks. *)
Lemma ranks_for_day l :
  l.*1 = COINS ->
  comprehension (getitem (ranking (sorted_desc snd l))) COINS
    = Ok (map (rank_among l) COINS).
Proof.
  intros Hk. assert (NoDup l.*1) as Hnd by (rewrite Hk; apply NoDup_COINS).
  apply comprehension_getitem. intros c Hc. apply ranking_sorted; [done|].
  by rewrite Hk.
Qed.
End RankFacts.

Import RankFacts.

Module RecordResultsFacts.

(** C9.  When [all_returns] holds the realized return of every coin of
    the universe, [calculate_rank] returns the list sorted by
    descending return (a permutation of the input) and a rank between
    1 and 16; for a chosen coin of the universe the rank is its
    1-indexed position in that list, which is one more than the number
    of coins standing ahead of it (greater return, or equal return and
    earlier in the universe).  For returns A = 5, B = -2, C = 9 and
    chosen coin A the rank is 2. *)
Theorem calculate_rank_position (chosen : string) (all_returns : list (string * Q)) :
  all_returns.*1 = COINS ->
  let result := calculate_rank chosen all_returns in
  result.2 ≡ₚ all_returns
  ∧ StronglySorted (desc snd) result.2
  ∧ 1 <= result.1 <= 16
  ∧ (chosen ∈ COINS ->
       (∃ ret, result.2 !! (result.1 - 1) = Some (chosen, ret))
       ∧ result.1 = rank_among all_returns chosen)
  ∧ (calculate_rank "A" [("A", 5%Q); ("B", (-2)%Q); ("C", 9%Q)]).1 = 2.
Proof.
  intros Hkeys. 
  assert (NoDup all_returns.*1) as Hnd by (rewrite Hkeys; apply NoDup_COINS).
  assert (length all_returns = 16) as Hlen.
  { rewrite <- (length_fmap fst), Hkeys. reflexivity. }
  unfold calculate_rank. simpl.
  pose proof (first_rank_sorted chosen 1 all_returns Hnd) as Hpos.
  destruct (first_rank chosen (enumerate 1 (sorted_desc snd all_returns)))
    as [rank|] eqn:Hrank; simpl.
  - split; [apply sorted_desc_perm|].
    split; [apply sorted_desc_sorted|].
    apply first_rank_present in Hrank as (ret & Hat & Hlo & Hhi).
    rewrite sorted_desc_length, Hlen in Hhi.
    split; [lia|]. split; [|reflexivity].
    intros _. split; [by exists ret|].
    unfold rank_among. destruct (standing chosen all_returns) as [[vc m]|];
      simpl in Hpos; congruence.
  - split; [apply sorted_desc_perm|].
    split; [apply sorted_desc_sorted|].
    split; [lia|]. split; [|reflexivity].
    intros Hin. exfalso.
    destruct (standing chosen all_returns) as [[vc m]|] eqn:E; [done|].
    apply standing_absent in E. apply E. by rewrite Hkeys.
Qed.

Lemma calculate_rank_position_witness :
  let result := calculate_rank "ETHUSD" returns_day1 in
  result.2 ≡ₚ returns_day1
  ∧ StronglySorted (desc snd) result.2
  ∧ 1 <= result.1 <= 16
  ∧ ("ETHUSD" ∈ COINS ->
       (∃ ret, result.2 !! (result.1 - 1) = Some ("ETHUSD", ret))
       ∧ result.1 = rank_among returns_day1 "ETHUSD")
  ∧ (calculate_rank "A" [("A", 5%Q); ("B", (-2)%Q); ("C", 9%Q)]).1 = 2.
Proof. apply (calculate_rank_position "ETHUSD" returns_day1). reflexivity. Defined.

End RecordResultsFacts.

Module PredictionStoreFacts.

Lemma select_by_date_elem d ts r :
  select_by_date d ts = Some r -> r ∈ ts ∧ date r = d.
Proof.
  unfold select_by_date. intros H. apply find_some in H as [Hin Hd].
  split; [by apply list_elem_of_In|]. by apply bool_decide_eq_true in Hd.
Qed.

Lemma select_by_date_map d f ts :
  (∀ r, date (f r) = date r) ->
  select_by_date d (map f ts) = f <$> select_by_date d ts.
Proof.
  intros Hf. unfold select_by_date.
  induction ts as [|r ts IH]; simpl; [done|].
  rewrite Hf. by destruct (bool_decide (date r = d)).
Qed.

Lemma set_prediction_twice coin score r :
  set_prediction coin score (set_prediction coin score r) = set_prediction coin score r.
Proof. reflexivity. Qed.

Lemma select_by_date_app_new today ts r :
  select_by_date today ts = None -> date r = today ->
  select_by_date today (ts ++ [r]) = Some r.
Proof.
  unfold select_by_date. intros Hnone Hr.
  induction ts as [|r0 ts IH]; simpl in *.
  - by rewrite bool_decide_eq_true_2.
  - destruct (bool_decide (date r0 = today)); [done|]. by apply IH.
Qed.

Lemma update_absent today coin score ts :
  select_by_date today ts = None ->
  map (fun r => if bool_decide (date r = today)
                then set_prediction coin score r else r) ts = ts.
Proof.
  unfold select_by_date. induction ts as [|r ts IH]; simpl; [done|].
  destruct (bool_decide (date r = today)); [done|].
  intros H. by rewrite IH.
Qed.

Lemma record_prediction_idem today coin score s d :
  record_prediction today coin score s (record_prediction today coin score s d)
  = record_prediction today coin score s d.
Proof.
  destruct (select_by_date today (trades d)) as [r|] eqn:E.
  - unfold record_prediction. rewrite E. simpl.
    rewrite select_by_date_map, E by (intros r'; by case_bool_decide). simpl.
    f_equal. rewrite map_map. apply map_ext. intros r'.
    destruct (bool_decide (date r' = today)) eqn:H1; simpl; by rewrite H1.
  - unfold record_prediction. rewrite E. simpl.
    rewrite (select_by_date_app_new today _ (new_trade today coin score)) by done.
    f_equal. rewrite map_app. simpl. rewrite bool_decide_eq_true_2 by done.
    by rewrite update_absent.
Qed.

(** C10.  When the table already holds a row for [today],
    [record_prediction] adds no row, leaves [model_history] alone,
    leaves every row of another date as it is, and in the row of
    [today] changes only [chosen_coin] and [chosen_score]: the outcome
    columns, the per-coin feature columns, the news columns and the
    model version are kept.  Recording the same prediction a second
    time changes nothing. *)
Theorem record_prediction_frame (today coin : string) (score : Q)
    (all_scores : list (string * Q)) (d : database) (existing : trade) :
  select_by_date today (trades d) = Some existing ->
  let d' := record_prediction today coin score all_scores d in
  length (trades d') = length (trades d)
  ∧ model_history d' = model_history d
  ∧ (∀ i r, trades d !! i = Some r ->
       ∃ r', trades d' !! i = Some r'
             ∧ same_outcome_and_features r r'
             ∧ (date r ≠ today -> r' = r)
             ∧ (date r = today ->
                  chosen_coin r' = Some coin ∧ chosen_score r' = Some score))
  ∧ record_prediction today coin score all_scores d' = d'.
Proof.
  intros Hex d'. subst d'. split; [|split; [|split]].
  - unfold record_prediction. rewrite Hex. simpl. apply length_map.
  - unfold record_prediction. by rewrite Hex.
  - intros i r Hi. unfold record_prediction. rewrite Hex. simpl.
    rewrite list_lookup_fmap, Hi. simpl.
    case_bool_decide as Hd.
    + exists (set_prediction coin score r). split; [done|].
      split; [by repeat split|]. split; [done|]. by intros _.
    + exists r. split; [done|]. split; [by repeat split|]. split; done.
  - apply record_prediction_idem.
Qed.

Lemma record_prediction_frame_witness :
  let d := db one_prediction in
  let d' := record_prediction "2024-03-13" "ETHUSD" 2 [] d in
  length (trades d') = length (trades d)
  ∧ model_history d' = model_history d
  ∧ (∀ i r, trades d !! i = Some r ->
       ∃ r', trades d' !! i = Some r'
             ∧ same_outcome_and_features r r'
             ∧ (date r ≠ "2024-03-13" -> r' = r)
             ∧ (date r = "2024-03-13" ->
                  chosen_coin r' = Some "ETHUSD" ∧ chosen_score r' = Some 2%Q))
  ∧ record_prediction "2024-03-13" "ETHUSD" 2 [] d' = d'.
Proof.
  apply (record_prediction_frame "2024-03-13" "ETHUSD" 2 [] (db one_prediction)
           (new_trade "2024-03-13" "BTCUSD" 1)).
  reflexivity.
Defined.

End PredictionStoreFacts.

Module PredictFacts.

Section loop.
Variables (score_coin : strategy) (price_data : gmap string (gmap string Q))
          (sentiment_data : sentiment_cache).

Lemma number_items_app (l1 l2 : list (string * Q)) :
  number_items (l1 ++ l2) = number_items l1 ++ number_items l2.
Proof. apply map_app. Qed.

Lemma predict_step_scored scores coin :
  (∀ f, features price_data sentiment_data coin = Some f ->
        ∃ s, apply_scorer score_coin f = Ok s) ->
  predict_step (scorer_of score_coin) price_data sentiment_data (number_items scores) coin
  = Ok (number_items
          (scores ++ option_list (scored score_coin price_data sentiment_data coin))).
Proof.
  intros Hok. unfold predict_step, scored, features in *.
  destruct (price_data !! coin) as [p|]; simpl; [|by rewrite app_nil_r].
  destruct (default ∅ (sentiment sentiment_data) !! coin) as [s|]; simpl;
    [|by rewrite app_nil_r].
  destruct (Hok _ eq_refl) as [v Hv]. unfold apply_scorer, scorer_of in *. simpl in *.
  rewrite Hv. simpl. by rewrite number_items_app.
Qed.

Lemma predict_loop_scored coins scores :
  (∀ coin f, coin ∈ coins -> features price_data sentiment_data coin = Some f ->
             ∃ s, apply_scorer score_coin f = Ok s) ->
  predict_loop (scorer_of score_coin) price_data sentiment_data (number_items scores) coins
  = Ok (number_items
          (scores ++ omap (scored score_coin price_data sentiment_data) coins)).
Proof.
  revert scores. induction coins as [|coin coins IH]; intros scores Hok; simpl.
  - by rewrite app_nil_r.
  - rewrite predict_step_scored by (intros f; apply Hok; left). simpl.
    rewrite IH by (intros c f Hc; apply Hok; by right).
    rewrite <- app_assoc. do 3 f_equal.
    by destruct (scored score_coin price_data sentiment_data coin).
Qed.

Lemma scored_key coin kv :
  scored score_coin price_data sentiment_data coin = Some kv -> kv.1 = coin.
Proof.
  unfold scored. destruct (features _ _ coin); [|done].
  destruct (apply_scorer _ _); [|done]. by intros [= <-].
Qed.

Lemma features_some coin :
  is_Some (features price_data sentiment_data coin)
  <-> is_Some (price_data !! coin)
      ∧ is_Some (default ∅ (sentiment sentiment_data) !! coin).
Proof.
  unfold features.
  destruct (price_data !! coin), (default ∅ (sentiment sentiment_data) !! coin);
    split; try (intros [[? ?] [? ?]]); try (intros [? ?]); try done; by split.
Qed.
End loop.

(** C5, amended.  Provided the strategy fails for no coin it is called
    on, [predict_best_coin] scores exactly the coins of the universe
    that have both a price snapshot and a sentiment entry, in universe
    order; a coin lacking either is skipped, not scored with defaults.
    For a scored coin the fields [return_24h], [return_6h] and
    [volume_ratio] missing from its snapshot default to 0, 0 and 1.
    The engine fails with "No coins could be scored" exactly when
    every coin lacks its price snapshot or its sentiment entry. *)
Theorem predict_scores_present_coins (score_coin : strategy)
    (price_data : gmap string (gmap string Q)) (sentiment_data : sentiment_cache) :
  (∀ coin f, coin ∈ COINS -> features price_data sentiment_data coin = Some f ->
             ∃ s, apply_scorer score_coin f = Ok s) ->
  let scores := omap (scored score_coin price_data sentiment_data) COINS in
  predict_loop (scorer_of score_coin) price_data sentiment_data [] COINS
  = Ok (number_items scores)
  ∧ (∀ coin, coin ∈ scores.*1 <->
             coin ∈ COINS ∧ is_Some (price_data !! coin)
             ∧ is_Some (default ∅ (sentiment sentiment_data) !! coin))
  ∧ (∀ coin coin_price coin_sentiment,
       price_data !! coin = Some coin_price ->
       default ∅ (sentiment sentiment_data) !! coin = Some coin_sentiment ->
       features price_data sentiment_data coin
       = Some (default 0%Q (coin_price !! "return_24h"),
               default 0%Q (coin_price !! "return_6h"),
               default 1%Q (coin_price !! "volume_ratio"),
               coin_sentiment))
  ∧ (predict_best_coin (scorer_of score_coin) price_data sentiment_data
       = Raise (ValueError "No coins could be scored")
     <-> ∀ coin, coin ∈ COINS ->
           price_data !! coin = None
           ∨ default ∅ (sentiment sentiment_data) !! coin = None).
Proof.
  intros Hok scores.
  assert (Hloop : predict_loop (scorer_of score_coin) price_data sentiment_data [] COINS
                  = Ok (number_items scores)).
  { by rewrite (predict_loop_scored _ _ _ COINS []). }
  assert (Hmem : ∀ coin, coin ∈ scores.*1 <->
             coin ∈ COINS ∧ is_Some (price_data !! coin)
             ∧ is_Some (default ∅ (sentiment sentiment_data) !! coin)).
  { intros coin. subst scores. rewrite list_elem_of_fmap. split.
    - intros ([k v] & -> & Hin). apply list_elem_of_omap in Hin as (c & Hc & Hs).
      pose proof (scored_key _ _ _ _ _ Hs) as Hk. simpl in *. subst k.
      split; [done|]. apply features_some. unfold scored in Hs.
      by destruct (features price_data sentiment_data c).
    - intros (Hc & Hfeat). apply features_some in Hfeat as [f Hf].
      destruct (Hok coin f Hc Hf) as [s Hs].
      exists (coin, s). split; [done|]. apply list_elem_of_omap.
      exists coin. split; [done|]. unfold scored. by rewrite Hf, Hs. }
  split; [done|]. split; [done|]. split.
  { intros coin p s Hp Hs. unfold features. by rewrite Hp, Hs. }
  unfold predict_best_coin. rewrite Hloop. simpl.
  destruct scores as [|kv scores'] eqn:Hsc.
  - split; [|done]. intros _ coin Hc.
    destruct (price_data !! coin) eqn:Hp; [|by left].
    destruct (default ∅ (sentiment sentiment_data) !! coin) eqn:Hs; [|by right].
    exfalso. assert (coin ∈ ([] : list (string * Q)).*1) as Hin.
    { apply Hmem. rewrite Hp, Hs. by repeat split. }
    simpl in Hin. by apply elem_of_nil in Hin.
  - split.
    { destruct kv as [k v]. destruct scores' as [|kv' scores'']; [done|].
      change (number_items ((k, v) :: kv' :: scores''))
        with ((k, Some v) :: (kv'.1, Some kv'.2) :: number_items scores'').
      cbv iota beta.
      change ((k, Some v) :: (kv'.1, Some kv'.2) :: number_items scores'')
        with (number_items ((k, v) :: kv' :: scores'')).
      unfold max_item. rewrite comparable_number_items. done. }
    intros Hnone. exfalso.
    assert (kv.1 ∈ (kv :: scores').*1) as Hin by (simpl; left).
    apply Hmem in Hin as (Hc & [p Hp] & [s Hs]).
    destruct (Hnone _ Hc); congruence.
Qed.

Lemma predict_scores_present_coins_witness :
  let scores := omap (scored momentum prices_no_btc sentiment_eth) COINS in
  predict_loop (scorer_of momentum) prices_no_btc sentiment_eth [] COINS
  = Ok (number_items scores)
  ∧ (∀ coin, coin ∈ scores.*1 <->
             coin ∈ COINS ∧ is_Some (prices_no_btc !! coin)
             ∧ is_Some (default ∅ (sentiment sentiment_eth) !! coin))
  ∧ (∀ coin coin_price coin_sentiment,
       prices_no_btc !! coin = Some coin_price ->
       default ∅ (sentiment sentiment_eth) !! coin = Some coin_sentiment ->
       features prices_no_btc sentiment_eth coin
       = Some (default 0%Q (coin_price !! "return_24h"),
               default 0%Q (coin_price !! "return_6h"),
               default 1%Q (coin_price !! "volume_ratio"),
               coin_sentiment))
  ∧ (predict_best_coin (scorer_of momentum) prices_no_btc sentiment_eth
       = Raise (ValueError "No coins could be scored")
     <-> ∀ coin, coin ∈ COINS ->
           prices_no_btc !! coin = None
           ∨ default ∅ (sentiment sentiment_eth) !! coin = None).
Proof.
  apply (predict_scores_present_coins momentum prices_no_btc sentiment_eth).
  intros coin f _ Hf. unfold apply_scorer, momentum. simpl. eauto.
Defined.

(** C5 as stated fails: BTCUSD is in the universe and has no price
    snapshot; the prediction succeeds with ETHUSD alone and BTCUSD
    gets no score. *)
Lemma missing_snapshot_is_skipped :
  "BTCUSD" ∈ COINS
  ∧ prices_no_btc !! "BTCUSD" = None
  ∧ predict_best_coin (scorer_of momentum) prices_no_btc sentiment_eth
    = Ok ("ETHUSD", Some 3%Q, [("ETHUSD", Some 3%Q)])
  ∧ ¬ (∃ scores best score,
         predict_best_coin (scorer_of momentum) prices_no_btc sentiment_eth
         = Ok (best, scores)
         ∧ ("BTCUSD", score) ∈ scores).
Proof.
  split; [by left|]. split; [done|]. split; [by vm_compute|].
  intros (scores & best & score & Hrun & Hin).
  vm_compute in Hrun. injection Hrun as <- <-.
  apply list_elem_of_singleton in Hin. discriminate.
Qed.

(** C6 on the code.  The scorer [return_24h / volume_ratio] raises
    [ZeroDivisionError] on BTCUSD, whose volume ratio is 0, while it
    scores ETHUSD; [predict_best_coin] does not catch the exception
    and the whole prediction pass ends with it.  The backtest loop
    guards the same call and scores the coin 0. *)
Theorem prediction_aborts_when_scorer_raises :
  features prices_flat_volume sentiment_both "BTCUSD" = Some (3%Q, 1%Q, 0%Q, 0%Q)
  ∧ apply_scorer per_volume (3%Q, 1%Q, 0%Q, 0%Q) = Raise ZeroDivisionError
  ∧ (∃ s, scored per_volume prices_flat_volume sentiment_both "ETHUSD"
          = Some ("ETHUSD", s))
  ∧ predict_best_coin (scorer_of per_volume) prices_flat_volume sentiment_both
    = Raise ZeroDivisionError
  ∧ guarded_score (scorer_of per_volume) flat_volume_day "BTCUSD" = Some 0%Q.
Proof.
  split; [by vm_compute|]. split; [by vm_compute|].
  split; [eexists; by vm_compute|]. split; by vm_compute.
Qed.

End PredictFacts.

Module BacktestFacts.

Implicit Types (row : trade) (rows : list trade) (acc : backtest_acc).

Lemma score_loop score_func row coins scores n :
  foldl (fun '(scores, n) coin =>
           (scores ++ [(coin, guarded_score score_func row coin)], S n))
        (scores, n) coins
  = (scores ++ map (fun coin => (coin, guarded_score score_func row coin)) coins,
     n + length coins).
Proof.
  revert scores n. induction coins as [|coin coins IH]; intros scores n; simpl.
  - by rewrite app_nil_r, Nat.add_0_r.
  - rewrite IH, <- app_assoc. simpl. f_equal. lia.
Qed.

Lemma score_all_scores (score_func : score_fn) row calls :
  score_all score_func row calls
  = (map (fun coin => (coin, guarded_score score_func row coin)) COINS, calls + 16).
Proof. unfold score_all. by rewrite score_loop. Qed.

(** The guarded call computes the score of the strategy. *)
Lemma guarded_score_strategy (s : strategy) row coin :
  guarded_score (scorer_of s) row coin = Some (strategy_score s row coin).
Proof.
  unfold guarded_score, scorer_of, strategy_score.
  by destruct (s (column return_24h row coin) (column return_6h row coin)
                 (column volume_ratio row coin) (column news_sentiment row coin)).
Qed.

Lemma strategy_scores (s : strategy) row :
  map (fun coin => (coin, guarded_score (scorer_of s) row coin)) COINS
  = number_items (day_scores s row).
Proof.
  unfold number_items, day_scores. rewrite map_map. apply map_ext.
  intros coin. cbn [fst snd]. by rewrite guarded_score_strategy.
Qed.

Lemma score_all_day (score_func : strategy) row calls :
  score_all (scorer_of score_func) row calls
  = (number_items (day_scores score_func row), calls + 16).
Proof. by rewrite score_all_scores, strategy_scores. Qed.

Lemma day_scores_keys score_func row : (day_scores score_func row).*1 = COINS.
Proof. unfold day_scores. rewrite <- list_fmap_compose. apply list_fmap_id. Qed.

Lemma day_returns_keys row : (day_returns row).*1 = COINS.
Proof. unfold day_returns. rewrite <- list_fmap_compose. apply list_fmap_id. Qed.

Lemma comparable_complete row :
  complete row -> comparable_items (actual_returns_of row) = Ok (day_returns row).
Proof.
  unfold complete, actual_returns_of, day_returns, comparable_items.
  induction 1 as [|coin coins [q Hq] _ IH]; simpl; [done|].
  rewrite Hq. simpl. by rewrite IH.
Qed.

Lemma day_returns_lookup row coin :
  coin ∈ COINS ->
  dict_of (day_returns row) !! coin = Some (default 0%Q (column return_24h row coin)).
Proof.
  intros Hc. rewrite dict_of_nodup by (rewrite day_returns_keys; apply NoDup_COINS).
  apply elem_of_list_to_map; [rewrite day_returns_keys; apply NoDup_COINS|].
  unfold day_returns. apply list_elem_of_fmap. by exists coin.
Qed.

(** The head of the sorted items has rank 1, and only it. *)
Lemma rank_one_iff_head l c :
  NoDup l.*1 ->
  rank_among l c = 1 <-> ∃ v, head (sorted_desc snd l) = Some (c, v).
Proof.
  intros Hnd. pose proof (first_rank_sorted c 1 l Hnd) as Hpos.
  unfold rank_among. split.
  - destruct (standing c l) as [[vc m]|]; [|done]. intros [= ->].
    simpl in Hpos. apply first_rank_present in Hpos as (v & Hat & _).
    exists v. simpl in Hat. by rewrite <- head_lookup in Hat.
  - intros [v Hhead]. destruct (sorted_desc snd l) as [|[k u] s] eqn:Hs; [done|].
    injection Hhead as -> ->. simpl in Hpos.
    rewrite bool_decide_eq_true_2 in Hpos by done.
    destruct (standing c l) as [[vc m]|]; simpl in Hpos; [|done].
    injection Hpos as Hm. f_equal. lia.
Qed.

Lemma find_unique {A : Type} (P : A -> bool) (l : list A) (x : A) :
  x ∈ l -> P x = true -> (∀ y, y ∈ l -> P y = true -> y = x) -> find P l = Some x.
Proof.
  induction l as [|a l IH]; intros Hin HP Huniq; simpl.
  - by apply elem_of_nil in Hin.
  - destruct (P a) eqn:Ha.
    + f_equal. apply Huniq; [left|done].
    + apply IH; [|done|].
      * apply elem_of_cons in Hin as [->|Hin]; [congruence|done].
      * intros y Hy. apply Huniq. by right.
Qed.

(** [max] picks the coin ranked first. *)
Lemma max_is_first_ranked (l : list (string * Q)) predicted :
  l.*1 = COINS ->
  py_max snd l = Ok predicted ->
  find (fun coin => rank_among l coin =? 1) COINS = Some predicted.1.
Proof.
  intros Hkeys Hmax. apply py_max_head in Hmax.
  assert (NoDup l.*1) as Hnd by (rewrite Hkeys; apply NoDup_COINS).
  destruct predicted as [c v]. cbn [fst].
  assert (rank_among l c = 1) as Hc.
  { apply rank_one_iff_head; [done|]. by exists v. }
  apply find_unique.
  - rewrite <- Hkeys. apply list_elem_of_fmap.
    exists (c, v). split; [done|].
    rewrite <- (sorted_desc_perm snd). by apply head_Some_elem_of.
  - by apply Nat.eqb_eq.
  - intros c' _ Hc'. apply Nat.eqb_eq in Hc'.
    apply rank_one_iff_head in Hc' as [v' Hv']; [|done]. congruence.
Qed.

Lemma predicted_is_first_ranked (score_func : strategy) row predicted :
  py_max snd (day_scores score_func row) = Ok predicted ->
  first_ranked score_func row = Some predicted.1.
Proof. apply max_is_first_ranked, day_scores_keys. Qed.

Lemma py_max_nonempty {A : Type} (key : A -> Q) (l : list A) :
  l ≠ [] -> ∃ x, py_max key l = Ok x.
Proof. destruct l; [done|]. intros _. simpl. eauto. Qed.

Lemma day_scores_nonempty score_func row : day_scores score_func row ≠ [].
Proof. unfold day_scores, COINS. discriminate. Qed.

Lemma backtest_day_nonempty (score_func : score_fn) acc row scores calls :
  scores ≠ [] ->
  score_all score_func row (score_calls acc) = (scores, calls) ->
  backtest_day score_func acc row
  = bind (max_item scores) (fun predicted =>
    bind (comparable_items scores) (fun numbers =>
    bind (comparable_items (actual_returns_of row)) (fun returns =>
    bind (comprehension (getitem (ranking (sorted_desc snd numbers))) COINS)
      (fun predicted_ranks_for_day =>
    bind (comprehension (getitem (ranking (sorted_desc snd returns))) COINS)
      (fun actual_ranks_for_day =>
    Ok {| all_predicted_ranks := all_predicted_ranks acc ++ predicted_ranks_for_day;
          all_actual_ranks := all_actual_ranks acc ++ actual_ranks_for_day;
          daily_returns :=
            daily_returns acc ++ [default 0%Q (dict_of returns !! predicted.1)];
          score_calls := calls |}))))).
Proof.
  intros Hne Hall. unfold backtest_day. rewrite Hall.
  destruct scores as [|kv scores']; [done|reflexivity].
Qed.

Lemma scores_nonempty (score_func : score_fn) row :
  map (fun coin => (coin, guarded_score score_func row coin)) COINS ≠ [].
Proof. unfold COINS. discriminate. Qed.

(** One day of the loop for a function whose scores of the day are the
    numbers [numbers]. *)
Lemma backtest_day_numbers (score_func : score_fn) acc row numbers :
  complete row ->
  map (fun coin => (coin, guarded_score score_func row coin)) COINS
  = number_items numbers ->
  backtest_day score_func acc row
  = Ok {| all_predicted_ranks :=
            all_predicted_ranks acc ++ map (rank_among numbers) COINS;
          all_actual_ranks :=
            all_actual_ranks acc ++ map (rank_among (day_returns row)) COINS;
          daily_returns :=
            daily_returns acc
              ++ [match find (fun coin => rank_among numbers coin =? 1) COINS with
                  | Some coin => default 0%Q (column return_24h row coin)
                  | None => 0%Q
                  end];
          score_calls := score_calls acc + 16 |}.
Proof.
  intros Hrow Hscores.
  assert (Hkeys : numbers.*1 = COINS).
  { rewrite <- number_items_keys, <- Hscores, <- list_fmap_compose.
    apply list_fmap_id. }
  assert (Hne : numbers ≠ []).
  { intros ->. by apply (scores_nonempty score_func row). }
  rewrite (backtest_day_nonempty score_func acc row _ _
             (scores_nonempty score_func row) (score_all_scores _ _ _)).
  rewrite Hscores.
  destruct (py_max_nonempty snd numbers Hne) as [predicted Hmax].
  rewrite (max_item_numbers _ _ Hmax). unfold bind at 1.
  rewrite comparable_number_items. unfold bind at 1.
  rewrite (comparable_complete row Hrow). unfold bind at 1.
  rewrite (ranks_for_day _ Hkeys). unfold bind at 1.
  rewrite (ranks_for_day _ (day_returns_keys row)). unfold bind at 1.
  pose proof (max_is_first_ranked _ _ Hkeys Hmax) as Hfirst.
  assert (predicted.1 ∈ COINS) as Hin.
  { apply find_some in Hfirst as [Hin _]. by apply list_elem_of_In. }
  cbn [fst]. rewrite (day_returns_lookup row _ Hin), Hfirst. reflexivity.
Qed.

(** One day of the loop for a strategy, in closed form. *)
Lemma backtest_day_complete (score_func : strategy) acc row :
  complete row ->
  backtest_day (scorer_of score_func) acc row
  = Ok {| all_predicted_ranks :=
            all_predicted_ranks acc
              ++ map (rank_among (day_scores score_func row)) COINS;
          all_actual_ranks :=
            all_actual_ranks acc ++ map (rank_among (day_returns row)) COINS;
          daily_returns := daily_returns acc ++ [top_return score_func row];
          score_calls := score_calls acc + 16 |}.
Proof.
  intros Hrow.
  by rewrite (backtest_day_numbers _ acc row _ Hrow (strategy_scores score_func row)).
Qed.

Lemma pooled_predicted_cons score_func row rows :
  pooled_predicted score_func (row :: rows)
  = map (rank_among (day_scores score_func row)) COINS
      ++ pooled_predicted score_func rows.
Proof. reflexivity. Qed.

Lemma pooled_actual_cons row rows :
  pooled_actual (row :: rows)
  = map (rank_among (day_returns row)) COINS ++ pooled_actual rows.
Proof. reflexivity. Qed.

(** The whole loop, in closed form. *)
Lemma backtest_rows_complete (score_func : strategy) rows acc :
  Forall complete rows ->
  backtest_rows (scorer_of score_func) acc rows
  = Ok {| all_predicted_ranks :=
            all_predicted_ranks acc ++ pooled_predicted score_func rows;
          all_actual_ranks := all_actual_ranks acc ++ pooled_actual rows;
          daily_returns := daily_returns acc ++ map (top_return score_func) rows;
          score_calls := score_calls acc + 16 * length rows |}.
Proof.
  intros Hrows. revert acc.
  induction Hrows as [|row rows Hrow _ IH]; intros acc.
  - change (backtest_rows (scorer_of score_func) acc []) with (Ok acc).
    change (pooled_predicted score_func []) with (@nil nat).
    change (pooled_actual []) with (@nil nat).
    change (map (top_return score_func) []) with (@nil Q).
    change (length (@nil trade)) with 0.
    rewrite !app_nil_r, Nat.mul_0_r, Nat.add_0_r. by destruct acc.
  - change (backtest_rows (scorer_of score_func) acc (row :: rows))
      with (bind (backtest_day (scorer_of score_func) acc row)
              (fun acc' => backtest_rows (scorer_of score_func) acc' rows)).
    rewrite (backtest_day_complete score_func acc row Hrow). unfold bind.
    rewrite IH. cbn [all_predicted_ranks all_actual_ranks daily_returns score_calls].
    rewrite pooled_predicted_cons, pooled_actual_cons, map_cons, length_cons.
    rewrite <- !app_assoc. do 2 f_equal. lia.
Qed.

Lemma pooled_predicted_length score_func rows :
  length (pooled_predicted score_func rows) = 16 * length rows.
Proof.
  induction rows as [|row rows IH]; [reflexivity|].
  rewrite pooled_predicted_cons, length_app, length_map, IH, length_cons.
  rewrite length_COINS. lia.
Qed.

Lemma insert_row_perm before x l : insert_row before x l ≡ₚ x :: l.
Proof.
  induction l as [|y l IH]; simpl; [done|].
  destruct (before (date x) (date y)); [done|].
  rewrite IH. apply Permutation_swap.
Qed.

Lemma order_by_date_perm before l : order_by_date before l ≡ₚ l.
Proof.
  induction l as [|x l IH]; simpl; [done|].
  rewrite insert_row_perm. by rewrite IH.
Qed.

Lemma select_resolved_length days w :
  length (select_resolved days w)
  = days `min` length (List.filter resolved (trades (db w))).
Proof.
  unfold select_resolved. rewrite length_take. by rewrite order_by_date_perm.
Qed.

Lemma select_resolved_resolved days w row :
  row ∈ select_resolved days w -> row ∈ trades (db w) ∧ resolved row = true.
Proof.
  unfold select_resolved. intros Hin.
  apply (subseteq_take days) in Hin.
  rewrite order_by_date_perm in Hin.
  apply list_elem_of_In, filter_In in Hin as [Hin Hres].
  split; [by apply list_elem_of_In|done].
Qed.

End BacktestFacts.

Import BacktestFacts.

Module BacktestSpec.

Section externals.
Variable py_exec : string -> option score_fn.
Variable spearmanr : list nat -> list nat -> Q.

Lemma backtest_counted_short scorer_code days w :
  length (select_resolved days w) < 10 ->
  backtest_scorer_counted py_exec spearmanr scorer_code days w = Ok (None, 0).
Proof.
  intros Hlen. unfold backtest_scorer_counted.
  by rewrite (proj2 (Nat.ltb_lt _ _) Hlen).
Qed.

Lemma backtest_counted_unloadable scorer_code days w :
  scorer_code ≫= py_exec = None ->
  backtest_scorer_counted py_exec spearmanr scorer_code days w = Ok (None, 0).
Proof.
  intros Hload. unfold backtest_scorer_counted. rewrite Hload.
  by destruct (length (select_resolved days w) <? 10).
Qed.

Lemma backtest_counted_window scorer_code days w (score_func : strategy) :
  scorer_code ≫= py_exec = Some (scorer_of score_func) ->
  10 <= length (select_resolved days w) ->
  Forall complete (select_resolved days w) ->
  backtest_scorer_counted py_exec spearmanr scorer_code days w
  = Ok (Some (spearmanr (pooled_predicted score_func (select_resolved days w))
                        (pooled_actual (select_resolved days w)),
              np_mean (map (top_return score_func) (select_resolved days w))),
        16 * length (select_resolved days w)).
Proof.
  intros Hload Hlen Hrows. unfold backtest_scorer_counted.
  rewrite (proj2 (Nat.ltb_ge _ _) Hlen), Hload.
  rewrite (backtest_rows_complete score_func _ empty_acc Hrows). unfold bind.
  cbn [all_predicted_ranks all_actual_ranks daily_returns score_calls empty_acc].
  rewrite !app_nil_l, pooled_predicted_length.
  assert ((16 * length (select_resolved days w) <? 10) = false) as ->.
  { apply Nat.ltb_ge. lia. }
  reflexivity.
Qed.

Lemma backtest_scorer_window scorer_code days w (score_func : strategy) :
  scorer_code ≫= py_exec = Some (scorer_of score_func) ->
  10 <= length (select_resolved days w) ->
  Forall complete (select_resolved days w) ->
  backtest_scorer py_exec spearmanr scorer_code days w
  = Ok (Some (spearmanr (pooled_predicted score_func (select_resolved days w))
                        (pooled_actual (select_resolved days w)),
              np_mean (map (top_return score_func) (select_resolved days w)))).
Proof.
  intros Hload Hlen Hrows. unfold backtest_scorer.
  by rewrite (backtest_counted_window _ _ _ _ Hload Hlen Hrows).
Qed.

Lemma backtest_scorer_short scorer_code days w :
  length (select_resolved days w) < 10 ->
  backtest_scorer py_exec spearmanr scorer_code days w = Ok None.
Proof.
  intros Hlen. unfold backtest_scorer. by rewrite backtest_counted_short.
Qed.

Lemma backtest_scorer_unloadable scorer_code days w :
  scorer_code ≫= py_exec = None ->
  backtest_scorer py_exec spearmanr scorer_code days w = Ok None.
Proof.
  intros Hload. unfold backtest_scorer. by rewrite backtest_counted_unloadable.
Qed.

(** C8.  The window of [backtest_scorer] holds the [days] most
    recent resolved rows.  With fewer than 10 rows in it the result
    is [(None, None)] whatever the code, and [score_func] is never
    invoked.  Otherwise, for code that loads as a strategy (a function
    whose score is a number, or that fails) and rows that hold a
    realized return for every coin, the result is [spearmanr] applied
    once to the ranks of every coin of every day, predicted against
    actual, pooled into two sequences, paired with the mean over the
    days of the realized return of the coin the strategy ranked
    first; [score_func] is invoked 16 times per day.  The ranks, the
    scores and the coin ranked first are those of [Spec], defined from
    the strategy and the stored features alone. *)
Theorem backtest_scorer_pooled (scorer_code : option string) (days : nat)
    (w : world) (score_func : strategy) :
  scorer_code ≫= py_exec = Some (scorer_of score_func) ->
  Forall complete (select_resolved days w) ->
  let rows := select_resolved days w in
  length rows = days `min` length (List.filter resolved (trades (db w)))
  ∧ (length rows < 10 ->
       ∀ any_code,
         backtest_scorer_counted py_exec spearmanr any_code days w = Ok (None, 0)
         ∧ backtest_scorer py_exec spearmanr any_code days w = Ok None)
  ∧ (10 <= length rows ->
       backtest_scorer_counted py_exec spearmanr scorer_code days w
       = Ok (Some (spearmanr (pooled_predicted score_func rows) (pooled_actual rows),
                   np_mean (map (top_return score_func) rows)),
             16 * length rows)
       ∧ backtest_scorer py_exec spearmanr scorer_code days w
         = Ok (Some (spearmanr (pooled_predicted score_func rows) (pooled_actual rows),
                     np_mean (map (top_return score_func) rows)))).
Proof.
  intros Hload Hrows rows. split; [apply select_resolved_length|]. split.
  - intros Hlen any_code. split.
    + by apply backtest_counted_short.
    + by apply backtest_scorer_short.
  - intros Hlen. split.
    + by apply backtest_counted_window.
    + by apply backtest_scorer_window.
Qed.
End externals.

Lemma history_complete : Forall complete (select_resolved 180 world12).
Proof.
  assert (Forall (fun row => Forall (fun coin => is_Some (column return_24h row coin))
                                    COINS)
                 (select_resolved 180 world12)) as H.
  { refine (bool_decide_unpack _ _). vm_compute. exact I. }
  exact H.
Qed.

Lemma backtest_scorer_pooled_witness :
  let rows := select_resolved 180 world12 in
  length rows = 180 `min` length (List.filter resolved (trades (db world12)))
  ∧ (length rows < 10 ->
       ∀ any_code,
         backtest_scorer_counted exec_known rank_pearson any_code 180 world12
         = Ok (None, 0)
         ∧ backtest_scorer exec_known rank_pearson any_code 180 world12 = Ok None)
  ∧ (10 <= length rows ->
       backtest_scorer_counted exec_known rank_pearson (Some momentum_src) 180 world12
       = Ok (Some (rank_pearson (pooled_predicted momentum rows) (pooled_actual rows),
                   np_mean (map (top_return momentum) rows)),
             16 * length rows)
       ∧ backtest_scorer exec_known rank_pearson (Some momentum_src) 180 world12
         = Ok (Some (rank_pearson (pooled_predicted momentum rows) (pooled_actual rows),
                     np_mean (map (top_return momentum) rows)))).
Proof.
  apply (backtest_scorer_pooled exec_known rank_pearson (Some momentum_src) 180
           world12 momentum).
  - reflexivity.
  - exact history_complete.
Defined.

End BacktestSpec.

Import BacktestSpec.

Module UpgradeFacts.

Section externals.
Variable re_search_score_coin : string -> option string.

#[local] Abbreviation upgrade_model := (upgrade_model re_search_score_coin).
#[local] Abbreviation upgrade_model_io := (upgrade_model_io re_search_score_coin).
#[local] Abbreviation format_code := (format_code re_search_score_coin).

Lemma version_set_backup n code w :
  get_current_model_version (set_backup n code w) = get_current_model_version w.
Proof. reflexivity. Qed.

Lemma upgrade_model_trades today code corr avg ty w :
  trades (db (upgrade_model today code corr avg ty w)) = trades (db w).
Proof. unfold upgrade_model. by destruct (current_scorer w). Qed.

Lemma upgrade_model_version_kept today code corr avg ty w :
  get_current_model_version (upgrade_model today code corr avg ty w)
  = get_current_model_version w.
Proof.
  unfold get_current_model_version. by rewrite upgrade_model_trades.
Qed.

Lemma upgrade_model_history today code corr avg ty w :
  model_history (db (upgrade_model today code corr avg ty w))
  = model_history (db w)
      ++ [{| mh_date := today;
             version := (get_current_model_version w + 1)%Z;
             scorer_code := format_code code;
             spearman_correlation := corr;
             avg_daily_return := avg;
             improvement_type := ty |}].
Proof. unfold upgrade_model. by destruct (current_scorer w). Qed.

Lemma upgrade_model_scorer today code corr avg ty w :
  current_scorer (upgrade_model today code corr avg ty w)
  = Some (scorer_file_text (get_current_model_version w + 1) (format_code code)).
Proof. unfold upgrade_model. by destruct (current_scorer w). Qed.

(** C1 on the code.  Every promotion appends exactly one row to
    [model_history], with version [get_current_model_version() + 1];
    that number is read from [trades.model_version], which no
    promotion writes, so a second promotion records the version of
    the first again: on a table with the default model version both
    rows carry version 2. *)
Theorem upgrade_model_reuses_version
    (today1 code1 : string) (corr1 avg1 : Q) (ty1 : improvement)
    (today2 code2 : string) (corr2 avg2 : Q) (ty2 : improvement) (w : world) :
  let w1 := upgrade_model today1 code1 corr1 avg1 ty1 w in
  let w2 := upgrade_model today2 code2 corr2 avg2 ty2 w1 in
  ∃ r1 r2,
    model_history (db w1) = model_history (db w) ++ [r1]
    ∧ model_history (db w2) = model_history (db w1) ++ [r2]
    ∧ version r1 = (get_current_model_version w + 1)%Z
    ∧ version r2 = version r1
    ∧ version <$> model_history
        (db (upgrade_model today2 code2 corr2 avg2 ty2
               (upgrade_model today1 code1 corr1 avg1 ty1 one_prediction)))
      = [2%Z; 2%Z].
Proof.
  intros w1 w2. subst w1 w2. eexists _, _.
  split; [apply upgrade_model_history|].
  split; [apply upgrade_model_history|].
  split; [reflexivity|]. split.
  - simpl. by rewrite upgrade_model_version_kept.
  - rewrite !upgrade_model_history. reflexivity.
Qed.

Lemma upgrade_model_io_no_fault today code corr avg ty w :
  upgrade_model_io None today code corr avg ty w
  = (upgrade_model today code corr avg ty w, true).
Proof.
  unfold upgrade_model_io, upgrade_model. by destruct (current_scorer w).
Qed.

Lemma upgrade_model_logged today code corr avg ty w :
  active_code_logged (upgrade_model today code corr avg ty w).
Proof.
  unfold active_code_logged. rewrite upgrade_model_scorer, upgrade_model_history.
  eexists. split; [apply elem_of_app; right; apply list_elem_of_singleton; reflexivity|].
  reflexivity.
Qed.

(** C3, amended.  [upgrade_model] performs its writes one after the
    other.  A run that no write stops is the complete promotion, after
    which the active file holds code recorded in [model_history].  A
    run stopped by a raising write never touches [trades] and leaves
    [model_history] as it was.  The active file is untouched when the
    run stops before the file is opened for writing; it holds the
    first bytes of the new text, none at all when the first write
    fails on the truncated file, when writing it is what fails; it
    holds the whole new text when only the insert raised. *)
Theorem upgrade_model_io_stages (stop : option fault) (today code : string)
    (corr avg : Q) (ty : improvement) (w : world) :
  let run := upgrade_model_io stop today code corr avg ty w in
  let complete_run := upgrade_model today code corr avg ty w in
  let text := scorer_file_text (get_current_model_version w + 1) (format_code code) in
  (stop = None -> run = (complete_run, true))
  ∧ (run.2 = true -> run.1 = complete_run)
  ∧ active_code_logged complete_run
  ∧ trades (db run.1) = trades (db w)
  ∧ (run.2 = false ->
       model_history (db run.1) = model_history (db w)
       ∧ ((current_scorer run.1 = current_scorer w
           ∧ (stop = Some BackupOpenFails
              ∨ (∃ n, stop = Some (BackupWriteFails n))
              ∨ stop = Some ScorerOpenFails))
          ∨ (∃ n, stop = Some (ScorerWriteFails n)
                  ∧ current_scorer run.1 = Some (written n text))
          ∨ (stop = Some InsertFails ∧ current_scorer run.1 = Some text)))
  ∧ (∀ n old, stop = Some (BackupWriteFails n) -> current_scorer w = Some old ->
       run.2 = false
       ∧ backups run.1 !! get_current_model_version w = Some (written n old))
  ∧ written 0 text = "".
Proof.
  intros run complete_run text. subst run complete_run text.
  split; [intros ->; apply upgrade_model_io_no_fault|].
  split; [|split; [apply upgrade_model_logged|]].
  - unfold upgrade_model_io, upgrade_model.
    destruct (current_scorer w); destruct stop as [[]|]; simpl; intros; congruence.
  - split; [|split; [|split]].
    + unfold upgrade_model_io.
      destruct (current_scorer w); by destruct stop as [[]|].
    + unfold upgrade_model_io.
      destruct (current_scorer w) eqn:Hc; destruct stop as [[| n | | n |]|]; simpl;
        intros; try discriminate; (split; [reflexivity|]); rewrite ?Hc;
        eauto 10.
    + intros n old -> Hold. unfold upgrade_model_io. rewrite Hold. simpl.
      split; [reflexivity|]. apply lookup_insert_eq.
    + unfold written. by destruct (scorer_file_text _ _).
Qed.

End externals.

(** C3 as stated fails: when the insert into [model_history] raises,
    the active file already holds the new code, the log has no row for
    it, and the state is neither the old one nor the promoted one.
    When the first write to the active file raises, the file is left
    empty: the old code is gone from it and the log has no new row. *)
Lemma upgrade_model_not_atomic :
  let run := upgrade_model_io no_match insert_fails "2024-03-13" momentum_src 1 15
                              initial fresh_world in
  let cut := upgrade_model_io no_match header_write_fails "2024-03-13" momentum_src
                              1 15 daily one_prediction in
  run.2 = false
  ∧ active_code_logged fresh_world
  ∧ current_scorer run.1 = Some (scorer_file_text 2 momentum_src)
  ∧ model_history (db run.1) = []
  ∧ ¬ active_code_logged run.1
  ∧ run.1 ≠ fresh_world
  ∧ run.1 ≠ upgrade_model no_match "2024-03-13" momentum_src 1 15 initial fresh_world
  ∧ cut.2 = false
  ∧ current_scorer one_prediction = Some contrarian_src
  ∧ current_scorer cut.1 = Some ""
  ∧ model_history (db cut.1) = []
  ∧ cut.1 ≠ one_prediction
  ∧ cut.1 ≠ upgrade_model no_match "2024-03-13" momentum_src 1 15 daily one_prediction.
Proof.
  cbv zeta. split; [reflexivity|]. split; [exact I|]. split; [reflexivity|].
  split; [reflexivity|]. split; [|split; [|split]].
  - unfold active_code_logged. cbn. intros (row & Hrow & _).
    by apply elem_of_nil in Hrow.
  - intros H. apply (f_equal current_scorer) in H. cbn in H. discriminate.
  - intros H. apply (f_equal (fun w => length (model_history (db w)))) in H.
    rewrite upgrade_model_history in H. cbn in H. discriminate.
  - split; [reflexivity|]. split; [reflexivity|]. split; [reflexivity|].
    split; [reflexivity|]. split.
    + intros H. apply (f_equal current_scorer) in H. cbn in H. discriminate.
    + intros H. apply (f_equal (fun w => length (model_history (db w)))) in H.
      rewrite upgrade_model_history in H. cbn in H. discriminate.
Qed.

End UpgradeFacts.

Import UpgradeFacts.

Module CycleFacts.

Lemma performance_realized_mean w : (get_current_performance w).1 = realized_mean w.
Proof.
  unfold get_current_performance, realized_mean.
  by destruct (omap actual_24h_return_of_chosen (trades (db w))).
Qed.

Lemma threshold_met_iff cd rd :
  threshold_met cd rd = true <-> (0.04 <= cd)%Q ∨ (0.25 <= rd)%Q.
Proof.
  unfold threshold_met. rewrite orb_true_iff, !Qle_bool_true. reflexivity.
Qed.

Section externals.
Variable py_exec : string -> option score_fn.
Variable spearmanr : list nat -> list nat -> Q.
Variable re_search_score_coin : string -> option string.
Variable re_search_code_block : string -> option string.

#[local] Abbreviation backtest_scorer := (backtest_scorer py_exec spearmanr).
#[local] Abbreviation upgrade_model := (upgrade_model re_search_score_coin).
#[local] Abbreviation daily_improvement := (daily_improvement py_exec spearmanr).
#[local] Abbreviation daily_cycle :=
  (daily_cycle py_exec spearmanr re_search_score_coin).
#[local] Abbreviation ask_perplexity_why_right_wrong :=
  (ask_perplexity_why_right_wrong re_search_score_coin re_search_code_block).
#[local] Abbreviation long_term_improvement :=
  (long_term_improvement py_exec spearmanr re_search_score_coin re_search_code_block).
#[local] Abbreviation main :=
  (main py_exec spearmanr re_search_score_coin re_search_code_block).
#[local] Abbreviation extract_code :=
  (extract_code re_search_score_coin re_search_code_block).

Lemma daily_improvement_unfold corr avg cur w current :
  backtest_scorer (Some cur) 180 w = Ok current ->
  daily_improvement corr avg cur w
  = Ok ((corr - default 0%Q (fst <$> current))%Q,
        (avg - default 0%Q (realized_mean w))%Q).
Proof.
  intros Hcur. unfold SelfImprove.daily_improvement.
  rewrite Hcur. unfold bind. by rewrite performance_realized_mean.
Qed.

(** The decision of the daily cycle when an active scorer exists. *)
Lemma daily_cycle_decision today yesterday yd code cur corr avg current w :
  get_yesterday_trade_data yesterday w = Some yd ->
  code ≠ "" ->
  backtest_scorer (Some code) 180 w = Ok (Some (corr, avg)) ->
  get_current_scorer_code w = Some cur ->
  cur ≠ "" ->
  backtest_scorer (Some cur) 180 w = Ok current ->
  daily_cycle today yesterday (Some code) w
  = Ok (Some (if threshold_met (corr - default 0%Q (fst <$> current))
                               (avg - default 0%Q (realized_mean w))
              then upgrade_model today code corr avg daily w
              else w)).
Proof.
  intros Hy Hcode Hcand Hfile Hcur Hback.
  unfold SelfImprove.daily_cycle, SelfImprove.daily_step3.
  rewrite Hy. destruct code as [|c code']; [done|].
  rewrite Hcand. unfold bind at 1. rewrite Hfile.
  destruct cur as [|c0 cur']; [done|].
  rewrite (daily_improvement_unfold _ _ _ _ _ Hback). unfold bind.
  cbn [fst snd].
  by destruct (threshold_met _ _).
Qed.

Lemma upgrade_model_changes today code corr avg ty w :
  upgrade_model today code corr avg ty w ≠ w.
Proof.
  intros H. apply (f_equal (fun w => length (model_history (db w)))) in H.
  rewrite upgrade_model_history, length_app in H. simpl in H. lia.
Qed.

(** C2, amended.  In a daily cycle with an active scorer, candidate
    and active scorer are backtested over the same window of the 180
    most recent resolved rows.  The correlation improvement is the
    candidate's correlation minus the active scorer's correlation
    over that window; the return improvement is the candidate's
    average return over that window minus the mean realized return
    of the chosen coin over all resolved rows of the table.  The
    cycle promotes exactly when these two meet the threshold. *)
Theorem daily_deltas_over_window (today yesterday : string) (yd : trade)
    (code cur : string) (candidate active : strategy) (w : world) :
  get_yesterday_trade_data yesterday w = Some yd ->
  code ≠ "" -> py_exec code = Some (scorer_of candidate) ->
  get_current_scorer_code w = Some cur ->
  cur ≠ "" -> py_exec cur = Some (scorer_of active) ->
  10 <= length (select_resolved 180 w) ->
  Forall complete (select_resolved 180 w) ->
  let rows := select_resolved 180 w in
  let correlation := spearmanr (pooled_predicted candidate rows) (pooled_actual rows) in
  let avg_return := np_mean (map (top_return candidate) rows) in
  let corr_delta :=
    (correlation
     - spearmanr (pooled_predicted active rows) (pooled_actual rows))%Q in
  let return_delta := (avg_return - default 0%Q (realized_mean w))%Q in
  backtest_scorer (Some code) 180 w = Ok (Some (correlation, avg_return))
  ∧ daily_improvement correlation avg_return cur w = Ok (corr_delta, return_delta)
  ∧ daily_cycle today yesterday (Some code) w
    = Ok (Some (if threshold_met corr_delta return_delta
                then upgrade_model today code correlation avg_return daily w
                else w)).
Proof.
  intros Hy Hcode Hcand Hfile Hcur Hact Hlen Hrows.
  intros rows correlation avg_return corr_delta return_delta.
  assert (Hb1 : backtest_scorer (Some code) 180 w
                = Ok (Some (correlation, avg_return))).
  { by apply backtest_scorer_window. }
  assert (Hb2 : backtest_scorer (Some cur) 180 w
                = Ok (Some (spearmanr (pooled_predicted active rows)
                                      (pooled_actual rows),
                            np_mean (map (top_return active) rows)))).
  { by apply backtest_scorer_window. }
  split; [done|]. split.
  - by rewrite (daily_improvement_unfold _ _ _ _ _ Hb2).
  - by rewrite (daily_cycle_decision _ _ _ _ _ _ _ _ _ Hy Hcode Hb1 Hfile Hcur Hb2).
Qed.

(** The daily cycle with an active scorer promotes the candidate
    exactly when the correlation improvement is at least 0.04 or the
    return improvement is at least 0.25: an improvement of exactly
    0.04 (or exactly 0.25) promotes, 0.0399999 together with a return
    improvement below 0.25 does not. *)
Lemma daily_threshold_boundary (today yesterday : string) (yd : trade)
    (code cur : string) (corr avg : Q) (current : option (Q * Q)) (w : world) :
  get_yesterday_trade_data yesterday w = Some yd ->
  code ≠ "" ->
  backtest_scorer (Some code) 180 w = Ok (Some (corr, avg)) ->
  get_current_scorer_code w = Some cur ->
  cur ≠ "" ->
  backtest_scorer (Some cur) 180 w = Ok current ->
  let corr_delta := (corr - default 0%Q (fst <$> current))%Q in
  let return_delta := (avg - default 0%Q (realized_mean w))%Q in
  let promoted := Ok (Some (upgrade_model today code corr avg daily w)) in
  let cycle := daily_cycle today yesterday (Some code) w in
  (cycle = promoted <-> (0.04 <= corr_delta)%Q ∨ (0.25 <= return_delta)%Q)
  ∧ ((corr_delta == 0.04)%Q -> cycle = promoted)
  ∧ ((return_delta == 0.25)%Q -> cycle = promoted)
  ∧ ((corr_delta == 0.0399999)%Q -> (return_delta < 0.25)%Q -> cycle = Ok (Some w))
  ∧ (∀ r, threshold_met 0.04 r = true)
  ∧ (∀ c, threshold_met c 0.25 = true)
  ∧ (∀ r, (r < 0.25)%Q -> threshold_met 0.0399999 r = false).
Proof.
  intros Hy Hcode Hcand Hfile Hcur Hback corr_delta return_delta promoted cycle.
  assert (Hcycle : cycle = Ok (Some (if threshold_met corr_delta return_delta
                                     then upgrade_model today code corr avg daily w
                                     else w))).
  { by apply (daily_cycle_decision _ _ yd _ cur). }
  assert (Hiff : cycle = promoted
                 <-> (0.04 <= corr_delta)%Q ∨ (0.25 <= return_delta)%Q).
  { rewrite <- threshold_met_iff, Hcycle. subst promoted.
    destruct (threshold_met corr_delta return_delta); split; try done.
    intros [= H]. symmetry in H. by apply upgrade_model_changes in H. }
  split; [done|]. split; [|split; [|split; [|split; [|split]]]].
  - intros H. apply Hiff. left. lra.
  - intros H. apply Hiff. right. lra.
  - intros Hc Hr. rewrite Hcycle.
    destruct (threshold_met corr_delta return_delta) eqn:E; [|done].
    apply threshold_met_iff in E as [E|E]; exfalso; lra.
  - intros r. apply threshold_met_iff. left. lra.
  - intros c. apply threshold_met_iff. right. lra.
  - intros r Hr. destruct (threshold_met 0.0399999 r) eqn:E; [|done].
    apply threshold_met_iff in E as [E|E]; exfalso; lra.
Qed.

(** The long-term cycle once both backtests have returned figures:
    an active correlation or an active mean that is 0 turns the
    improvement it enters into 0. *)
Lemma long_term_decision today answer corr avg ccorr cavg mean w :
  30 <= length (List.filter resolved (trades (db w))) ->
  backtest_scorer (Some (extract_code answer)) 180 w = Ok (Some (corr, avg)) ->
  backtest_scorer (get_current_scorer_code w) 180 w = Ok (Some (ccorr, cavg)) ->
  realized_mean w = Some mean ->
  long_term_improvement today (Some answer) w
  = if threshold_met (if Qeq_bool ccorr 0 then 0 else corr - ccorr)
                     (if Qeq_bool mean 0 then 0 else avg - mean)
    then upgrade_model today (extract_code answer) corr avg long_term w
    else w.
Proof.
  intros Hcount Hcand Hcur Hmean. unfold SelfImprove.long_term_improvement.
  rewrite (proj2 (Nat.ltb_ge _ _) Hcount), Hcand, Hcur.
  cbn [fmap option_fmap option_map fst].
  by rewrite performance_realized_mean, Hmean.
Qed.

Lemma main_unfold today yesterday days_since_start key_set reply long_answer w yd :
  get_yesterday_trade_data yesterday w = Some yd ->
  main today yesterday days_since_start key_set reply long_answer w
  = bind (ask_perplexity_why_right_wrong key_set reply yd) (fun new_scorer_code =>
    bind (daily_cycle today yesterday new_scorer_code w) (fun step3 =>
      match step3 with
      | None => Ok w
      | Some w' =>
          if (days_since_start mod 30 =? 0)%Z
          then Ok (long_term_improvement today long_answer w')
          else Ok w'
      end)).
Proof.
  intros Hy. unfold SelfImprove.main, SelfImprove.daily_cycle. by rewrite Hy.
Qed.

(** C4.  [InsufficientData] is what the backtest reports on a window
    of fewer than 10 resolved rows: [(None, None)], for the candidate
    and for the active scorer alike, since both read the same window.
    In that case the daily cycle ends at the backtest of the candidate
    and [main] returns with the state it found: no promotion, nothing
    written (when the oracle step raises, [main] ends before any
    backtest, and nothing is written either).  The long-term cycle
    returns at once. *)
Theorem insufficient_data_no_action (today yesterday : string)
    (days_since_start : Z) (key_set : bool)
    (reply long_answer new_scorer_code : option string) (w : world) :
  length (select_resolved 180 w) < 10 ->
  (∀ code, backtest_scorer code 180 w = Ok None)
  ∧ daily_cycle today yesterday new_scorer_code w = Ok None
  ∧ (main today yesterday days_since_start key_set reply long_answer w = Ok w
     ∨ ∃ yd e, get_yesterday_trade_data yesterday w = Some yd
               ∧ ask_perplexity_why_right_wrong key_set reply yd = Raise e
               ∧ main today yesterday days_since_start key_set reply long_answer w
                 = Raise e)
  ∧ (∀ w', main today yesterday days_since_start key_set reply long_answer w = Ok w' ->
           w' = w ∧ model_history (db w') = model_history (db w))
  ∧ long_term_improvement today long_answer w = w.
Proof.
  intros Hshort.
  assert (Hback : ∀ code, backtest_scorer code 180 w = Ok None).
  { intros code. by apply backtest_scorer_short. }
  assert (Hstep : ∀ code, daily_step3 py_exec spearmanr re_search_score_coin today code w
                          = Ok None).
  { intros [[|c code]|]; unfold SelfImprove.daily_step3; [done| |done].
    by rewrite Hback. }
  assert (Hmain : main today yesterday days_since_start key_set reply long_answer w = Ok w
     ∨ ∃ yd e, get_yesterday_trade_data yesterday w = Some yd
               ∧ ask_perplexity_why_right_wrong key_set reply yd = Raise e
               ∧ main today yesterday days_since_start key_set reply long_answer w
                 = Raise e).
  { unfold SelfImprove.main.
    destruct (get_yesterday_trade_data yesterday w) as [yd|]; [|by left].
    destruct (ask_perplexity_why_right_wrong key_set reply yd) as [code|e] eqn:Hask.
    - left. cbn [bind]. by rewrite Hstep.
    - right. by exists yd, e. }
  split; [done|]. split.
  { unfold SelfImprove.daily_cycle.
    by destruct (get_yesterday_trade_data yesterday w). }
  split; [done|]. split.
  { intros w' Hrun. destruct Hmain as [Hm|(yd & e & _ & _ & Hm)]; [|congruence].
    rewrite Hm in Hrun. by injection Hrun as <-. }
  unfold SelfImprove.long_term_improvement.
  assert (length (List.filter resolved (trades (db w))) < 30) as Hcount.
  { rewrite select_resolved_length in Hshort. lia. }
  by rewrite (proj2 (Nat.ltb_lt _ _) Hcount).
Qed.
End externals.

End CycleFacts.

Import CycleFacts.

Module CycleScenarios.
Import Scenarios2.

Lemma daily_deltas_over_window_witness :
  let rows := select_resolved 180 world12 in
  let correlation := rank_pearson (pooled_predicted momentum rows) (pooled_actual rows) in
  let avg_return := np_mean (map (top_return momentum) rows) in
  let corr_delta :=
    (correlation
     - rank_pearson (pooled_predicted contrarian rows) (pooled_actual rows))%Q in
  let return_delta := (avg_return - default 0%Q (realized_mean world12))%Q in
  backtest_scorer exec_known rank_pearson (Some momentum_src) 180 world12
  = Ok (Some (correlation, avg_return))
  ∧ daily_improvement exec_known rank_pearson correlation avg_return contrarian_src
      world12 = Ok (corr_delta, return_delta)
  ∧ daily_cycle exec_known rank_pearson no_match "2024-03-13" "2024-03-12"
      (Some momentum_src) world12
    = Ok (Some (if threshold_met corr_delta return_delta
                then upgrade_model no_match "2024-03-13" momentum_src correlation
                                   avg_return daily world12
                else world12)).
Proof.
  apply (daily_deltas_over_window exec_known rank_pearson no_match
           "2024-03-13" "2024-03-12" (resolved_day "2024-03-12" 12)
           momentum_src contrarian_src momentum contrarian world12).
  - vm_compute; reflexivity.
  - discriminate.
  - vm_compute; reflexivity.
  - vm_compute; reflexivity.
  - discriminate.
  - vm_compute; reflexivity.
  - vm_compute. lia.
  - exact history_complete.
Defined.

(** C2 as stated fails: the active scorer's backtest averages 0 over
    the window, yet the return improvement of the candidate is taken
    against 6.5, the mean realized return of the chosen coin. *)
Lemma return_delta_ignores_active_backtest :
  let cand_corr := (783360 # 783360)%Q in
  let cand_avg := (180 # 12)%Q in
  let act_corr := (-783360 # 783360)%Q in
  let act_avg := (0 # 12)%Q in
  let return_delta := (1224 # 144)%Q in
  backtest_scorer exec_known rank_pearson (Some momentum_src) 180 world12
  = Ok (Some (cand_corr, cand_avg))
  ∧ get_current_scorer_code world12 = Some contrarian_src
  ∧ backtest_scorer exec_known rank_pearson (Some contrarian_src) 180 world12
    = Ok (Some (act_corr, act_avg))
  ∧ realized_mean world12 = Some (78 # 12)%Q
  ∧ daily_improvement exec_known rank_pearson cand_corr cand_avg contrarian_src
      world12 = Ok ((1227305779200 # 613652889600)%Q, return_delta)
  ∧ ¬ (return_delta == cand_avg - act_avg)%Q.
Proof.
  cbv zeta.
  split; [vm_compute; reflexivity|]. split; [reflexivity|].
  split; [vm_compute; reflexivity|]. split; [vm_compute; reflexivity|].
  split; [vm_compute; reflexivity|].
  vm_compute. discriminate.
Qed.

Lemma insufficient_data_no_action_witness :
  (∀ code, backtest_scorer exec_known rank_pearson code 180 world3 = Ok None)
  ∧ daily_cycle exec_known rank_pearson no_match "2024-03-13" "2024-03-03"
      (Some momentum_src) world3 = Ok None
  ∧ (main exec_known rank_pearson no_match no_match "2024-03-13" "2024-03-03" 72
          true (Some momentum_src) None world3 = Ok world3
     ∨ ∃ yd e, get_yesterday_trade_data "2024-03-03" world3 = Some yd
               ∧ ask_perplexity_why_right_wrong no_match no_match true
                   (Some momentum_src) yd = Raise e
               ∧ main exec_known rank_pearson no_match no_match "2024-03-13"
                      "2024-03-03" 72 true (Some momentum_src) None world3 = Raise e)
  ∧ (∀ w', main exec_known rank_pearson no_match no_match "2024-03-13" "2024-03-03" 72
                true (Some momentum_src) None world3 = Ok w' ->
           w' = world3 ∧ model_history (db w') = model_history (db world3))
  ∧ long_term_improvement exec_known rank_pearson no_match no_match "2024-03-13"
      None world3 = world3.
Proof.
  apply (insufficient_data_no_action exec_known rank_pearson no_match no_match
           "2024-03-13" "2024-03-03" 72 true (Some momentum_src) None
           (Some momentum_src) world3).
  vm_compute. lia.
Defined.

(** C7 on the code.  Thirty resolved days on which the active scorer
    has correlation 0 with the realized ranks and the candidate has
    correlation 0.04, so that the correlation improvement is exactly
    0.04, while the candidate's average return lies below the mean
    realized return.  The daily cycle promotes the candidate, as the
    non-strict rule asks.  The long-term cycle, given the same
    candidate, takes the improvement over a baseline of 0 to be 0 and
    does not promote. *)
Theorem long_term_misses_exact_boundary :
  let w := world_boundary in
  let corr := (195840 # 4896000)%Q in
  let avg := (258 # 30)%Q in
  let active_corr := (0 # 4896000)%Q in
  let promoted := upgrade_model no_match "2024-05-01" by_6h_src corr avg daily w in
  30 <= length (List.filter resolved (trades (db w)))
  ∧ backtest_scorer exec_boundary rank_pearson (Some by_6h_src) 180 w
    = Ok (Some (corr, avg))
  ∧ get_current_scorer_code w = Some by_volume_src
  ∧ backtest_scorer exec_boundary rank_pearson (Some by_volume_src) 180 w
    = Ok (Some (active_corr, (255 # 30)%Q))
  ∧ realized_mean w = Some (480 # 30)%Q
  ∧ (corr - active_corr == 0.04)%Q
  ∧ (avg - (480 # 30) < 0.25)%Q
  ∧ daily_cycle exec_boundary rank_pearson no_match "2024-05-01" "2024-04-30"
      (Some by_6h_src) w = Ok (Some promoted)
  ∧ promoted ≠ w
  ∧ extract_code no_match no_match by_6h_src = by_6h_src
  ∧ long_term_improvement exec_boundary rank_pearson no_match no_match "2024-05-01"
      (Some by_6h_src) w = w.
Proof.
  cbv zeta.
  assert (Hcount : 30 <= length (List.filter resolved (trades (db world_boundary))))
    by (vm_compute; lia).
  assert (Hcand : backtest_scorer exec_boundary rank_pearson (Some by_6h_src) 180
                    world_boundary
                  = Ok (Some ((195840 # 4896000)%Q, (258 # 30)%Q)))
    by (vm_compute; reflexivity).
  assert (Hact : backtest_scorer exec_boundary rank_pearson (Some by_volume_src) 180
                   world_boundary
                 = Ok (Some ((0 # 4896000)%Q, (255 # 30)%Q)))
    by (vm_compute; reflexivity).
  assert (Hmean : realized_mean world_boundary = Some (480 # 30)%Q)
    by (vm_compute; reflexivity).
  split; [done|]. split; [done|]. split; [reflexivity|]. split; [done|].
  split; [done|]. split; [reflexivity|]. split; [reflexivity|]. split.
  { rewrite (daily_cycle_decision exec_boundary rank_pearson no_match
               "2024-05-01" "2024-04-30" (boundary_day "2024-04-30" swapped reversed)
               by_6h_src by_volume_src (195840 # 4896000) (258 # 30)
               (Some ((0 # 4896000)%Q, (255 # 30)%Q)) world_boundary);
      [|vm_compute; reflexivity|discriminate|exact Hcand|reflexivity|discriminate
       |exact Hact].
    rewrite Hmean.
    match goal with
    | |- context [threshold_met ?c ?r] =>
        assert (threshold_met c r = true) as -> by (vm_compute; reflexivity)
    end.
    reflexivity. }
  split; [apply upgrade_model_changes|]. split; [reflexivity|].
  rewrite (long_term_decision exec_boundary rank_pearson no_match no_match
             "2024-05-01" by_6h_src (195840 # 4896000) (258 # 30) (0 # 4896000)
             (255 # 30) (480 # 30) world_boundary Hcount Hcand Hact Hmean).
  assert (Qeq_bool (0 # 4896000) 0 = true) as -> by reflexivity.
  assert (Qeq_bool (480 # 30) 0 = false) as -> by reflexivity.
  assert (threshold_met 0 ((258 # 30) - (480 # 30)) = false) as ->
    by (vm_compute; reflexivity).
  reflexivity.
Qed.

End CycleScenarios.

(** * Further properties of the code *)

Import Py Utils PyDict RecordResults PredictAndTrade SelfImprove Spec Scenarios.
Import PyFacts RankFacts BacktestFacts BacktestSpec UpgradeFacts CycleFacts.

(** ** The recorder: returns, outcome columns *)

Module RecorderFacts.
Import Recorder Scenarios2.

Lemma dict_set_fresh {V : Type} (k : string) (v : V) (d : list (string * V)) :
  k ∉ d.*1 -> dict_set k v d = d ++ [(k, v)].
Proof.
  induction d as [|[k' v'] d IH]; intros Hk; simpl; [done|].
  simpl in Hk. apply not_elem_of_cons in Hk as [Hne Hk].
  rewrite bool_decide_eq_false_2 by congruence. by rewrite IH.
Qed.

Lemma dict_fill {V : Type} (f : string -> V) (ks : list string) (d : list (string * V)) :
  NoDup ks -> (∀ k, k ∈ ks -> k ∉ d.*1) ->
  foldl (fun d k => dict_set k (f k) d) d ks = d ++ map (fun k => (k, f k)) ks.
Proof.
  intros Hnd. revert d. induction Hnd as [|k ks Hk Hnd IH]; intros d Hfresh; simpl.
  - by rewrite app_nil_r.
  - rewrite dict_set_fresh by (apply Hfresh; left).
    rewrite IH.
    + by rewrite <- app_assoc.
    + intros k' Hk'. rewrite fmap_app. simpl. intros Hin.
      apply elem_of_app in Hin as [Hin|Hin].
      * by apply (Hfresh k'); [right|].
      * apply list_elem_of_singleton in Hin. by subst.
Qed.

Lemma dict_get_map {V : Type} (f : string -> V) (ks : list string) (k : string) :
  k ∈ ks -> dict_get k (map (fun k => (k, f k)) ks) = Some (f k).
Proof.
  induction ks as [|k' ks IH]; intros Hk; simpl.
  - by apply elem_of_nil in Hk.
  - case_bool_decide as Hd; [by subst|].
    apply IH. apply elem_of_cons in Hk as [->|Hk]; [done|done].
Qed.

Lemma dict_get_none {V : Type} (d : list (string * V)) (k : string) :
  k ∉ d.*1 -> dict_get k d = None.
Proof.
  induction d as [|[k' v'] d IH]; intros Hk; simpl; [done|].
  simpl in Hk. apply not_elem_of_cons in Hk as [Hne Hk].
  rewrite bool_decide_eq_false_2 by congruence. by apply IH.
Qed.

(** The returns dict in closed form. *)
Lemma fetch_actual_returns_map api :
  fetch_actual_returns api = map (fun coin => (coin, coin_return (api coin))) COINS.
Proof.
  unfold fetch_actual_returns.
  rewrite (dict_fill (fun coin => coin_return (api coin)) COINS []); [done| |].
  - apply NoDup_COINS.
  - intros k _. apply not_elem_of_nil.
Qed.

Lemma fetch_actual_returns_keys api : (fetch_actual_returns api).*1 = COINS.
Proof.
  rewrite fetch_actual_returns_map, <- list_fmap_compose. apply list_fmap_id.
Qed.

Lemma calculate_rank_range chosen l :
  length l = 16 -> 1 <= (calculate_rank chosen l).1 <= 16.
Proof.
  intros Hlen. unfold calculate_rank.
  destruct (first_rank chosen (enumerate 1 (sorted_desc snd l))) as [rank|] eqn:E;
    simpl; [|lia].
  apply first_rank_present in E as (v & _ & Hlo & Hhi).
  rewrite sorted_desc_length, Hlen in Hhi. lia.
Qed.

Lemma calculate_rank_rank_among chosen l :
  NoDup l.*1 -> chosen ∈ l.*1 -> (calculate_rank chosen l).1 = rank_among l chosen.
Proof.
  intros Hnd Hin. unfold calculate_rank, rank_among.
  rewrite (first_rank_sorted chosen 1 l Hnd).
  destruct (standing chosen l) as [[vc m]|] eqn:E; [done|].
  by apply standing_absent in E.
Qed.

Lemma truthy_true q : truthy q = true <-> ¬ (q == 0)%Q.
Proof.
  unfold truthy. rewrite negb_true_iff. split.
  - intros H Hq. apply Qeq_bool_iff in Hq. congruence.
  - intros H. destruct (Qeq_bool q 0) eqn:E; [|done].
    apply Qeq_bool_iff in E. done.
Qed.

Lemma coin_return_failed reply :
  (∃ e, aggs_24h reply = Raise e) ∨ (∃ e, aggs_now reply = Raise e)
  ∨ aggs_24h reply = Ok [] ∨ aggs_now reply = Ok [] ->
  coin_return reply = 0%Q.
Proof.
  unfold coin_return. intros [[e H]|[[e H]|[H|H]]]; rewrite H.
  - done.
  - by destruct (aggs_24h reply).
  - by destruct (aggs_now reply).
  - destruct (aggs_24h reply) as [bars|]; [|done]. simpl.
    by destruct (last bars).
Qed.

Lemma fetch_actual_returns_get api coin :
  coin ∈ COINS ->
  dict_get coin (fetch_actual_returns api) = Some (coin_return (api coin)).
Proof.
  intros Hc. rewrite fetch_actual_returns_map.
  by apply (dict_get_map (fun coin => coin_return (api coin))).
Qed.

Lemma fetch_actual_returns_rank api chosen :
  1 <= (calculate_rank chosen (fetch_actual_returns api)).1 <= 16.
Proof.
  apply calculate_rank_range.
  rewrite <- (length_fmap fst), fetch_actual_returns_keys. reflexivity.
Qed.

(** X1.  Whatever the market data service does, [fetch_actual_returns]
    yields one return for each of the 16 coins, in universe order; a
    coin whose request raises or returns no bars gets 0; the rank
    computed from the result lies between 1 and 16 for any chosen coin. *)
Theorem fetch_actual_returns_total (api : string -> aggs_reply) (chosen : string) :
  (fetch_actual_returns api).*1 = COINS
  ∧ (∀ coin, coin ∈ COINS ->
       dict_get coin (fetch_actual_returns api) = Some (coin_return (api coin)))
  ∧ (∀ coin, coin ∈ COINS ->
       (∃ e, aggs_24h (api coin) = Raise e) ∨ (∃ e, aggs_now (api coin) = Raise e)
       ∨ aggs_24h (api coin) = Ok [] ∨ aggs_now (api coin) = Ok [] ->
       dict_get coin (fetch_actual_returns api) = Some 0%Q)
  ∧ (∀ coin, coin ∉ COINS -> dict_get coin (fetch_actual_returns api) = None)
  ∧ 1 <= (calculate_rank chosen (fetch_actual_returns api)).1 <= 16.
Proof.
  split; [apply fetch_actual_returns_keys|].
  split; [intros coin; apply fetch_actual_returns_get|]. split; [|split].
  - intros coin Hc Hfail. rewrite fetch_actual_returns_get by done.
    f_equal. by apply coin_return_failed.
  - intros coin Hc. apply dict_get_none. by rewrite fetch_actual_returns_keys.
  - apply fetch_actual_returns_rank.
Qed.

(** X2.  When both requests for a coin return bars, its return is
    computed from the last close of each: [(now / then - 1) * 100] when
    the earlier close is positive and the later one is not zero, and 0
    otherwise; for a later close that is not negative the return is
    above -100. *)
Theorem coin_return_formula (reply : aggs_reply) (bars_24h bars_now : list Q)
    (price_24h_ago price_now : Q) :
  aggs_24h reply = Ok bars_24h -> aggs_now reply = Ok bars_now ->
  last bars_24h = Some price_24h_ago -> last bars_now = Some price_now ->
  ((0 < price_24h_ago)%Q -> ¬ (price_now == 0)%Q ->
   coin_return reply = ((price_now / price_24h_ago - 1) * 100)%Q)
  ∧ ((price_24h_ago <= 0)%Q ∨ (price_now == 0)%Q -> coin_return reply = 0%Q)
  ∧ ((0 <= price_now)%Q -> (-100 < coin_return reply)%Q).
Proof.
  intros H24 Hnow Hl0 Hl1. revert H24 Hnow Hl0 Hl1.
  generalize price_24h_ago price_now. clear price_24h_ago price_now.
  intros p0 p1 H24 Hnow Hl0 Hl1.
  unfold coin_return. rewrite H24, Hnow, Hl0, Hl1.
  assert (Hcond : truthy p0 && truthy p1 && Qltb 0 p0 = true
                  <-> (0 < p0)%Q ∧ ¬ (p1 == 0)%Q).
  { rewrite !andb_true_iff, !truthy_true, Qltb_true. split.
    - intros [[_ H1] H0]. done.
    - intros [H0 H1]. split; [split; [|done]|done]. intros H. lra. }
  destruct (truthy p0 && truthy p1 && Qltb 0 p0) eqn:E.
  - destruct (proj1 Hcond eq_refl) as [H0 H1]. split; [done|]. split.
    + intros [H|H]; [exfalso; lra|done].
    + intros Hp1. assert (0 < p1 / p0)%Q.
      { apply Qlt_shift_div_l; [done|].
        destruct (Qlt_le_dec 0 p1) as [Hlt|Hle]; [lra|].
        exfalso. apply H1. lra. }
      generalize dependent (p1 / p0)%Q. intros x Hx. lra.
  - split; [|split; [done|intros; lra]].
    intros H0 H1. by pose proof (proj2 Hcond (conj H0 H1)).
Qed.

Lemma coin_return_formula_witness :
  (((0 < 100)%Q -> ¬ (105 == 0)%Q ->
    coin_return (api_btc_up "BTCUSD") = ((105 / 100 - 1) * 100)%Q)
   ∧ ((100 <= 0)%Q ∨ (105 == 0)%Q -> coin_return (api_btc_up "BTCUSD") = 0%Q)
   ∧ ((0 <= 105)%Q -> (-100 < coin_return (api_btc_up "BTCUSD"))%Q)).
Proof.
  apply (coin_return_formula (api_btc_up "BTCUSD") [99%Q; 100%Q] [104%Q; 105%Q]);
    reflexivity.
Defined.

Lemma fill_lookup_in (f : string -> coin_columns) (ks : list string)
    (m : gmap string coin_columns) (k : string) :
  k ∈ ks -> foldl (fun cols coin => <[coin := f coin]> cols) m ks !! k = Some (f k).
Proof.
  revert m. induction ks as [|k' ks IH]; intros m Hk; simpl.
  - by apply elem_of_nil in Hk.
  - destruct (decide (k ∈ ks)) as [Hin|Hout]; [by apply IH|].
    apply elem_of_cons in Hk as [->|Hk]; [|done].
    clear IH. revert m. induction ks as [|k'' ks IH]; intros m; simpl.
    + apply lookup_insert_eq.
    + apply not_elem_of_cons in Hout as [Hne Hout].
      rewrite insert_insert_ne by done. by apply IH.
Qed.

Lemma fill_lookup_out (f : string -> coin_columns) (ks : list string)
    (m : gmap string coin_columns) (k : string) :
  k ∉ ks -> foldl (fun cols coin => <[coin := f coin]> cols) m ks !! k = m !! k.
Proof.
  revert m. induction ks as [|k' ks IH]; intros m Hk; simpl; [done|].
  apply not_elem_of_cons in Hk as [Hne Hk].
  rewrite IH by done. by rewrite lookup_insert_ne.
Qed.

Lemma set_outcome_columns actual rank all_returns pd sd ht st r coin :
  coin ∈ COINS ->
  per_coin (set_outcome actual rank all_returns pd sd ht st r) !! coin
  = Some (coin_update all_returns pd sd coin).
Proof.
  intros Hc. cbn [set_outcome per_coin].
  by apply (fill_lookup_in (coin_update all_returns pd sd)).
Qed.

Lemma coin_update_return all_returns pd sd coin :
  return_24h (coin_update all_returns pd sd coin)
  = Some (default 0%Q (dict_get coin all_returns)).
Proof. unfold coin_update. by destruct (pd !! coin). Qed.

Lemma set_outcome_complete actual rank all_returns pd sd ht st r :
  complete (set_outcome actual rank all_returns pd sd ht st r).
Proof.
  unfold complete. apply Forall_forall. intros coin Hc.
  unfold column. rewrite set_outcome_columns by done. simpl.
  rewrite coin_update_return. by eexists.
Qed.

Lemma record_results_ok yesterday chosen actual rank all_returns pd sd d d' :
  record_results yesterday chosen actual rank all_returns pd sd d = Ok d' ->
  ∃ ht, headlines_text_of chosen sd = Ok ht
        ∧ d' = {| trades :=
                    map (fun r => if bool_decide (date r = yesterday)
                                  then set_outcome actual rank all_returns pd sd ht
                                         (summary_text_of chosen sd) r
                                  else r) (trades d);
                  model_history := model_history d |}.
Proof.
  unfold record_results. destruct (headlines_text_of chosen sd) as [ht|e]; [|done].
  simpl. intros [= <-]. by exists ht.
Qed.

(** X3.  [record_results] merges the outcome into the rows of
    [yesterday] only: it adds no row, leaves [model_history] and every
    row of another date as they are, and keeps the date, the chosen
    coin, its score and the model version of the rows it updates; when
    no row has that date the table is unchanged. *)
Theorem record_results_frame (yesterday : string) (chosen : option string)
    (actual : Q) (rank : nat) (all_returns : list (string * Q))
    (pd : gmap string (gmap string Q)) (sd : sentiment_file) (d d' : database) :
  record_results yesterday chosen actual rank all_returns pd sd d = Ok d' ->
  length (trades d') = length (trades d)
  ∧ model_history d' = model_history d
  ∧ (∀ i r, trades d !! i = Some r ->
       ∃ r', trades d' !! i = Some r'
             ∧ date r' = date r
             ∧ chosen_coin r' = chosen_coin r
             ∧ chosen_score r' = chosen_score r
             ∧ model_version r' = model_version r
             ∧ (date r ≠ yesterday -> r' = r))
  ∧ (select_by_date yesterday (trades d) = None -> d' = d).
Proof.
  intros Hrun. apply record_results_ok in Hrun as (ht & _ & ->). cbn [trades].
  split; [apply length_map|]. split; [done|]. split.
  - intros i r Hi. rewrite list_lookup_fmap, Hi. simpl.
    case_bool_decide as Hd.
    + eexists. split; [done|]. by repeat split.
    + exists r. by repeat split.
  - intros Hnone. destruct d as [ts mh]. cbn [trades model_history] in *. f_equal.
    unfold select_by_date in Hnone.
    induction ts as [|r ts IH]; simpl in *; [done|].
    destruct (bool_decide (date r = yesterday)); [done|]. by rewrite IH.
Qed.

Lemma record_results_frame_witness :
  let d' := {| trades :=
                 [set_outcome 5 1 (fetch_actual_returns api_btc_up) ∅ sentiment_titles
                    (join newline ["Bitcoin rally"; ""]) (Some "Bullish.")
                    (new_trade "2024-03-13" "BTCUSD" 1)];
               model_history := [] |} in
  length (trades d') = length (trades predicted_db)
  ∧ model_history d' = model_history predicted_db
  ∧ (∀ i r, trades predicted_db !! i = Some r ->
       ∃ r', trades d' !! i = Some r'
             ∧ date r' = date r
             ∧ chosen_coin r' = chosen_coin r
             ∧ chosen_score r' = chosen_score r
             ∧ model_version r' = model_version r
             ∧ (date r ≠ "2024-03-13" -> r' = r))
  ∧ (select_by_date "2024-03-13" (trades predicted_db) = None -> d' = predicted_db).
Proof.
  apply (record_results_frame "2024-03-13" (Some "BTCUSD") 5 1
           (fetch_actual_returns api_btc_up) ∅ sentiment_titles predicted_db).
  vm_compute. reflexivity.
Defined.

(** X4.  Every row [record_results] writes is resolved and holds all
    six columns of every coin of the universe: the return from
    [all_returns] (0 when the coin is missing there), the other price
    columns from the price cache with the defaults 0, 0, 50 and 1 for a
    coin or a field that is missing, the sentiment with default 0. *)
Theorem record_results_fills_columns (yesterday : string) (chosen : option string)
    (actual : Q) (rank : nat) (all_returns : list (string * Q))
    (pd : gmap string (gmap string Q)) (sd : sentiment_file) (d d' : database)
    (r' : trade) :
  record_results yesterday chosen actual rank all_returns pd sd d = Ok d' ->
  r' ∈ trades d' -> date r' = yesterday ->
  actual_24h_return_of_chosen r' = Some actual
  ∧ rank_of_chosen r' = Some rank
  ∧ complete r'
  ∧ (∀ coin, coin ∈ COINS ->
       column return_24h r' coin = Some (default 0%Q (dict_get coin all_returns))
       ∧ column news_sentiment r' coin
         = Some (default 0%Q (default ∅ (sf_sentiment sd) !! coin))
       ∧ (pd !! coin = None ->
            column return_1h r' coin = Some 0%Q ∧ column return_6h r' coin = Some 0%Q
            ∧ column rsi_14 r' coin = Some 50%Q
            ∧ column volume_ratio r' coin = Some 1%Q)
       ∧ (∀ coin_price, pd !! coin = Some coin_price ->
            column return_1h r' coin = Some (default 0%Q (coin_price !! "return_1h"))
            ∧ column return_6h r' coin = Some (default 0%Q (coin_price !! "return_6h"))
            ∧ column rsi_14 r' coin = Some (default 50%Q (coin_price !! "rsi_14"))
            ∧ column volume_ratio r' coin
              = Some (default 1%Q (coin_price !! "volume_ratio")))).
Proof.
  intros Hrun Hin Hdate. apply record_results_ok in Hrun as (ht & _ & ->).
  cbn [trades] in Hin. apply list_elem_of_fmap in Hin as (r & -> & Hr).
  case_bool_decide as Hd.
  - split; [done|]. split; [done|]. split; [apply set_outcome_complete|].
    intros coin Hc. unfold column. rewrite set_outcome_columns by done. simpl.
    rewrite coin_update_return. split; [done|]. unfold coin_update. split.
    + by destruct (pd !! coin).
    + split.
      * intros ->. done.
      * intros coin_price ->. done.
  - congruence.
Qed.

End RecorderFacts.

(** ** The recorder: [record_results] and [main] *)

Module RecorderMainFacts.
Import RecorderFacts Recorder Scenarios2.

Lemma record_results_fills_columns_witness :
  let all_returns := fetch_actual_returns api_btc_up in
  let r' := set_outcome 5 1 all_returns ∅ sentiment_titles
              (join newline ["Bitcoin rally"; ""]) (Some "Bullish.")
              (new_trade "2024-03-13" "BTCUSD" 1) in
  actual_24h_return_of_chosen r' = Some 5%Q
  ∧ rank_of_chosen r' = Some 1
  ∧ complete r'
  ∧ (∀ coin, coin ∈ COINS ->
       column return_24h r' coin = Some (default 0%Q (dict_get coin all_returns))
       ∧ column news_sentiment r' coin
         = Some (default 0%Q (default ∅ (sf_sentiment sentiment_titles) !! coin))
       ∧ ((∅ : gmap string (gmap string Q)) !! coin = None ->
            column return_1h r' coin = Some 0%Q ∧ column return_6h r' coin = Some 0%Q
            ∧ column rsi_14 r' coin = Some 50%Q
            ∧ column volume_ratio r' coin = Some 1%Q)
       ∧ (∀ coin_price, (∅ : gmap string (gmap string Q)) !! coin = Some coin_price ->
            column return_1h r' coin = Some (default 0%Q (coin_price !! "return_1h"))
            ∧ column return_6h r' coin = Some (default 0%Q (coin_price !! "return_6h"))
            ∧ column rsi_14 r' coin = Some (default 50%Q (coin_price !! "rsi_14"))
            ∧ column volume_ratio r' coin
              = Some (default 1%Q (coin_price !! "volume_ratio")))).
Proof.
  intros all_returns r'.
  apply (record_results_fills_columns "2024-03-13" (Some "BTCUSD") 5 1 all_returns ∅
           sentiment_titles predicted_db
           {| trades := [r']; model_history := [] |} r').
  - vm_compute. reflexivity.
  - left.
  - reflexivity.
Defined.

Lemma titles_ok (hs : list json_strings) :
  (∃ titles, comprehension (fun h => as_str (get_str h "title")) hs = Ok titles)
  <-> Forall (fun h => h !! "title" ≠ Some None) hs.
Proof.
  induction hs as [|h hs IH]; simpl.
  - split; [constructor|]. intros _. by eexists.
  - unfold get_str at 1. split.
    + intros [titles H]. destruct (h !! "title") as [[t|]|] eqn:Ht; simpl in H;
        try discriminate.
      * constructor; [congruence|]. apply IH.
        destruct (comprehension _ hs); [by eexists|done].
      * constructor; [congruence|]. apply IH.
        destruct (comprehension _ hs); [by eexists|done].
    + intros Hall. apply Forall_cons in Hall as [Hh Hall].
      apply IH in Hall as [titles Htitles]. rewrite Htitles.
      destruct (h !! "title") as [[t|]|]; simpl; by eauto.
Qed.

Lemma titles_raise (hs : list json_strings) e :
  comprehension (fun h => as_str (get_str h "title")) hs = Raise e -> e = TypeError.
Proof.
  induction hs as [|h hs IH]; simpl; [done|].
  unfold get_str at 1.
  destruct (h !! "title") as [[t|]|]; simpl; try (intros [= <-]; done).
  - destruct (comprehension _ hs); [done|]. intros [= <-]. by apply IH.
  - destruct (comprehension _ hs); [done|]. intros [= <-]. by apply IH.
Qed.

(** X5.  When the sentiment cache has headlines for the chosen coin,
    [record_results] raises [TypeError] exactly when one of the first
    five of them has a [null] title (a missing title counts as the
    empty string); then nothing is written. *)
Theorem record_results_null_title (yesterday c : string) (actual : Q) (rank : nat)
    (all_returns : list (string * Q)) (pd : gmap string (gmap string Q))
    (sd : sentiment_file) (headlines : list json_strings) (d : database) :
  default ∅ (sf_headlines sd) !! c = Some headlines ->
  (record_results yesterday (Some c) actual rank all_returns pd sd d = Raise TypeError
   <-> Exists (fun h => h !! "title" = Some None) (take 5 headlines))
  ∧ (∀ e, record_results yesterday (Some c) actual rank all_returns pd sd d = Raise e ->
          e = TypeError).
Proof.
  intros Hh. unfold record_results, headlines_text_of. simpl. rewrite Hh.
  pose proof (titles_ok (take 5 headlines)) as Hok.
  pose proof (titles_raise (take 5 headlines)) as Hraise.
  destruct (comprehension _ (take 5 headlines)) as [titles|e] eqn:E; simpl.
  - split; [|intros e; discriminate]. split; [discriminate|].
    intros Hex. exfalso. apply Exists_exists in Hex as (h & Hin & Hnull).
    assert (Forall (fun h => h !! "title" ≠ Some None) (take 5 headlines)) as Hall.
    { apply Hok. by eexists. }
    rewrite Forall_forall in Hall. by apply (Hall h).
  - rewrite (Hraise e eq_refl). split; [|by intros e' [= <-]]. split; [|done].
    intros _.
    assert (¬ Forall (fun h : json_strings => h !! "title" ≠ Some None)
                     (take 5 headlines)) as Hnot.
    { intros Hall. apply Hok in Hall as [titles Ht]. discriminate. }
    apply not_Forall_Exists in Hnot; [|intros h; apply _].
    eapply Exists_impl; [exact Hnot|]. intros h Hn. simpl in Hn.
    destruct (decide (h !! "title" = Some None)); [done|]. by destruct Hn.
Qed.

Lemma record_results_null_title_witness :
  (record_results "2024-03-13" (Some "BTCUSD") 5 1 [] ∅ sentiment_null_title predicted_db
   = Raise TypeError
   <-> Exists (fun h => h !! "title" = Some None)
              (take 5 [ ({[ "title" := Some "Bitcoin rally" ]} : json_strings);
                        {[ "title" := None ]} ]))
  ∧ (∀ e, record_results "2024-03-13" (Some "BTCUSD") 5 1 [] ∅ sentiment_null_title
            predicted_db = Raise e -> e = TypeError).
Proof.
  apply (record_results_null_title "2024-03-13" "BTCUSD" 5 1 [] ∅ sentiment_null_title).
  vm_compute. reflexivity.
Defined.

Lemma select_by_date_updated yesterday f ts row :
  (∀ r, date (f r) = date r) ->
  select_by_date yesterday ts = Some row ->
  select_by_date yesterday
    (map (fun r => if bool_decide (date r = yesterday) then f r else r) ts)
  = Some (f row).
Proof.
  intros Hf. unfold select_by_date.
  induction ts as [|r ts IH]; simpl; [done|].
  destruct (bool_decide (date r = yesterday)) eqn:E; simpl.
  - rewrite Hf, E. by intros [= ->].
  - rewrite E. apply IH.
Qed.

Lemma items_rebuild (l : list (string * Q)) :
  NoDup l.*1 -> map (fun k => (k, default 0%Q (dict_get k l))) l.*1 = l.
Proof.
  induction l as [|[k v] l IH]; intros Hnd; [done|].
  cbn [fmap list_fmap fst map] in *. apply NoDup_cons in Hnd as [Hk Hnd]. f_equal.
  - cbn. by rewrite bool_decide_eq_true_2.
  - rewrite <- IH at 2 by done. apply map_ext_in. intros k' Hk'.
    apply list_elem_of_In in Hk'. cbn.
    rewrite bool_decide_eq_false_2; [done|]. intros ->. done.
Qed.

Lemma day_returns_recorded actual rank all_returns pd sd ht st r :
  all_returns.*1 = COINS ->
  day_returns (set_outcome actual rank all_returns pd sd ht st r) = all_returns.
Proof.
  intros Hkeys. unfold day_returns.
  assert (Hnd : NoDup all_returns.*1) by (rewrite Hkeys; apply NoDup_COINS).
  transitivity (map (fun k => (k, default 0%Q (dict_get k all_returns))) COINS);
    [|rewrite <- Hkeys; by apply items_rebuild].
  apply map_ext_in. intros coin Hc. apply list_elem_of_In in Hc.
  unfold column. rewrite set_outcome_columns by done. simpl.
  by rewrite coin_update_return.
Qed.

(** X6.  When the recorder's [main] finds a prediction for [yesterday]
    whose chosen coin is in the universe, the row ends up resolved and
    complete, its stored returns are exactly those fetched, its stored
    outcome is the fetched return of the chosen coin, and its stored
    rank, between 1 and 16, is the rank of the chosen coin among the
    stored returns: the backtest recomputes the same rank from the row. *)
Theorem recorder_main_stores_rank (yesterday : string) (api : string -> aggs_reply)
    (pd : gmap string (gmap string Q)) (sd : sentiment_file) (d d' : database)
    (row : trade) (c : string) :
  select_by_date yesterday (trades d) = Some row ->
  chosen_coin row = Some c -> c ∈ COINS ->
  Recorder.main yesterday api pd sd d = Ok d' ->
  ∃ row' rank,
    select_by_date yesterday (trades d') = Some row'
    ∧ chosen_coin row' = Some c
    ∧ complete row'
    ∧ day_returns row' = fetch_actual_returns api
    ∧ actual_24h_return_of_chosen row' = Some (coin_return (api c))
    ∧ column return_24h row' c = Some (coin_return (api c))
    ∧ rank_of_chosen row' = Some rank
    ∧ 1 <= rank <= 16
    ∧ rank = rank_among (day_returns row') c.
Proof.
  intros Hrow Hc Hin Hrun. unfold Recorder.main in Hrun. rewrite Hrow, Hc in Hrun.
  cbn [mbind option_bind] in Hrun.
  apply record_results_ok in Hrun as (ht & _ & ->). cbn [trades].
  pose proof (fun coin => fetch_actual_returns_get api coin) as Hget.
  pose proof (fetch_actual_returns_rank api c) as Hrange.
  pose proof (fetch_actual_returns_keys api) as Hkeys.
  eexists _, _. split.
  { apply select_by_date_updated; [done|exact Hrow]. }
  split; [exact Hc|]. split; [apply set_outcome_complete|].
  split; [by apply day_returns_recorded|].
  split; [cbn; by rewrite Hget|]. split.
  { unfold column. rewrite set_outcome_columns by done. simpl.
    rewrite coin_update_return. by rewrite Hget. }
  split; [reflexivity|]. split; [exact Hrange|].
  rewrite day_returns_recorded by done.
  apply calculate_rank_rank_among.
  - rewrite Hkeys. apply NoDup_COINS.
  - by rewrite Hkeys.
Qed.

Lemma recorder_main_stores_rank_witness :
  ∃ row' rank,
    select_by_date "2024-03-13"
      (map (fun r => if bool_decide (date r = "2024-03-13")
                     then set_outcome (coin_return (api_btc_up "BTCUSD")) 1
                            (fetch_actual_returns api_btc_up) ∅ empty_sentiment_file
                            "" (Some "") r
                     else r) (trades predicted_db)) = Some row'
    ∧ chosen_coin row' = Some "BTCUSD"
    ∧ complete row'
    ∧ day_returns row' = fetch_actual_returns api_btc_up
    ∧ actual_24h_return_of_chosen row' = Some (coin_return (api_btc_up "BTCUSD"))
    ∧ column return_24h row' "BTCUSD" = Some (coin_return (api_btc_up "BTCUSD"))
    ∧ rank_of_chosen row' = Some rank
    ∧ 1 <= rank <= 16
    ∧ rank = rank_among (day_returns row') "BTCUSD".
Proof.
  apply (recorder_main_stores_rank "2024-03-13" api_btc_up ∅ empty_sentiment_file
           predicted_db
           {| trades :=
                map (fun r => if bool_decide (date r = "2024-03-13")
                              then set_outcome (coin_return (api_btc_up "BTCUSD")) 1
                                     (fetch_actual_returns api_btc_up) ∅
                                     empty_sentiment_file "" (Some "") r
                              else r) (trades predicted_db);
              model_history := [] |}
           (new_trade "2024-03-13" "BTCUSD" 1) "BTCUSD").
  - vm_compute. reflexivity.
  - reflexivity.
  - left.
  - vm_compute. reflexivity.
Defined.

Lemma recorder_main_no_prediction yesterday api pd sd d :
  select_by_date yesterday (trades d) = None ->
  Recorder.main yesterday api pd sd d = Ok d.
Proof. intros H. unfold Recorder.main. by rewrite H. Qed.

End RecorderMainFacts.

(** ** Prediction: the maximum, failures, the stored row *)

Module PredictMoreFacts.
Import PredictFacts PredictionStoreFacts RecorderMainFacts Scenarios2.

Section max.
Context {A : Type} (key : A -> Q).

Lemma foldl_max_split (l : list A) (b x : A) :
  foldl (fun best y => if Qltb (key best) (key y) then y else best) b l = x ->
  (x = b ∧ Forall (fun y => (key y <= key b)%Q) l)
  ∨ (∃ l1 l2, l = l1 ++ x :: l2 ∧ (key b < key x)%Q
              ∧ Forall (fun y => (key y < key x)%Q) l1
              ∧ Forall (fun y => (key y <= key x)%Q) l2).
Proof.
  revert b. induction l as [|y l IH]; intros b; simpl.
  - intros <-. left. by split.
  - intros Hx. destruct (Qltb (key b) (key y)) eqn:E; order_facts.
    + destruct (IH _ Hx) as [[-> Hall]|(l1 & l2 & -> & Hlt & H1 & H2)].
      * right. exists [], l. by repeat split.
      * right. exists (y :: l1), l2. repeat split; [lra| |done].
        constructor; [done|done].
    + destruct (IH _ Hx) as [[-> Hall]|(l1 & l2 & -> & Hlt & H1 & H2)].
      * left. split; [done|]. by constructor.
      * right. exists (y :: l1), l2. repeat split; [done| |done].
        constructor; [lra|done].
Qed.

(** [max] returns the first element with the largest key. *)
Lemma py_max_first (l : list A) (x : A) :
  py_max key l = Ok x ->
  ∃ l1 l2, l = l1 ++ x :: l2
           ∧ Forall (fun y => (key y < key x)%Q) l1
           ∧ Forall (fun y => (key y <= key x)%Q) l2.
Proof.
  destruct l as [|b l]; simpl; [done|]. intros [= Hx].
  destruct (foldl_max_split _ _ _ Hx) as [[-> Hall]|(l1 & l2 & -> & Hlt & H1 & H2)].
  - by exists [], l.
  - exists (b :: l1), l2. repeat split; [|done]. by constructor.
Qed.
End max.

Lemma Forall_number_items (P : Q -> Prop) (l : list (string * Q)) :
  Forall (fun kv => P kv.2) l ->
  Forall (fun kv : string * option Q => ∃ u, kv.2 = Some u ∧ P u) (number_items l).
Proof.
  unfold number_items. intros Hall. apply Forall_fmap.
  eapply Forall_impl; [exact Hall|]. intros [k u] Hu. by exists u.
Qed.

(** What a result of [predict_best_coin] tells about the scores. *)
Lemma predict_best_cases (score_coin : score_fn)
    (price_data : gmap string (gmap string Q)) (sentiment_data : sentiment_cache)
    (best : string) (score : option Q) (scores : list (string * option Q)) :
  predict_best_coin score_coin price_data sentiment_data = Ok (best, score, scores) ->
  scores = [(best, score)]
  ∨ ∃ items v, comparable_items scores = Ok items
               ∧ py_max snd items = Ok (best, v) ∧ score = Some v.
Proof.
  unfold predict_best_coin.
  destruct (predict_loop score_coin price_data sentiment_data [] COINS)
    as [all_scores|e]; [|done]. cbn [bind].
  destruct all_scores as [|kv [|kv' rest]]; [done| |].
  - unfold max_item. cbn [bind]. intros [= <- <- <-]. left. by destruct kv.
  - set (all_scores := kv :: kv' :: rest).
    change (max_item all_scores)
      with (bind (comparable_items all_scores) (fun items =>
            bind (py_max snd items) (fun best => Ok (best.1, Some best.2)))).
    cbv iota beta.
    destruct (comparable_items all_scores) as [items|e] eqn:Hitems; [|done].
    cbn [bind]. destruct (py_max snd items) as [[c v]|e] eqn:Hmax; [|done].
    cbn [bind fst snd]. intros [= <- <- <-]. right. by exists items, v.
Qed.

(** X7.  The coin [predict_best_coin] returns is the first one with the
    largest score: its score is strictly above that of every coin
    scored before it and at least that of every coin scored after it.
    When a single coin was scored it is returned whatever its score,
    even [None]; with more coins a result means that every score is a
    number. *)
Theorem predict_best_is_first_maximum (score_coin : score_fn)
    (price_data : gmap string (gmap string Q)) (sentiment_data : sentiment_cache)
    (best : string) (score : option Q) (scores : list (string * option Q)) :
  predict_best_coin score_coin price_data sentiment_data = Ok (best, score, scores) ->
  ∃ before after,
    scores = before ++ (best, score) :: after
    ∧ ((before = [] ∧ after = [])
       ∨ ∃ v, score = Some v
              ∧ Forall (fun kv => ∃ u, kv.2 = Some u ∧ (u < v)%Q) before
              ∧ Forall (fun kv => ∃ u, kv.2 = Some u ∧ (u <= v)%Q) after).
Proof.
  intros Hrun.
  apply predict_best_cases in Hrun as [-> | (items & v & Hitems & Hmax & ->)].
  - exists [], []. split; [done|by left].
  - apply py_max_first in Hmax as (l1 & l2 & -> & H1 & H2).
    apply comparable_items_numbers in Hitems.
    exists (number_items l1), (number_items l2). split.
    + rewrite Hitems. unfold number_items. by rewrite map_app.
    + right. exists v. split; [done|]. split; by apply Forall_number_items.
Qed.

Lemma predict_best_is_first_maximum_witness :
  ∃ before after,
    [("BTCUSD", Some 4%Q); ("ETHUSD", Some 3%Q)]
    = before ++ ("BTCUSD", Some 4%Q) :: after
    ∧ ((before = [] ∧ after = [])
       ∨ ∃ v, Some 4%Q = Some v
              ∧ Forall (fun kv : string * option Q => ∃ u, kv.2 = Some u ∧ (u < v)%Q)
                       before
              ∧ Forall (fun kv : string * option Q => ∃ u, kv.2 = Some u ∧ (u <= v)%Q)
                       after).
Proof.
  apply (predict_best_is_first_maximum (scorer_of momentum) prices_flat_volume
           sentiment_both).
  vm_compute. reflexivity.
Defined.

Lemma predict_loop_app sc pd sd scores l1 l2 :
  predict_loop sc pd sd scores (l1 ++ l2)
  = bind (predict_loop sc pd sd scores l1) (fun s => predict_loop sc pd sd s l2).
Proof.
  revert scores. induction l1 as [|c l1 IH]; intros scores; simpl; [done|].
  destruct (predict_step sc pd sd scores c); simpl; [apply IH|done].
Qed.

(** X8.  When the strategy fails for a coin that has a price snapshot
    and a sentiment entry, and for none before it in the universe,
    [predict_best_coin] ends with that exception: no coin is chosen. *)
Theorem predict_first_failure_aborts (score_coin : strategy)
    (price_data : gmap string (gmap string Q)) (sentiment_data : sentiment_cache)
    (before after : list string) (coin : string) (f : Q * Q * Q * Q) (e : exn) :
  COINS = before ++ coin :: after ->
  (∀ c g, c ∈ before -> features price_data sentiment_data c = Some g ->
          ∃ s, apply_scorer score_coin g = Ok s) ->
  features price_data sentiment_data coin = Some f ->
  apply_scorer score_coin f = Raise e ->
  predict_best_coin (scorer_of score_coin) price_data sentiment_data = Raise e.
Proof.
  intros Hsplit Hbefore Hf He. unfold predict_best_coin.
  rewrite Hsplit, predict_loop_app.
  rewrite (predict_loop_scored _ _ _ before [])
    by (intros c g Hc; by apply Hbefore).
  cbn [bind predict_loop]. unfold predict_step.
  unfold features in Hf.
  destruct (price_data !! coin) as [p|]; [|done].
  destruct (default ∅ (sentiment sentiment_data) !! coin) as [s|]; [|done].
  injection Hf as <-. unfold apply_scorer in He. cbn [fst snd] in He.
  unfold scorer_of. by rewrite He.
Qed.

Lemma predict_first_failure_aborts_witness :
  predict_best_coin (scorer_of per_volume) prices_flat_volume sentiment_both
  = Raise ZeroDivisionError.
Proof.
  apply (predict_first_failure_aborts per_volume prices_flat_volume sentiment_both
           [] (tail COINS) "BTCUSD" (3%Q, 1%Q, 0%Q, 0%Q)).
  - reflexivity.
  - intros c g Hc. by apply elem_of_nil in Hc.
  - vm_compute. reflexivity.
  - vm_compute. reflexivity.
Defined.

(** X9.  After [record_prediction] the row found for [today] carries
    the recorded coin and score, whether the row existed or was
    inserted; an inserted row is unresolved and has model version 1. *)
Theorem record_prediction_lookup (today coin : string) (score : Q)
    (all_scores : list (string * Q)) (d : database) :
  ∃ row,
    select_by_date today (trades (record_prediction today coin score all_scores d))
    = Some row
    ∧ date row = today
    ∧ chosen_coin row = Some coin
    ∧ chosen_score row = Some score
    ∧ (select_by_date today (trades d) = None ->
         row = new_trade today coin score
         ∧ resolved row = false ∧ model_version row = Some 1%Z
         ∧ trades (record_prediction today coin score all_scores d)
           = trades d ++ [row]).
Proof.
  unfold record_prediction.
  destruct (select_by_date today (trades d)) as [r|] eqn:E; cbn [trades].
  - exists (set_prediction coin score r). split.
    + rewrite (select_by_date_updated today (set_prediction coin score) _ r); done.
    + apply select_by_date_elem in E as [_ Hd]. by repeat split.
  - exists (new_trade today coin score). split.
    + by apply select_by_date_app_new.
    + by repeat split.
Qed.

End PredictMoreFacts.

(** ** Trading and sentiment *)

Module TraderFacts.
Import Trader PredictionStoreFacts RecorderMainFacts PredictMoreFacts Scenarios2.

Lemma close_others_all b coin positions done :
  coin ∉ positions ->
  (∀ s, s ∈ positions -> ∃ u, close_position b s = Ok u) ->
  close_others b coin positions done = (done ++ map Closed positions, true).
Proof.
  revert done. induction positions as [|s ps IH]; intros done Hc Hok; simpl.
  - by rewrite app_nil_r.
  - apply not_elem_of_cons in Hc as [Hne Hc].
    rewrite bool_decide_eq_false_2 by congruence.
    destruct (Hok s) as [u Hu]; [left|]. rewrite Hu.
    rewrite IH; [|done|intros s' Hs'; apply Hok; by right].
    by rewrite <- app_assoc.
Qed.

Lemma close_others_stops b coin ps1 s ps2 done e :
  coin ∉ ps1 -> s ≠ coin ->
  (∀ s', s' ∈ ps1 -> ∃ u, close_position b s' = Ok u) ->
  close_position b s = Raise e ->
  close_others b coin (ps1 ++ s :: ps2) done = (done ++ map Closed ps1, false).
Proof.
  revert done. induction ps1 as [|s1 ps1 IH]; intros done Hc Hs Hok He; simpl.
  - rewrite bool_decide_eq_false_2 by done. by rewrite He, app_nil_r.
  - apply not_elem_of_cons in Hc as [Hne Hc].
    rewrite bool_decide_eq_false_2 by congruence.
    destruct (Hok s1) as [u Hu]; [left|]. rewrite Hu.
    rewrite IH; [|done|done|intros s' Hs'; apply Hok; by right|done].
    by rewrite <- app_assoc.
Qed.

Lemma existsb_held (coin : string) (positions : list string) :
  existsb (fun symbol => bool_decide (symbol = coin)) positions = true
  <-> coin ∈ positions.
Proof.
  rewrite existsb_exists. split.
  - intros (s & Hin & Hs). apply bool_decide_eq_true in Hs as ->.
    by apply list_elem_of_In.
  - intros Hin. exists coin. split; [by apply list_elem_of_In|].
    by apply bool_decide_eq_true.
Qed.

(** X10.  [execute_trade] touches nothing and returns no order when the
    account cannot be read, when the cash is below 1, when the
    positions cannot be read, or when a position in the coin is already
    held. *)
Theorem execute_trade_guards (coin : string) (b : broker) :
  (∃ e, get_account_cash b = Raise e)
  ∨ (∃ cash, get_account_cash b = Ok cash ∧ (cash < 1)%Q)
  ∨ (∃ e, get_all_positions b = Raise e)
  ∨ (∃ positions, get_all_positions b = Ok positions ∧ coin ∈ positions) ->
  execute_trade coin b = ([], None).
Proof.
  unfold execute_trade.
  intros [[e H]|[(cash & H & Hlt)|[[e H]|(ps & H & Hin)]]].
  - by rewrite H.
  - rewrite H. by rewrite (proj2 (Qltb_true _ _) Hlt).
  - destruct (get_account_cash b) as [cash|]; [|done].
    destruct (Qltb cash 1); [done|]. by rewrite H.
  - destruct (get_account_cash b) as [cash|]; [|done].
    destruct (Qltb cash 1); [done|]. rewrite H.
    by rewrite (proj2 (existsb_held _ _) Hin).
Qed.

Lemma execute_trade_guards_witness :
  execute_trade "ETHUSD" broker_two_positions = ([], None).
Proof.
  apply execute_trade_guards. right. right. right.
  exists ["ETHUSD"; "SOLUSD"]. split; [reflexivity|left].
Defined.

(** X11.  With at least 1 in cash and no position in the coin, when
    every call succeeds [execute_trade] closes every open position, in
    the order listed, and then submits one buy order for the coin whose
    notional is the cash read before the positions were closed. *)
Theorem execute_trade_rotates (coin : string) (b : broker) (cash : Q)
    (positions : list string) (order : string) :
  get_account_cash b = Ok cash -> (1 <= cash)%Q ->
  get_all_positions b = Ok positions -> coin ∉ positions ->
  (∀ s, s ∈ positions -> ∃ u, close_position b s = Ok u) ->
  submit_order b coin cash = Ok order ->
  execute_trade coin b = (map Closed positions ++ [Bought coin cash], Some order).
Proof.
  intros Hcash Hle Hpos Hc Hclose Horder. unfold execute_trade.
  rewrite Hcash, (proj2 (Qltb_false _ _) Hle), Hpos.
  assert (existsb (fun symbol => bool_decide (symbol = coin)) positions = false) as ->.
  { apply not_true_iff_false. by rewrite existsb_held. }
  rewrite close_others_all by done. by rewrite Horder.
Qed.

Lemma execute_trade_rotates_witness :
  execute_trade "BTCUSD" broker_two_positions
  = (map Closed ["ETHUSD"; "SOLUSD"] ++ [Bought "BTCUSD" 250], Some "order-1").
Proof.
  apply execute_trade_rotates.
  - reflexivity.
  - vm_compute. discriminate.
  - reflexivity.
  - vm_compute. intros H. repeat (apply elem_of_cons in H as [H|H]; [discriminate|]).
    by apply elem_of_nil in H.
  - intros s _. by exists tt.
  - reflexivity.
Defined.

(** X12.  When closing one of the positions raises, [execute_trade]
    stops there: the positions listed before it stay closed, no buy
    order is submitted and no order is returned. *)
Theorem execute_trade_interrupted (coin : string) (b : broker) (cash : Q)
    (closed : list string) (failing : string) (rest : list string) (e : exn) :
  get_account_cash b = Ok cash -> (1 <= cash)%Q ->
  get_all_positions b = Ok (closed ++ failing :: rest) ->
  coin ∉ closed ++ failing :: rest ->
  (∀ s, s ∈ closed -> ∃ u, close_position b s = Ok u) ->
  close_position b failing = Raise e ->
  execute_trade coin b = (map Closed closed, None).
Proof.
  intros Hcash Hle Hpos Hc Hclose Hfail. unfold execute_trade.
  rewrite Hcash, (proj2 (Qltb_false _ _) Hle), Hpos.
  assert (existsb (fun symbol => bool_decide (symbol = coin))
                  (closed ++ failing :: rest) = false) as ->.
  { apply not_true_iff_false. by rewrite existsb_held. }
  rewrite (close_others_stops b coin closed failing rest [] e); [done| | |done|done].
  - intros H. apply Hc. apply elem_of_app. by left.
  - intros ->. apply Hc. apply elem_of_app. right. left.
Qed.

Lemma execute_trade_interrupted_witness :
  execute_trade "BTCUSD" broker_close_fails = (map Closed ["ETHUSD"], None).
Proof.
  apply (execute_trade_interrupted "BTCUSD" broker_close_fails 250 ["ETHUSD"] "SOLUSD"
           [] (OtherError "rejected")).
  - reflexivity.
  - vm_compute. discriminate.
  - reflexivity.
  - vm_compute. intros H. repeat (apply elem_of_cons in H as [H|H]; [discriminate|]).
    by apply elem_of_nil in H.
  - intros s Hs. apply list_elem_of_singleton in Hs as ->. by exists tt.
  - reflexivity.
Defined.

(** X13.  The predictor's [main] fails without writing when a cache
    file is missing or the prediction raises, and also when the best
    score is [None], which the log line cannot format.  Otherwise it
    records the prediction before it trades: the table it leaves is
    the one [record_prediction] gives for the best coin, whatever the
    broker does, and the row of [today] carries that coin and its
    score. *)
Theorem trader_main_records_prediction (today : string) (score_coin : score_fn)
    (data_file : option (gmap string (gmap string Q)))
    (sentiment_file : option sentiment_cache) (client : option broker)
    (d : database) :
  (data_file = None ∨ sentiment_file = None ->
   main today score_coin data_file sentiment_file client d
   = Raise (OtherError "FileNotFoundError"))
  ∧ (∀ pd sd e, data_file = Some pd -> sentiment_file = Some sd ->
       predict_best_coin score_coin pd sd = Raise e ->
       main today score_coin data_file sentiment_file client d = Raise e)
  ∧ (∀ pd sd best scores,
       data_file = Some pd -> sentiment_file = Some sd ->
       predict_best_coin score_coin pd sd = Ok (best, None, scores) ->
       main today score_coin data_file sentiment_file client d = Raise TypeError)
  ∧ (∀ pd sd best score scores,
       data_file = Some pd -> sentiment_file = Some sd ->
       predict_best_coin score_coin pd sd = Ok (best, Some score, scores) ->
       ∃ numbers actions row,
         scores = number_items numbers
         ∧ main today score_coin data_file sentiment_file client d
           = Ok (record_prediction today best score numbers d, actions)
         ∧ actions = match client with
                     | Some b => (execute_trade best b).1
                     | None => []
                     end
         ∧ select_by_date today (trades (record_prediction today best score numbers d))
           = Some row
         ∧ chosen_coin row = Some best ∧ chosen_score row = Some score).
Proof.
  split; [|split; [|split]].
  - unfold main. intros [->| ->]; [done|]. by destruct data_file.
  - intros pd sd e -> -> He. unfold main. by rewrite He.
  - intros pd sd best scores -> -> Hp. unfold main. by rewrite Hp.
  - intros pd sd best score scores -> -> Hp. unfold main. rewrite Hp. cbn [bind].
    assert (∃ numbers, comparable_items scores = Ok numbers) as [numbers Hn].
    { apply predict_best_cases in Hp as [-> | (items & v & Hitems & _ & _)];
        by eexists. }
    rewrite Hn. cbn [bind].
    assert (∃ row,
              select_by_date today (trades (record_prediction today best score numbers d))
              = Some row
              ∧ chosen_coin row = Some best ∧ chosen_score row = Some score)
      as (row & Hrow & Hc & Hs).
    { unfold record_prediction.
      destruct (select_by_date today (trades d)) as [r|] eqn:E; cbn [trades].
      - exists (set_prediction best score r). split; [|done].
        rewrite (select_by_date_updated today (set_prediction best score) _ r); done.
      - exists (new_trade today best score). split; [|done].
        by apply select_by_date_app_new. }
    exists numbers,
      (match client with Some b => (execute_trade best b).1 | None => [] end), row.
    split; [by apply comparable_items_numbers|].
    split; [by destruct client|]. done.
Qed.

End TraderFacts.

Module SentimentFacts.
Import Sentiment Scenarios2.

Lemma keyword_count_bound keywords text :
  keyword_count keywords text <= length keywords.
Proof.
  unfold keyword_count. induction keywords as [|k ks IH]; simpl; [lia|].
  destruct (contains k text); simpl; lia.
Qed.

Section lower.
Variable py_lower : string -> string.

Lemma tenths_bound text : (-9 <= tenths text <= 9)%Z.
Proof.
  unfold tenths.
  pose proof (keyword_count_bound positive_keywords text) as Hp.
  pose proof (keyword_count_bound negative_keywords text) as Hn.
  change (length positive_keywords) with 9 in Hp.
  change (length negative_keywords) with 9 in Hn. lia.
Qed.

Lemma score_headlines_bound headlines score total :
  score_headlines py_lower score headlines = Ok total ->
  (score - 0.9 * inject_Z (Z.of_nat (length headlines)) <= total)%Q
  ∧ (total <= score + 0.9 * inject_Z (Z.of_nat (length headlines)))%Q.
Proof.
  revert score. induction headlines as [|h hs IH]; intros score.
  - cbn [score_headlines]. intros [= <-].
    change (inject_Z (Z.of_nat (length (@nil json_strings)))) with 0%Q. split; lra.
  - cbn [score_headlines]. destruct (headline_text py_lower h) as [text|e]; [|done].
    cbn [bind]. intros Hrun. apply IH in Hrun as [Hlo Hhi].
    fold (tenths text) in Hlo, Hhi.
    pose proof (tenths_bound text) as [Ht1 Ht2].
    assert (-9 <= inject_Z (tenths text))%Q as Hq1
      by (change (-9)%Q with (inject_Z (-9)); by rewrite <- Zle_Qle).
    assert (inject_Z (tenths text) <= 9)%Q as Hq2
      by (change 9%Q with (inject_Z 9); by rewrite <- Zle_Qle).
    rewrite length_cons, Nat2Z.inj_succ. unfold Z.succ. rewrite inject_Z_plus.
    change (inject_Z 1) with 1%Q.
    generalize dependent (inject_Z (tenths text)).
    generalize dependent (inject_Z (Z.of_nat (length hs))).
    intros n m. intros. split; lra.
Qed.

Lemma clamp_inside x : (-1 < x)%Q -> (x < 1)%Q -> clamp x = x.
Proof.
  intros H1 H2. unfold clamp.
  rewrite (proj2 (Qltb_true _ _) H2). by rewrite (proj2 (Qltb_true _ _) H1).
Qed.

(** X14.  When [calculate_sentiment_score] returns, the score lies
    between -0.9 and 0.9: each headline adds between -0.9 and 0.9 before
    the division by their number, so the final clamp to [-1, 1] never
    changes the value.  Without headlines the score is 0. *)
Theorem sentiment_score_bound (headlines : list json_strings) (summary : option string)
    (score : Q) :
  calculate_sentiment_score py_lower headlines summary = Ok score ->
  (-0.9 <= score)%Q ∧ (score <= 0.9)%Q
  ∧ (headlines = [] -> score = 0%Q)
  ∧ (headlines ≠ [] ->
     ∃ total, score_headlines py_lower 0 headlines = Ok total
              ∧ score = (total / inject_Z (Z.of_nat (length headlines)))%Q).
Proof.
  unfold calculate_sentiment_score.
  destruct headlines as [|h hs] eqn:Hh.
  - intros [= <-]. repeat split; try lra; done.
  - rewrite <- Hh.
    destruct (score_headlines py_lower 0 headlines) as [total|e] eqn:Hrun; [|done].
    cbn [bind]. intros [= <-].
    apply score_headlines_bound in Hrun as [Hlo Hhi].
    assert (0 < inject_Z (Z.of_nat (length headlines)))%Q as Hn.
    { change 0%Q with (inject_Z 0). rewrite <- Zlt_Qlt. rewrite Hh. simpl. lia. }
    set (n := inject_Z (Z.of_nat (length headlines))) in *.
    assert (-0.9 <= total / n)%Q as H1 by (apply Qle_shift_div_l; [done|lra]).
    assert (total / n <= 0.9)%Q as H2 by (apply Qle_shift_div_r; [done|lra]).
    rewrite clamp_inside by lra.
    split; [done|]. split; [done|]. split; [by rewrite Hh|].
    intros _. by exists total.
Qed.

(** X15.  [calculate_sentiment_score] raises [TypeError] as soon as a
    headline has a [null] title or description; a headline that lacks
    the key altogether is read as the empty string. *)
Theorem sentiment_score_null_field (before after : list json_strings)
    (headline : json_strings) (summary : option string) :
  Forall (fun h => h !! "title" ≠ Some None ∧ h !! "description" ≠ Some None) before ->
  headline !! "title" = Some None ∨ headline !! "description" = Some None ->
  calculate_sentiment_score py_lower (before ++ headline :: after) summary
  = Raise TypeError.
Proof.
  intros Hbefore Hnull. unfold calculate_sentiment_score.
  assert (∀ score, score_headlines py_lower score (before ++ headline :: after)
                   = Raise TypeError) as Hrun.
  { induction Hbefore as [|h hs [Ht Hd] _ IH]; intros score.
    - cbn [app score_headlines]. unfold headline_text, get_str.
      destruct Hnull as [-> | ->]; [done|].
      by destruct (headline !! "title") as [[t|]|].
    - cbn [app score_headlines]. unfold headline_text at 1, get_str.
      destruct (h !! "title") as [[t|]|]; [|done| ];
        (destruct (h !! "description") as [[ds|]|]; [|done| ]);
        cbn [as_str bind]; apply IH. }
  clear Hbefore. destruct before as [|h0 before']; cbn [app] in *; by rewrite Hrun.
Qed.

End lower.

Lemma sentiment_score_bound_witness :
  ∃ score,
    calculate_sentiment_score ascii_lower (take 1 two_headlines) None = Ok score
    ∧ (-0.9 <= score)%Q ∧ (score <= 0.9)%Q
    ∧ (take 1 two_headlines = [] -> score = 0%Q)
    ∧ (take 1 two_headlines ≠ [] ->
       ∃ total, score_headlines ascii_lower 0 (take 1 two_headlines) = Ok total
                ∧ score
                  = (total / inject_Z (Z.of_nat (length (take 1 two_headlines))))%Q).
Proof.
  eexists. split; [vm_compute; reflexivity|].
  apply (sentiment_score_bound ascii_lower (take 1 two_headlines) None).
  vm_compute. reflexivity.
Defined.

Lemma sentiment_score_null_field_witness :
  calculate_sentiment_score ascii_lower
    (take 1 two_headlines ++ {[ "title" := Some "x"; "description" := None ]} :: [])
    (Some "summary")
  = Raise TypeError.
Proof.
  apply (sentiment_score_null_field ascii_lower (take 1 two_headlines) []).
  - repeat constructor; vm_compute; discriminate.
  - right. vm_compute. reflexivity.
Defined.

End SentimentFacts.

(** ** The backtest: ranks, incomplete rows, results *)

Module BacktestMoreFacts.
Import PredictMoreFacts Scenarios2.

Implicit Types (l s : list (string * Q)) (row : trade) (rows : list trade).

Lemma first_rank_positions n s :
  NoDup s.*1 ->
  map (fun k => first_rank k (enumerate n s)) s.*1 = map Some (seq n (length s)).
Proof.
  revert n. induction s as [|[k v] s IH]; intros n Hnd; [done|].
  cbn [fmap list_fmap fst map length seq enumerate] in *.
  apply NoDup_cons in Hnd as [Hk Hnd]. f_equal.
  - cbn. by rewrite bool_decide_eq_true_2.
  - rewrite <- IH by done. apply map_ext_in. intros k' Hk'.
    apply list_elem_of_In in Hk'. cbn.
    rewrite bool_decide_eq_false_2; [done|]. intros ->. done.
Qed.

Lemma rank_among_first_rank l k :
  NoDup l.*1 -> k ∈ l.*1 ->
  first_rank k (enumerate 1 (sorted_desc snd l)) = Some (rank_among l k).
Proof.
  intros Hnd Hk. rewrite first_rank_sorted by done. unfold rank_among.
  destruct (standing k l) as [[vc m]|] eqn:E; [done|]. by apply standing_absent in E.
Qed.

(** The ranks of the items number them from 1. *)
Lemma ranks_are_permutation l :
  NoDup l.*1 -> map (rank_among l) l.*1 ≡ₚ seq 1 (length l).
Proof.
  intros Hnd.
  assert (Hs : NoDup (sorted_desc snd l).*1) by (by rewrite sorted_desc_perm).
  assert (map (rank_among l) (sorted_desc snd l).*1 = seq 1 (length l)) as Heq.
  { pose proof (first_rank_positions 1 _ Hs) as Hpos.
    rewrite sorted_desc_length in Hpos.
    apply (inj (fmap Some)). change (fmap Some) with (map (@Some nat)).
    rewrite <- Hpos, map_map. apply map_ext_in. intros k Hk.
    apply list_elem_of_In in Hk. symmetry. apply rank_among_first_rank; [done|].
    by rewrite <- (sorted_desc_perm snd l). }
  rewrite <- Heq. apply Permutation_map. by rewrite sorted_desc_perm.
Qed.

(** X16.  For a strategy and a row that holds a return for every coin,
    one day of the backtest appends to each of the two rank sequences
    the numbers 1 to 16 in some order, and one entry to the daily
    returns. *)
Theorem backtest_day_ranks (score_func : strategy) (acc : backtest_acc) (row : trade) :
  complete row ->
  ∃ acc' predicted actual ret,
    backtest_day (scorer_of score_func) acc row = Ok acc'
    ∧ all_predicted_ranks acc' = all_predicted_ranks acc ++ predicted
    ∧ all_actual_ranks acc' = all_actual_ranks acc ++ actual
    ∧ daily_returns acc' = daily_returns acc ++ [ret]
    ∧ predicted ≡ₚ seq 1 16
    ∧ actual ≡ₚ seq 1 16.
Proof.
  intros Hrow. rewrite (backtest_day_complete score_func acc row Hrow).
  eexists _, _, _, _. split; [reflexivity|]. cbn [all_predicted_ranks
    all_actual_ranks daily_returns]. split; [reflexivity|]. split; [reflexivity|].
  split; [reflexivity|]. split.
  - rewrite <- (day_scores_keys score_func row) at 1.
    rewrite ranks_are_permutation
      by (rewrite day_scores_keys; apply NoDup_COINS).
    rewrite <- (length_fmap fst), day_scores_keys. reflexivity.
  - rewrite <- (day_returns_keys row) at 1.
    rewrite ranks_are_permutation
      by (rewrite day_returns_keys; apply NoDup_COINS).
    rewrite <- (length_fmap fst), day_returns_keys. reflexivity.
Qed.

Lemma backtest_day_ranks_witness :
  ∃ acc' predicted actual ret,
    backtest_day (scorer_of momentum) empty_acc (resolved_day "2024-03-01" 1) = Ok acc'
    ∧ all_predicted_ranks acc' = all_predicted_ranks empty_acc ++ predicted
    ∧ all_actual_ranks acc' = all_actual_ranks empty_acc ++ actual
    ∧ daily_returns acc' = daily_returns empty_acc ++ [ret]
    ∧ predicted ≡ₚ seq 1 16
    ∧ actual ≡ₚ seq 1 16.
Proof.
  apply (backtest_day_ranks momentum empty_acc (resolved_day "2024-03-01" 1)).
  refine (bool_decide_unpack _ _). vm_compute. exact I.
Defined.

Lemma comparable_incomplete row :
  ¬ complete row -> comparable_items (actual_returns_of row) = Raise TypeError.
Proof.
  unfold complete, actual_returns_of, comparable_items.
  induction COINS as [|coin coins IH]; intros Hn.
  - exfalso. apply Hn. constructor.
  - cbn [map comprehension]. cbn [snd fst].
    destruct (column return_24h row coin) as [q|] eqn:Hq; [|done].
    cbn [bind]. rewrite IH; [done|].
    intros Hall. apply Hn. constructor; [by eexists|done].
Qed.

Lemma max_item_raises (l : list (string * option Q)) e :
  2 <= length l -> comparable_items l = Raise e -> max_item l = Raise e.
Proof.
  intros Hlen He. destruct l as [|x [|y l]]; [simpl in Hlen; lia..|].
  unfold max_item. by rewrite He.
Qed.

(** A day on which a return is missing or a score is [None]. *)
Lemma backtest_day_raises (score_func : score_fn) acc row :
  ¬ complete row
  ∨ (∃ coin, coin ∈ COINS ∧ guarded_score score_func row coin = None) ->
  backtest_day score_func acc row = Raise TypeError.
Proof.
  intros Hbad.
  rewrite (backtest_day_nonempty score_func acc row _ _
             (scores_nonempty score_func row) (score_all_scores _ _ _)).
  set (scores := map (fun coin => (coin, guarded_score score_func row coin)) COINS).
  destruct (comparable_items_cases scores) as [[numbers Hn]|Hn].
  - destruct Hbad as [Hrow|(coin & Hc & Hnone)].
    + pose proof (comparable_items_numbers _ _ Hn) as Hs. rewrite Hs.
      assert (numbers ≠ []) as Hne.
      { intros ->. by apply (scores_nonempty score_func row). }
      destruct (py_max_nonempty snd numbers Hne) as [predicted Hmax].
      rewrite (max_item_numbers _ _ Hmax). unfold bind at 1.
      rewrite comparable_number_items. unfold bind at 1.
      by rewrite (comparable_incomplete row Hrow).
    + exfalso. rewrite (comparable_items_none scores coin) in Hn; [done|].
      subst scores. apply list_elem_of_fmap. exists coin. by rewrite Hnone.
  - rewrite (max_item_raises scores TypeError); [done| |done].
    subst scores. rewrite length_map, length_COINS. lia.
Qed.

Lemma backtest_day_incomplete (score_func : score_fn) acc row :
  ¬ complete row -> backtest_day score_func acc row = Raise TypeError.
Proof. intros Hrow. apply backtest_day_raises. by left. Qed.

(** A day with every return and every score a number. *)
Lemma backtest_day_ok (score_func : score_fn) acc row :
  complete row ->
  (∀ coin, coin ∈ COINS -> is_Some (guarded_score score_func row coin)) ->
  ∃ acc', backtest_day score_func acc row = Ok acc'
          ∧ length (all_predicted_ranks acc') = length (all_predicted_ranks acc) + 16.
Proof.
  intros Hrow Hnum.
  rewrite (backtest_day_numbers score_func acc row
             (map (fun coin => (coin, default 0%Q (guarded_score score_func row coin)))
                  COINS) Hrow).
  - eexists. split; [reflexivity|]. cbn [all_predicted_ranks].
    by rewrite length_app, length_map, length_COINS.
  - unfold number_items. rewrite map_map. apply map_ext_in.
    intros coin Hc. apply list_elem_of_In in Hc.
    destruct (Hnum coin Hc) as [q ->]. reflexivity.
Qed.

Lemma numbers_or_not (score_func : score_fn) row :
  (∀ coin, coin ∈ COINS -> is_Some (guarded_score score_func row coin))
  ∨ (∃ coin, coin ∈ COINS ∧ guarded_score score_func row coin = None).
Proof.
  induction COINS as [|coin coins IH].
  - left. intros coin Hc. by apply elem_of_nil in Hc.
  - destruct (guarded_score score_func row coin) as [q|] eqn:Hq.
    + destruct IH as [IH|(c & Hc & Hnone)].
      * left. intros c Hc. apply elem_of_cons in Hc as [->|Hc]; [by rewrite Hq|by apply IH].
      * right. exists c. split; [by right|done].
    + right. exists coin. split; [by left|done].
Qed.

Lemma complete_or_not_dec row : Decision (complete row).
Proof.
  unfold complete.
  exact (decide (Forall (fun coin => is_Some (column return_24h row coin)) COINS)).
Qed.

Lemma complete_or_not row : complete row ∨ ¬ complete row.
Proof. destruct (complete_or_not_dec row); auto. Qed.

(** The loop over a window with a day that raises. *)
Lemma backtest_rows_raises (score_func : score_fn) rows acc :
  (∃ row, row ∈ rows
          ∧ (¬ complete row
             ∨ ∃ coin, coin ∈ COINS ∧ guarded_score score_func row coin = None)) ->
  backtest_rows score_func acc rows = Raise TypeError.
Proof.
  revert acc. induction rows as [|row rows IH]; intros acc (bad & Hin & Hbad).
  - by apply elem_of_nil in Hin.
  - change (backtest_rows score_func acc (row :: rows))
      with (bind (backtest_day score_func acc row)
              (fun acc' => backtest_rows score_func acc' rows)).
    destruct (complete_or_not row) as [Hrow|Hrow];
      [|by rewrite backtest_day_incomplete].
    destruct (numbers_or_not score_func row) as [Hnum|Hnone];
      [|rewrite backtest_day_raises; [done|by right]].
    destruct (backtest_day_ok score_func acc row Hrow Hnum) as (acc' & -> & _).
    unfold bind. apply IH. exists bad. split; [|done].
    apply elem_of_cons in Hin as [->|Hin]; [|done].
    exfalso. destruct Hbad as [Hbad|(coin & Hc & Hnone)]; [done|].
    destruct (Hnum coin Hc) as [q Hq]. congruence.
Qed.

Lemma backtest_rows_incomplete (score_func : score_fn) rows acc :
  ¬ Forall complete rows -> backtest_rows score_func acc rows = Raise TypeError.
Proof.
  intros Hn. apply backtest_rows_raises.
  apply not_Forall_Exists in Hn; [|intros row; apply complete_or_not_dec].
  apply Exists_exists in Hn as (row & Hin & Hrow). exists row. split; [done|by left].
Qed.

(** The loop over a window in which every return and every score is a
    number. *)
Lemma backtest_rows_ok (score_func : score_fn) rows acc :
  Forall complete rows ->
  (∀ row coin, row ∈ rows -> coin ∈ COINS ->
               is_Some (guarded_score score_func row coin)) ->
  ∃ acc', backtest_rows score_func acc rows = Ok acc'
          ∧ length (all_predicted_ranks acc')
            = length (all_predicted_ranks acc) + 16 * length rows.
Proof.
  intros Hrows. revert acc.
  induction Hrows as [|row rows Hrow _ IH]; intros acc Hnum.
  - exists acc. split; [reflexivity|]. simpl. lia.
  - change (backtest_rows score_func acc (row :: rows))
      with (bind (backtest_day score_func acc row)
              (fun acc' => backtest_rows score_func acc' rows)).
    destruct (backtest_day_ok score_func acc row Hrow) as (acc1 & -> & Hlen1).
    { intros coin Hc. apply Hnum; [left|done]. }
    unfold bind. destruct (IH acc1) as (acc2 & -> & Hlen2).
    { intros r coin Hr Hc. apply Hnum; [by right|done]. }
    exists acc2. split; [reflexivity|]. rewrite Hlen2, Hlen1, length_cons. lia.
Qed.

Section externals.
Variable py_exec : string -> option score_fn.
Variable spearmanr : list nat -> list nat -> Q.

(** X17.  When the window has at least 10 rows, the code loads and
    some row of the window lacks the return of a coin, [backtest_scorer]
    does not return: sorting the returns raises [TypeError], which
    nothing in the function catches. *)
Theorem backtest_incomplete_row_raises (scorer_code : option string) (days : nat)
    (w : world) (score_func : score_fn) :
  scorer_code ≫= py_exec = Some score_func ->
  10 <= length (select_resolved days w) ->
  ¬ Forall complete (select_resolved days w) ->
  backtest_scorer py_exec spearmanr scorer_code days w = Raise TypeError.
Proof.
  intros Hload Hlen Hrows. unfold backtest_scorer, backtest_scorer_counted.
  rewrite (proj2 (Nat.ltb_ge _ _) Hlen), Hload.
  by rewrite backtest_rows_incomplete.
Qed.

(** On a window in which every return and every score is a number
    the backtest returns figures. *)
Lemma backtest_scorer_numbers scorer_code days w (score_func : score_fn) :
  scorer_code ≫= py_exec = Some score_func ->
  10 <= length (select_resolved days w) ->
  Forall complete (select_resolved days w) ->
  (∀ row coin, row ∈ select_resolved days w -> coin ∈ COINS ->
               is_Some (guarded_score score_func row coin)) ->
  ∃ corr avg, backtest_scorer py_exec spearmanr scorer_code days w
              = Ok (Some (corr, avg)).
Proof.
  intros Hload Hlen Hrows Hnum. unfold backtest_scorer, backtest_scorer_counted.
  rewrite (proj2 (Nat.ltb_ge _ _) Hlen), Hload.
  destruct (backtest_rows_ok score_func _ empty_acc Hrows Hnum) as (acc & -> & Hacc).
  unfold bind at 2.
  assert ((length (all_predicted_ranks acc) <? 10) = false) as ->.
  { apply Nat.ltb_ge. rewrite Hacc. cbn [empty_acc all_predicted_ranks length]. lia. }
  cbn [bind fst]. by eexists _, _.
Qed.

(** A strategy never makes the backtest raise on such a window. *)
Lemma backtest_scorer_returns scorer_code days w :
  Forall complete (select_resolved days w) ->
  (∀ f, scorer_code ≫= py_exec = Some f -> ∃ s : strategy, f = scorer_of s) ->
  ∃ result, backtest_scorer py_exec spearmanr scorer_code days w = Ok result.
Proof.
  intros Hrows Hstrat.
  destruct (le_lt_dec 10 (length (select_resolved days w))) as [Hlen|Hlen].
  - destruct (scorer_code ≫= py_exec) as [f|] eqn:Hload.
    + destruct (Hstrat f eq_refl) as [s ->].
      rewrite (backtest_scorer_window py_exec spearmanr _ _ _ s Hload Hlen Hrows).
      by eexists.
    + rewrite (backtest_scorer_unloadable py_exec spearmanr _ _ _ Hload). by eexists.
  - rewrite (backtest_scorer_short py_exec spearmanr _ _ _ Hlen). by eexists.
Qed.

(** X18.  Over a window whose rows all hold a return for every coin,
    [backtest_scorer] returns [(None, None)] when the window has fewer
    than 10 rows or the code does not load.  Otherwise it returns
    figures when every score of the window is a number, and it raises
    [TypeError] when the loaded function returns [None] for a coin of
    a day of the window: the [try] around the call catches what the
    call raises, not what [max] and [sorted] raise on its result. *)
Theorem backtest_none_iff (scorer_code : option string) (days : nat) (w : world) :
  Forall complete (select_resolved days w) ->
  let rows := select_resolved days w in
  let result := backtest_scorer py_exec spearmanr scorer_code days w in
  (length rows < 10 ∨ scorer_code ≫= py_exec = None -> result = Ok None)
  ∧ (∀ score_func, 10 <= length rows -> scorer_code ≫= py_exec = Some score_func ->
       ((∀ row coin, row ∈ rows -> coin ∈ COINS ->
                     is_Some (guarded_score score_func row coin)) ->
        ∃ corr avg, result = Ok (Some (corr, avg)))
       ∧ ((∃ row coin, row ∈ rows ∧ coin ∈ COINS
                       ∧ guarded_score score_func row coin = None) ->
          result = Raise TypeError)).
Proof.
  intros Hrows rows result. subst rows result. split.
  - intros [Hlen|Hload].
    + by apply backtest_scorer_short.
    + by apply backtest_scorer_unloadable.
  - intros score_func Hlen Hload. split.
    + by apply backtest_scorer_numbers.
    + intros (row & coin & Hrow & Hc & Hnone).
      unfold backtest_scorer, backtest_scorer_counted.
      rewrite (proj2 (Nat.ltb_ge _ _) Hlen), Hload.
      rewrite backtest_rows_raises; [done|].
      exists row. split; [done|]. right. by exists coin.
Qed.

(** X19.  The backtest hands the scorer the very return it later
    ranks the coins by: for a strategy whose score is that return, the
    predicted ranks equal the actual ranks on every day, and the coin
    picked each day is one with the largest realized return. *)
Theorem backtest_foresight (scorer_code : option string) (days : nat) (w : world)
    (score_func : strategy) :
  scorer_code ≫= py_exec = Some (scorer_of score_func) ->
  10 <= length (select_resolved days w) ->
  Forall complete (select_resolved days w) ->
  (∀ row coin, row ∈ select_resolved days w -> coin ∈ COINS ->
     guarded_score (scorer_of score_func) row coin
     = Some (default 0%Q (column return_24h row coin))) ->
  let rows := select_resolved days w in
  backtest_scorer py_exec spearmanr scorer_code days w
  = Ok (Some (spearmanr (pooled_actual rows) (pooled_actual rows),
              np_mean (map (top_return score_func) rows)))
  ∧ (∀ row coin, row ∈ rows -> coin ∈ COINS ->
       (default 0%Q (column return_24h row coin) <= top_return score_func row)%Q).
Proof.
  intros Hload Hlen Hrows Hscore rows.
  assert (Hday : ∀ row, row ∈ rows -> day_scores score_func row = day_returns row).
  { intros row Hrow. unfold day_scores, day_returns. apply map_ext_in.
    intros coin Hc. apply list_elem_of_In in Hc. f_equal.
    specialize (Hscore row coin Hrow Hc). rewrite guarded_score_strategy in Hscore.
    by injection Hscore. }
  assert (Hpool : pooled_predicted score_func rows = pooled_actual rows).
  { unfold pooled_predicted, pooled_actual. f_equal. apply map_ext_in.
    intros row Hrow. apply list_elem_of_In in Hrow. by rewrite Hday. }
  split.
  - rewrite (backtest_scorer_window py_exec spearmanr _ _ _ _ Hload Hlen Hrows).
    fold rows. by rewrite Hpool.
  - intros row coin Hrow Hc.
    destruct (py_max_nonempty snd (day_scores score_func row)
                (day_scores_nonempty score_func row)) as [[c v] Hmax].
    pose proof (predicted_is_first_ranked _ _ _ Hmax) as Hfirst.
    unfold top_return. rewrite Hfirst. cbn [fst].
    apply py_max_first in Hmax as (l1 & l2 & Hsplit & H1 & H2).
    assert (Hin : (coin, default 0%Q (column return_24h row coin))
                  ∈ day_scores score_func row).
    { rewrite Hday by done. unfold day_returns. apply list_elem_of_fmap. by exists coin. }
    assert (Hcv : (c, v) ∈ day_returns row).
    { rewrite <- Hday by done. rewrite Hsplit. apply elem_of_app. right. left. }
    unfold day_returns in Hcv. apply list_elem_of_fmap in Hcv as (c' & [= <- ->] & _).
    rewrite Hsplit in Hin. apply elem_of_app in Hin as [Hin|Hin].
    + rewrite Forall_forall in H1. specialize (H1 _ Hin). cbn [snd] in H1. lra.
    + apply elem_of_cons in Hin as [Hin|Hin].
      * injection Hin as _ ->. lra.
      * rewrite Forall_forall in H2. specialize (H2 _ Hin). cbn [snd] in H2. lra.
Qed.

End externals.

Lemma gap_window_long : 10 <= length (select_resolved 180 world_gap).
Proof. vm_compute. lia. Qed.

Lemma backtest_incomplete_row_raises_witness :
  backtest_scorer exec_known rank_pearson (Some momentum_src) 180 world_gap
  = Raise TypeError.
Proof.
  apply (backtest_incomplete_row_raises exec_known rank_pearson (Some momentum_src) 180
           world_gap (scorer_of momentum)).
  - vm_compute. reflexivity.
  - exact gap_window_long.
  - intros Hall. rewrite Forall_forall in Hall.
    assert (complete gap_day) as Hgap.
    { apply Hall. unfold select_resolved. vm_compute. left. }
    unfold complete in Hgap. rewrite Forall_forall in Hgap.
    destruct (Hgap "BTCUSD") as [q Hq]; [left|]. vm_compute in Hq. discriminate.
Defined.

Lemma backtest_none_iff_witness :
  let rows := select_resolved 180 world12 in
  let result := backtest_scorer exec_cut rank_pearson (Some cut_src) 180 world12 in
  (length rows < 10 ∨ Some cut_src ≫= exec_cut = None -> result = Ok None)
  ∧ (∀ score_func, 10 <= length rows -> Some cut_src ≫= exec_cut = Some score_func ->
       ((∀ row coin, row ∈ rows -> coin ∈ COINS ->
                     is_Some (guarded_score score_func row coin)) ->
        ∃ corr avg, result = Ok (Some (corr, avg)))
       ∧ ((∃ row coin, row ∈ rows ∧ coin ∈ COINS
                       ∧ guarded_score score_func row coin = None) ->
          result = Raise TypeError)).
Proof.
  apply (backtest_none_iff exec_cut rank_pearson (Some cut_src) 180 world12).
  exact history_complete.
Defined.

(** The cut function on the twelve days: ALGOUSD returned 0 on
    2024-03-12, the function gives [None] for it and the backtest
    raises. *)
Lemma cut_backtest_raises :
  guarded_score cut (resolved_day "2024-03-12" 12) "ALGOUSD" = None
  ∧ backtest_scorer exec_cut rank_pearson (Some cut_src) 180 world12 = Raise TypeError.
Proof. split; vm_compute; reflexivity. Qed.

Lemma foresight_scores row coin :
  complete row -> coin ∈ COINS ->
  guarded_score (scorer_of foresight) row coin
  = Some (default 0%Q (column return_24h row coin)).
Proof.
  intros Hrow Hc. unfold complete in Hrow. rewrite Forall_forall in Hrow.
  destruct (Hrow coin Hc) as [q Hq].
  unfold guarded_score, scorer_of, foresight. by rewrite Hq.
Qed.

Lemma backtest_foresight_witness :
  let rows := select_resolved 180 world12 in
  backtest_scorer exec_foresight rank_pearson (Some foresight_src) 180 world12
  = Ok (Some (rank_pearson (pooled_actual rows) (pooled_actual rows),
              np_mean (map (top_return foresight) rows)))
  ∧ (∀ row coin, row ∈ rows -> coin ∈ COINS ->
       (default 0%Q (column return_24h row coin) <= top_return foresight row)%Q).
Proof.
  apply (backtest_foresight exec_foresight rank_pearson (Some foresight_src) 180 world12
           foresight).
  - vm_compute. reflexivity.
  - vm_compute. lia.
  - exact history_complete.
  - intros row coin Hrow Hc. apply foresight_scores; [|done].
    pose proof history_complete as Hall. rewrite Forall_forall in Hall. by apply Hall.
Defined.

End BacktestMoreFacts.

(** ** Promotion: archives, history rows, cold start *)

Module PromotionFacts.
Import BacktestMoreFacts Scenarios2.

Section externals.
Variable py_exec : string -> option score_fn.
Variable spearmanr : list nat -> list nat -> Q.
Variable re_search_score_coin : string -> option string.
Variable re_search_code_block : string -> option string.

#[local] Abbreviation backtest_scorer := (backtest_scorer py_exec spearmanr).
#[local] Abbreviation upgrade_model := (upgrade_model re_search_score_coin).
#[local] Abbreviation format_code := (format_code re_search_score_coin).
#[local] Abbreviation daily_cycle :=
  (daily_cycle py_exec spearmanr re_search_score_coin).
#[local] Abbreviation long_term_improvement :=
  (long_term_improvement py_exec spearmanr re_search_score_coin re_search_code_block).
#[local] Abbreviation main :=
  (main py_exec spearmanr re_search_score_coin re_search_code_block).
#[local] Abbreviation extract_code :=
  (extract_code re_search_score_coin re_search_code_block).

Lemma upgrade_model_backups today code corr avg ty w :
  backups (upgrade_model today code corr avg ty w)
  = match current_scorer w with
    | Some old => <[get_current_model_version w := old]> (backups w)
    | None => backups w
    end.
Proof. unfold SelfImprove.upgrade_model. by destruct (current_scorer w). Qed.

(** X20.  A promotion archives the code it replaces under the current
    version number and leaves the other archives alone.  As that number
    does not advance, the next promotion writes to the same slot: after
    two promotions the slot holds the file written by the first one,
    not the code that was active before it. *)
Theorem upgrade_model_archive_slot (today1 code1 : string) (corr1 avg1 : Q)
    (ty1 : improvement) (today2 code2 : string) (corr2 avg2 : Q) (ty2 : improvement)
    (w : world) (old : string) :
  current_scorer w = Some old ->
  let v := get_current_model_version w in
  let w1 := upgrade_model today1 code1 corr1 avg1 ty1 w in
  let w2 := upgrade_model today2 code2 corr2 avg2 ty2 w1 in
  backups w1 !! v = Some old
  ∧ (∀ n, n ≠ v -> backups w1 !! n = backups w !! n)
  ∧ backups w2 !! v = Some (scorer_file_text (v + 1) (format_code code1))
  ∧ (∀ n, n ≠ v -> backups w2 !! n = backups w !! n).
Proof.
  intros Hold v w1 w2. subst v w1 w2.
  rewrite !upgrade_model_backups, upgrade_model_scorer, upgrade_model_version_kept, Hold.
  split; [apply lookup_insert_eq|]. split.
  { intros n Hn. by rewrite lookup_insert_ne. }
  split; [apply lookup_insert_eq|].
  intros n Hn. by rewrite !lookup_insert_ne.
Qed.

Lemma long_term_cases today answer w :
  long_term_improvement today answer w = w
  ∨ ∃ code corr avg,
      long_term_improvement today answer w
      = upgrade_model today code corr avg long_term w.
Proof.
  unfold SelfImprove.long_term_improvement.
  destruct (length (List.filter resolved (trades (db w))) <? 30); [by left|].
  destruct answer as [answer|]; [|by left].
  destruct (backtest_scorer (Some (extract_code answer)) 180 w)
    as [[[corr avg]|]|]; [|by left|by left].
  destruct (backtest_scorer (get_current_scorer_code w) 180 w)
    as [current|]; [|by left].
  destruct (fst <$> current) as [ccorr|]; [|by left].
  destruct ((get_current_performance w).1) as [cavg|]; [|by left].
  destruct (threshold_met _ _); [|by left].
  right. by eexists _, _, _.
Qed.

Lemma daily_step3_cases today new_scorer_code w step3 :
  daily_step3 py_exec spearmanr re_search_score_coin today new_scorer_code w
  = Ok step3 ->
  step3 = None ∨ step3 = Some w
  ∨ ∃ code corr avg ty,
      (ty = daily ∨ ty = initial)
      ∧ step3 = Some (upgrade_model today code corr avg ty w).
Proof.
  unfold SelfImprove.daily_step3.
  destruct new_scorer_code as [[|c code]|]; try (intros [= <-]; by left).
  destruct (backtest_scorer (Some (String c code)) 180 w) as [[[corr avg]|]|];
    cbn [bind]; [| intros [= <-]; by left | done].
  destruct (get_current_scorer_code w) as [[|c0 cur]|].
  - intros [= <-]. right. right. eexists _, _, _, initial. split; [by right|done].
  - destruct (daily_improvement py_exec spearmanr corr avg (String c0 cur) w)
      as [improvement|]; cbn [bind]; [|done].
    destruct (threshold_met _ _); intros [= <-].
    + right. right. eexists _, _, _, daily. split; [by left|done].
    + right. by left.
  - intros [= <-]. right. right. eexists _, _, _, initial. split; [by right|done].
Qed.

Lemma daily_cycle_cases today yesterday new_scorer_code w step3 :
  daily_cycle today yesterday new_scorer_code w = Ok step3 ->
  step3 = None ∨ step3 = Some w
  ∨ ∃ code corr avg ty,
      (ty = daily ∨ ty = initial)
      ∧ step3 = Some (upgrade_model today code corr avg ty w).
Proof.
  unfold SelfImprove.daily_cycle.
  destruct (get_yesterday_trade_data yesterday w); [|intros [= <-]; by left].
  apply daily_step3_cases.
Qed.

Lemma main_cases today yesterday days_since_start key_set reply long_answer w w' :
  main today yesterday days_since_start key_set reply long_answer w = Ok w' ->
  w' = w
  ∨ (∃ code corr avg ty, w' = upgrade_model today code corr avg ty w)
  ∨ (∃ code corr avg ty code2 corr2 avg2,
       w' = upgrade_model today code2 corr2 avg2 long_term
              (upgrade_model today code corr avg ty w)).
Proof.
  unfold SelfImprove.main.
  destruct (get_yesterday_trade_data yesterday w) as [yd|]; [|intros [= <-]; by left].
  destruct (SelfImprove.ask_perplexity_why_right_wrong _ _ key_set reply yd)
    as [new_scorer_code|e]; cbn [bind]; [|done].
  destruct (daily_step3 py_exec spearmanr re_search_score_coin today new_scorer_code w)
    as [step3|] eqn:Hd; cbn [bind]; [|done].
  apply daily_step3_cases in Hd as [-> | [-> | (code & corr & avg & ty & Hty & ->)]].
  - intros [= <-]. by left.
  - destruct (days_since_start mod 30 =? 0)%Z; intros [= <-]; [|by left].
    destruct (long_term_cases today long_answer w) as [-> | (c & x & y & ->)];
      [by left|].
    right. left. by eexists _, _, _, _.
  - destruct (days_since_start mod 30 =? 0)%Z; intros [= <-].
    + destruct (long_term_cases today long_answer
                  (upgrade_model today code corr avg ty w)) as [-> | (c & x & y & ->)].
      * right. left. by eexists _, _, _, _.
      * right. right. by eexists _, _, _, _, _, _, _.
    + right. left. by eexists _, _, _, _.
Qed.

(** X21.  A run of the self-improvement [main] never touches table
    [trades]; it keeps the rows of [model_history] and appends at most
    two, a daily or initial promotion and a long-term one, each with
    the version read before the run plus one. *)
Theorem main_appends_at_most_two (today yesterday : string) (days_since_start : Z)
    (key_set : bool) (reply long_answer : option string) (w w' : world) :
  main today yesterday days_since_start key_set reply long_answer w = Ok w' ->
  trades (db w') = trades (db w)
  ∧ ∃ added,
      model_history (db w') = model_history (db w) ++ added
      ∧ length added <= 2
      ∧ Forall (fun row => version row = (get_current_model_version w + 1)%Z) added
      ∧ (∀ row, added !! 1 = Some row -> improvement_type row = long_term).
Proof.
  intros Hrun.
  apply main_cases in Hrun
    as [-> | [(code & corr & avg & ty & ->) | (code & corr & avg & ty & c & x & y & ->)]].
  - split; [done|]. exists []. rewrite app_nil_r.
    repeat split; [simpl; lia|constructor|done].
  - rewrite upgrade_model_trades, upgrade_model_history. split; [done|].
    eexists [_]. split; [done|].
    repeat split; [simpl; lia|by repeat constructor|done].
  - rewrite !upgrade_model_trades, !upgrade_model_history,
      upgrade_model_version_kept, <- app_assoc. split; [done|].
    eexists [_; _]. split; [done|].
    repeat split; [simpl; lia|by repeat constructor|].
    intros row [= <-]. done.
Qed.

(** X22.  Cold start: when no scorer file exists, or it is empty, a
    candidate whose backtest returns a result is promoted whatever its
    figures are, with improvement type [initial]. *)
Theorem cold_start_promotes (today yesterday : string) (yd : trade) (code : string)
    (corr avg : Q) (w : world) :
  get_yesterday_trade_data yesterday w = Some yd ->
  code ≠ "" ->
  backtest_scorer (Some code) 180 w = Ok (Some (corr, avg)) ->
  get_current_scorer_code w = None ∨ get_current_scorer_code w = Some "" ->
  daily_cycle today yesterday (Some code) w
  = Ok (Some (upgrade_model today code corr avg initial w))
  ∧ ∃ row, model_history (db (upgrade_model today code corr avg initial w))
           = model_history (db w) ++ [row]
           ∧ improvement_type row = initial
           ∧ spearman_correlation row = corr ∧ avg_daily_return row = avg.
Proof.
  intros Hy Hcode Hcand Hfile. split.
  - unfold SelfImprove.daily_cycle, SelfImprove.daily_step3. rewrite Hy.
    destruct code as [|c code']; [done|]. rewrite Hcand. cbn [bind].
    by destruct Hfile as [-> | ->].
  - rewrite upgrade_model_history. by eexists.
Qed.

(** X23.  The long-term cycle does nothing with fewer than 30 resolved
    rows or without an answer from the oracle.  When it runs against an
    active scorer whose backtest correlation is exactly 0, it takes the
    correlation improvement to be 0, so the candidate is promoted only
    if its return improvement reaches 0.25. *)
Theorem long_term_zero_baseline (today answer : string) (corr avg cavg mean : Q)
    (w : world) :
  30 <= length (List.filter resolved (trades (db w))) ->
  backtest_scorer (Some (extract_code answer)) 180 w = Ok (Some (corr, avg)) ->
  backtest_scorer (get_current_scorer_code w) 180 w = Ok (Some (0%Q, cavg)) ->
  realized_mean w = Some mean -> ¬ (mean == 0)%Q ->
  (∀ w0 a, length (List.filter resolved (trades (db w0))) < 30 ->
           long_term_improvement today a w0 = w0)
  ∧ long_term_improvement today None w = w
  ∧ ((avg - mean < 0.25)%Q -> long_term_improvement today (Some answer) w = w)
  ∧ ((0.25 <= avg - mean)%Q ->
     long_term_improvement today (Some answer) w
     = upgrade_model today (extract_code answer) corr avg long_term w).
Proof.
  intros Hcount Hcand Hcur Hmean Hnz.
  split; [|split].
  { intros w0 a Hlt. unfold SelfImprove.long_term_improvement.
    by rewrite (proj2 (Nat.ltb_lt _ _) Hlt). }
  { unfold SelfImprove.long_term_improvement. by destruct (_ <? 30). }
  assert (Hrun : long_term_improvement today (Some answer) w
                 = if threshold_met 0 (avg - mean)
                   then upgrade_model today (extract_code answer) corr avg long_term w
                   else w).
  { unfold SelfImprove.long_term_improvement.
    rewrite (proj2 (Nat.ltb_ge _ _) Hcount), Hcand, Hcur.
    cbn [fmap option_fmap option_map fst].
    rewrite performance_realized_mean, Hmean.
    assert (Qeq_bool 0 0 = true) as -> by reflexivity.
    assert (Qeq_bool mean 0 = false) as ->.
    { destruct (Qeq_bool mean 0) eqn:E; [|done]. apply Qeq_bool_iff in E. done. }
    reflexivity. }
  rewrite Hrun. split.
  - intros Hlt. destruct (threshold_met 0 (avg - mean)) eqn:E; [|done].
    apply threshold_met_iff in E as [E|E]; exfalso; lra.
  - intros Hge. rewrite (proj2 (threshold_met_iff 0 (avg - mean))); [done|by right].
Qed.

End externals.

Lemma upgrade_model_archive_slot_witness :
  let v := get_current_model_version one_prediction in
  let w1 := upgrade_model no_match "2024-03-13" momentum_src 1 15 daily one_prediction in
  let w2 := upgrade_model no_match "2024-03-14" foresight_src 1 15 daily w1 in
  backups w1 !! v = Some contrarian_src
  ∧ (∀ n, n ≠ v -> backups w1 !! n = backups one_prediction !! n)
  ∧ backups w2 !! v = Some (scorer_file_text (v + 1) (format_code no_match momentum_src))
  ∧ (∀ n, n ≠ v -> backups w2 !! n = backups one_prediction !! n).
Proof.
  apply (upgrade_model_archive_slot no_match "2024-03-13" momentum_src 1 15 daily
           "2024-03-14" foresight_src 1 15 daily one_prediction contrarian_src).
  reflexivity.
Defined.

Lemma cold_start_promotes_witness :
  daily_cycle exec_known rank_pearson no_match "2024-03-13" "2024-03-12"
    (Some momentum_src) world_cold
  = Ok (Some (upgrade_model no_match "2024-03-13" momentum_src
                            (783360 # 783360) (180 # 12) initial world_cold))
  ∧ ∃ row, model_history
             (db (upgrade_model no_match "2024-03-13" momentum_src
                                (783360 # 783360) (180 # 12) initial world_cold))
           = model_history (db world_cold) ++ [row]
           ∧ improvement_type row = initial
           ∧ spearman_correlation row = (783360 # 783360)%Q
           ∧ avg_daily_return row = (180 # 12)%Q.
Proof.
  apply (cold_start_promotes exec_known rank_pearson no_match "2024-03-13" "2024-03-12"
           (resolved_day "2024-03-12" 12) momentum_src).
  - vm_compute. reflexivity.
  - discriminate.
  - vm_compute. reflexivity.
  - left. reflexivity.
Defined.

Lemma long_term_zero_baseline_witness :
  (∀ w0 a, length (List.filter resolved (trades (db w0))) < 30 ->
           long_term_improvement exec_known zero_correlation no_match no_match
             "2024-05-01" a w0 = w0)
  ∧ long_term_improvement exec_known zero_correlation no_match no_match
      "2024-05-01" None world30 = world30
  ∧ (((450 # 30) - (225 # 30) < 0.25)%Q ->
     long_term_improvement exec_known zero_correlation no_match no_match
       "2024-05-01" (Some momentum_src) world30 = world30)
  ∧ ((0.25 <= (450 # 30) - (225 # 30))%Q ->
     long_term_improvement exec_known zero_correlation no_match no_match
       "2024-05-01" (Some momentum_src) world30
     = upgrade_model no_match "2024-05-01"
         (extract_code no_match no_match momentum_src) 0 (450 # 30) long_term world30).
Proof.
  apply (long_term_zero_baseline exec_known zero_correlation no_match no_match
           "2024-05-01" momentum_src 0 (450 # 30) (0 # 30) (225 # 30) world30).
  - vm_compute. lia.
  - vm_compute. reflexivity.
  - vm_compute. reflexivity.
  - vm_compute. reflexivity.
  - vm_compute. discriminate.
Defined.

Lemma broken_world_run :
  main exec_known rank_pearson no_match no_match "2024-03-13" "2024-03-12" 72
       true (Some momentum_src) None world_broken
  = Ok (upgrade_model no_match "2024-03-13" momentum_src (783360 # 783360) (180 # 12)
                      daily world_broken).
Proof.
  assert (Hactive : SelfImprove.backtest_scorer exec_known rank_pearson
                      (Some "score_coin = ") 180 world_broken = Ok None)
    by (vm_compute; reflexivity).
  rewrite (main_unfold exec_known rank_pearson no_match no_match _ _ _ _ _ _ _
             (resolved_day "2024-03-12" 12)) by (vm_compute; reflexivity).
  assert (SelfImprove.ask_perplexity_why_right_wrong no_match no_match true
            (Some momentum_src) (resolved_day "2024-03-12" 12)
          = Ok (Some momentum_src)) as -> by (vm_compute; reflexivity).
  cbn [bind].
  rewrite (daily_cycle_decision exec_known rank_pearson no_match
             "2024-03-13" "2024-03-12" (resolved_day "2024-03-12" 12)
             momentum_src "score_coin = " (783360 # 783360) (180 # 12) None
             world_broken);
    [|vm_compute; reflexivity|discriminate|vm_compute; reflexivity
     |reflexivity|discriminate|exact Hactive].
  assert (threshold_met ((783360 # 783360) - default 0%Q (fst <$> None))
                        ((180 # 12) - default 0%Q (realized_mean world_broken))
          = true) as -> by (vm_compute; reflexivity).
  reflexivity.
Qed.

Lemma main_appends_at_most_two_witness :
  let w' := upgrade_model no_match "2024-03-13" momentum_src
              (783360 # 783360) (180 # 12) daily world_broken in
  trades (db w') = trades (db world_broken)
  ∧ ∃ added,
      model_history (db w') = model_history (db world_broken) ++ added
      ∧ length added <= 2
      ∧ Forall (fun row => version row
                           = (get_current_model_version world_broken + 1)%Z) added
      ∧ (∀ row, added !! 1 = Some row -> improvement_type row = long_term).
Proof.
  apply (main_appends_at_most_two exec_known rank_pearson no_match no_match
           "2024-03-13" "2024-03-12" 72 true (Some momentum_src) None world_broken).
  exact broken_world_run.
Defined.

End PromotionFacts.

(** ** Invariants of the daily jobs *)

Module SystemFacts.
Import System RecorderFacts RecorderMainFacts PredictionStoreFacts BacktestMoreFacts
       PromotionFacts Scenarios2.

Implicit Types (r : trade) (ts : list trade) (d : database) (w : world).

Lemma select_by_date_none today ts :
  select_by_date today ts = None <-> today ∉ date <$> ts.
Proof.
  unfold select_by_date. induction ts as [|r ts IH]; simpl.
  - split; [intros _; apply not_elem_of_nil|done].
  - rewrite not_elem_of_cons. case_bool_decide as Hd.
    + split; [done|]. intros [Hne _]. congruence.
    + rewrite IH. split; [intros H; split; [congruence|done]|by intros [_ H]].
Qed.

Lemma dates_updated today (f : trade -> trade) ts :
  (∀ r, date (f r) = date r) ->
  date <$> map (fun r => if bool_decide (date r = today) then f r else r) ts
  = date <$> ts.
Proof.
  intros Hf. induction ts as [|r ts IH]; [done|].
  cbn [map]. rewrite !fmap_cons, IH. f_equal. case_bool_decide; [apply Hf|done].
Qed.

Lemma Forall_updated (P : trade -> Prop) today (f : trade -> trade) ts :
  (∀ r, P r -> P (f r)) -> Forall P ts ->
  Forall P (map (fun r => if bool_decide (date r = today) then f r else r) ts).
Proof.
  intros Hf Hall. induction Hall as [|r ts Hr _ IH]; simpl; constructor; [|done].
  case_bool_decide; [by apply Hf|done].
Qed.

(** What the three jobs keep true of table [trades]. *)
Lemma record_prediction_keeps today coin score all_scores d :
  NoDup (date <$> trades d) ->
  Forall (fun r => resolved r = true -> complete r) (trades d) ->
  Forall (fun r => model_version r = Some 1%Z) (trades d) ->
  let d' := record_prediction today coin score all_scores d in
  NoDup (date <$> trades d')
  ∧ Forall (fun r => resolved r = true -> complete r) (trades d')
  ∧ Forall (fun r => model_version r = Some 1%Z) (trades d')
  ∧ model_history d' = model_history d.
Proof.
  intros Hnd Hcomp Hver d'. subst d'. unfold record_prediction.
  destruct (select_by_date today (trades d)) eqn:E; cbn [trades model_history].
  - split; [by rewrite dates_updated|]. split; [|split; [|done]].
    + by apply Forall_updated.
    + by apply Forall_updated.
  - split; [|split; [|split; [|done]]].
    + rewrite fmap_app. apply NoDup_app. split; [done|]. split.
      * intros x Hx Hin. apply list_elem_of_singleton in Hin. subst x.
        by apply select_by_date_none in E.
      * apply NoDup_singleton.
    + apply Forall_app. split; [done|]. by repeat constructor.
    + apply Forall_app. split; [done|]. by repeat constructor.
Qed.

Lemma recorder_main_keeps yesterday api pd sd d d' :
  Recorder.main yesterday api pd sd d = Ok d' ->
  NoDup (date <$> trades d) ->
  Forall (fun r => resolved r = true -> complete r) (trades d) ->
  Forall (fun r => model_version r = Some 1%Z) (trades d) ->
  NoDup (date <$> trades d')
  ∧ Forall (fun r => resolved r = true -> complete r) (trades d')
  ∧ Forall (fun r => model_version r = Some 1%Z) (trades d')
  ∧ model_history d' = model_history d.
Proof.
  unfold Recorder.main.
  destruct (select_by_date yesterday (trades d)) as [row|]; [|by intros [= <-]].
  intros Hrun Hnd Hcomp Hver.
  apply record_results_ok in Hrun as (ht & _ & ->). cbn [trades model_history].
  split; [by rewrite dates_updated|]. split; [|split; [|done]].
  - apply Forall_updated; [|done]. intros r _ _. apply set_outcome_complete.
  - by apply Forall_updated.
Qed.

Lemma version_one ts :
  Forall (fun r => model_version r = Some 1%Z) ts ->
  max_model_version ts = None ∨ max_model_version ts = Some 1%Z.
Proof.
  induction 1 as [|r ts Hr _ IH]; simpl; [by left|].
  rewrite Hr. destruct IH as [-> | ->]; by right.
Qed.

Lemma current_version_one w :
  Forall (fun r => model_version r = Some 1%Z) (trades (db w)) ->
  get_current_model_version w = 1%Z.
Proof.
  intros Hver. unfold get_current_model_version.
  by destruct (version_one _ Hver) as [-> | ->].
Qed.

Lemma window_complete days w :
  Forall (fun r => resolved r = true -> complete r) (trades (db w)) ->
  Forall complete (select_resolved days w).
Proof.
  intros Hcomp. apply Forall_forall. intros row Hrow.
  apply select_resolved_resolved in Hrow as [Hin Hres].
  rewrite Forall_forall in Hcomp. by apply Hcomp.
Qed.

(** The prompt of the oracle step can be built for a resolved row that
    holds every return, and for no row that is not resolved. *)
Lemma format_returns_complete r :
  complete r ->
  ∃ texts, comprehension (fun coin => format_float (column return_24h r coin)) COINS
           = Ok texts.
Proof.
  unfold complete. induction 1 as [|coin coins [q Hq] _ [texts IH]].
  - by eexists.
  - cbn [comprehension]. rewrite Hq, IH. by eexists.
Qed.

Lemma format_returns_cases r (coins : list string) :
  (∃ texts, comprehension (fun coin => format_float (column return_24h r coin)) coins
            = Ok texts)
  ∨ comprehension (fun coin => format_float (column return_24h r coin)) coins
    = Raise TypeError.
Proof.
  induction coins as [|coin coins IH]; [left; by eexists|].
  cbn [comprehension]. destruct (column return_24h r coin) as [q|]; [|by right].
  cbn [format_float bind]. destruct IH as [[texts ->]| ->]; [left; by eexists|by right].
Qed.

Section externals.
Variable py_exec : string -> option score_fn.
Variable spearmanr : list nat -> list nat -> Q.
Variable re_search_score_coin : string -> option string.
Variable re_search_code_block : string -> option string.

#[local] Abbreviation reachable :=
  (reachable py_exec spearmanr re_search_score_coin re_search_code_block).
#[local] Abbreviation main :=
  (main py_exec spearmanr re_search_score_coin re_search_code_block).
#[local] Abbreviation backtest_scorer := (backtest_scorer py_exec spearmanr).
#[local] Abbreviation ask_perplexity_why_right_wrong :=
  (ask_perplexity_why_right_wrong re_search_score_coin re_search_code_block).
#[local] Abbreviation daily_step3 :=
  (daily_step3 py_exec spearmanr re_search_score_coin).

Lemma ask_cases key_set reply r :
  (∃ code, ask_perplexity_why_right_wrong key_set reply r = Ok code)
  ∨ ask_perplexity_why_right_wrong key_set reply r = Raise TypeError.
Proof.
  unfold SelfImprove.ask_perplexity_why_right_wrong.
  destruct key_set; cbn [negb]; [|left; by eexists].
  destruct (format_returns_cases r COINS) as [[texts ->]| ->]; [|by right].
  cbn [bind]. destruct (actual_24h_return_of_chosen r); [|by right].
  cbn [format_float bind]. left. destruct reply; by eexists.
Qed.

Lemma ask_unresolved reply r :
  resolved r = false -> ask_perplexity_why_right_wrong true reply r = Raise TypeError.
Proof.
  unfold resolved, SelfImprove.ask_perplexity_why_right_wrong. cbn [negb].
  destruct (actual_24h_return_of_chosen r); [done|]. intros _.
  by destruct (format_returns_cases r COINS) as [[texts ->]| ->].
Qed.

Lemma ask_resolved key_set reply r :
  complete r -> resolved r = true ->
  ∃ code, ask_perplexity_why_right_wrong key_set reply r = Ok code.
Proof.
  intros Hc Hr. unfold resolved in Hr.
  unfold SelfImprove.ask_perplexity_why_right_wrong.
  destruct key_set; cbn [negb]; [|by eexists].
  destruct (format_returns_complete r Hc) as [texts ->]. cbn [bind].
  destruct (actual_24h_return_of_chosen r); [|done].
  cbn [format_float bind]. destruct reply; by eexists.
Qed.

(** Whatever the window and the code, the backtest raises nothing but
    [TypeError]. *)
Lemma backtest_rows_cases (score_func : score_fn) rows acc :
  (∃ acc', backtest_rows score_func acc rows = Ok acc')
  ∨ backtest_rows score_func acc rows = Raise TypeError.
Proof.
  revert acc. induction rows as [|row rows IH]; intros acc; [left; by eexists|].
  change (backtest_rows score_func acc (row :: rows))
    with (bind (backtest_day score_func acc row)
            (fun acc' => backtest_rows score_func acc' rows)).
  destruct (complete_or_not row) as [Hrow|Hrow];
    [|right; by rewrite backtest_day_incomplete].
  destruct (numbers_or_not score_func row) as [Hnum|Hnone];
    [|right; rewrite backtest_day_raises; [done|by right]].
  destruct (backtest_day_ok score_func acc row Hrow Hnum) as (acc' & -> & _).
  unfold bind. apply IH.
Qed.

Lemma backtest_scorer_cases scorer_code days w :
  (∃ result, backtest_scorer scorer_code days w = Ok result)
  ∨ backtest_scorer scorer_code days w = Raise TypeError.
Proof.
  unfold SelfImprove.backtest_scorer, backtest_scorer_counted.
  destruct (length (select_resolved days w) <? 10); [left; by eexists|].
  destruct (scorer_code ≫= py_exec) as [f|]; [|left; by eexists].
  destruct (backtest_rows_cases f (select_resolved days w) empty_acc)
    as [[acc ->]| ->]; [|by right].
  cbn [bind]. destruct (length (all_predicted_ranks acc) <? 10); left; by eexists.
Qed.

Lemma daily_step3_cases_raise today new_scorer_code w :
  (∃ step3, daily_step3 today new_scorer_code w = Ok step3)
  ∨ daily_step3 today new_scorer_code w = Raise TypeError.
Proof.
  unfold SelfImprove.daily_step3.
  destruct new_scorer_code as [[|c code]|]; try (left; by eexists).
  destruct (backtest_scorer_cases (Some (String c code)) 180 w)
    as [[[[corr avg]|] ->]| ->]; cbn [bind]; [|left; by eexists|by right].
  destruct (get_current_scorer_code w) as [[|c0 cur]|]; try (left; by eexists).
  unfold daily_improvement.
  destruct (backtest_scorer_cases (Some (String c0 cur)) 180 w)
    as [[current ->]| ->]; cbn [bind fst snd]; [|by right].
  destruct (threshold_met _ _); left; by eexists.
Qed.

Lemma daily_step3_returns today new_scorer_code w :
  Forall complete (select_resolved 180 w) ->
  (∀ code f, py_exec code = Some f -> ∃ s : strategy, f = scorer_of s) ->
  ∃ step3, daily_step3 today new_scorer_code w = Ok step3.
Proof.
  intros Hrows Hstrat.
  assert (Hback : ∀ code, ∃ result, backtest_scorer (Some code) 180 w = Ok result).
  { intros code. apply backtest_scorer_returns; [done|]. intros f Hf. by apply (Hstrat code). }
  unfold SelfImprove.daily_step3.
  destruct new_scorer_code as [[|c code]|]; try by eexists.
  destruct (Hback (String c code)) as [[[corr avg]|] ->]; cbn [bind]; [|by eexists].
  destruct (get_current_scorer_code w) as [[|c0 cur]|]; try by eexists.
  unfold daily_improvement.
  destruct (Hback (String c0 cur)) as [current ->]. cbn [bind fst snd].
  destruct (threshold_met _ _); by eexists.
Qed.

Lemma reachable_keeps w :
  reachable w ->
  NoDup (date <$> trades (db w))
  ∧ Forall (fun r => resolved r = true -> complete r) (trades (db w))
  ∧ Forall (fun r => model_version r = Some 1%Z) (trades (db w))
  ∧ Forall (fun row => version row = 2%Z) (model_history (db w)).
Proof.
  induction 1 as [file|w today coin score all_scores _ (Hnd & Hcomp & Hver & Hmh)
                 |w yesterday api pd sd d' _ (Hnd & Hcomp & Hver & Hmh) Hrun
                 |w w' today yesterday dss key reply answer _ (Hnd & Hcomp & Hver & Hmh)
                    Hrun].
  - cbn. repeat split; constructor.
  - cbn [with_db db].
    destruct (record_prediction_keeps today coin score all_scores (db w) Hnd Hcomp Hver)
      as (H1 & H2 & H3 & H4).
    repeat split; try done. by rewrite H4.
  - cbn [with_db db].
    destruct (recorder_main_keeps _ _ _ _ _ _ Hrun Hnd Hcomp Hver) as (H1 & H2 & H3 & H4).
    repeat split; try done. by rewrite H4.
  - pose proof (current_version_one w Hver) as Hone.
    apply main_cases in Hrun
      as [-> | [(c & x & y & ty & ->) | (c & x & y & ty & c2 & x2 & y2 & ->)]];
      [done| |];
      rewrite ?upgrade_model_trades, ?upgrade_model_history,
        ?upgrade_model_version_kept, Hone;
      repeat split; try done; rewrite ?Forall_app; repeat split; try done;
      by repeat constructor.
Qed.

(** X24.  In every state the daily jobs can produce, the dates of
    table [trades] are pairwise different and every resolved row holds
    a return for every coin of the universe; so does every row of any
    backtest window. *)
Theorem reachable_rows_well_formed (w : world) (days : nat) :
  reachable w ->
  NoDup (date <$> trades (db w))
  ∧ Forall (fun r => resolved r = true -> complete r) (trades (db w))
  ∧ Forall complete (select_resolved days w).
Proof.
  intros Hw. apply reachable_keeps in Hw as (Hnd & Hcomp & _ & _).
  split; [done|]. split; [done|]. by apply window_complete.
Qed.

(** X25.  In every state the daily jobs can produce, a run of the
    self-improvement [main] raises nothing but [TypeError].  It does
    raise when the key of the oracle is set and yesterday's row is not
    resolved yet: the prompt formats the missing returns.  It returns
    when every code that loads is a strategy and yesterday's row, if
    there is one and the key is set, is resolved. *)
Theorem reachable_main_raises (w : world) (today yesterday : string)
    (days_since_start : Z) (key_set : bool) (reply long_answer : option string) :
  reachable w ->
  let run := main today yesterday days_since_start key_set reply long_answer w in
  (∀ e, run = Raise e -> e = TypeError)
  ∧ (∀ yd, get_yesterday_trade_data yesterday w = Some yd ->
           key_set = true -> resolved yd = false -> run = Raise TypeError)
  ∧ ((∀ code f, py_exec code = Some f -> ∃ s : strategy, f = scorer_of s) ->
     (∀ yd, get_yesterday_trade_data yesterday w = Some yd ->
            key_set = true -> resolved yd = true) ->
     ∃ w', run = Ok w').
Proof.
  intros Hw run. subst run. apply reachable_keeps in Hw as (_ & Hcomp & _ & _).
  unfold SelfImprove.main.
  destruct (get_yesterday_trade_data yesterday w) as [yd|] eqn:Hy.
  2: { split; [done|]. split; [done|]. intros _ _. by eexists. }
  assert (Hyd : resolved yd = true -> complete yd).
  { apply select_by_date_elem in Hy as [Hin _].
    rewrite Forall_forall in Hcomp. by apply Hcomp. }
  split; [|split].
  - intros e.
    destruct (ask_cases key_set reply yd) as [[code ->]| ->]; cbn [bind];
      [|by intros [= <-]].
    destruct (daily_step3_cases_raise today code w) as [[step3 ->]| ->]; cbn [bind];
      [|by intros [= <-]].
    destruct step3 as [w1|]; [|done].
    by destruct (days_since_start mod 30 =? 0)%Z.
  - intros yd' [= <-] -> Hres. by rewrite ask_unresolved.
  - intros Hstrat Hres.
    assert (∃ code, ask_perplexity_why_right_wrong key_set reply yd = Ok code)
      as [code ->].
    { destruct key_set.
      - apply ask_resolved; [apply Hyd|]; by apply Hres.
      - unfold SelfImprove.ask_perplexity_why_right_wrong. by eexists. }
    cbn [bind].
    destruct (daily_step3_returns today code w) as [step3 ->];
      [by apply window_complete|done|].
    cbn [bind]. destruct step3 as [w1|]; [|by eexists].
    destruct (days_since_start mod 30 =? 0)%Z; by eexists.
Qed.

(** X26.  In every state the daily jobs can produce, every row of
    [trades] has model version 1, [get_current_model_version] returns 1
    and every row of [model_history] has version 2. *)
Theorem reachable_versions (w : world) :
  reachable w ->
  Forall (fun r => model_version r = Some 1%Z) (trades (db w))
  ∧ get_current_model_version w = 1%Z
  ∧ Forall (fun row => version row = 2%Z) (model_history (db w)).
Proof.
  intros Hw. apply reachable_keeps in Hw as (_ & _ & Hver & Hmh).
  split; [done|]. split; [by apply current_version_one|done].
Qed.

End externals.

Lemma reachable_rows_well_formed_witness :
  let w := with_db (record_prediction "2024-03-13" "BTCUSD" 1 [] (db (installed None)))
                   (installed None) in
  NoDup (date <$> trades (db w))
  ∧ Forall (fun r => resolved r = true -> complete r) (trades (db w))
  ∧ Forall complete (select_resolved 180 w).
Proof.
  apply (reachable_rows_well_formed exec_known rank_pearson no_match no_match).
  apply reach_predict, reach_installed.
Defined.

Lemma reachable_main_raises_witness :
  let w := with_db (record_prediction "2024-03-13" "BTCUSD" 1 [] (db (installed None)))
                   (installed None) in
  let run := main exec_known rank_pearson no_match no_match "2024-03-14" "2024-03-13" 73
               true (Some momentum_src) None w in
  (∀ e, run = Raise e -> e = TypeError)
  ∧ (∀ yd, get_yesterday_trade_data "2024-03-13" w = Some yd ->
           true = true -> resolved yd = false -> run = Raise TypeError)
  ∧ ((∀ code f, exec_known code = Some f -> ∃ s : strategy, f = scorer_of s) ->
     (∀ yd, get_yesterday_trade_data "2024-03-13" w = Some yd ->
            true = true -> resolved yd = true) ->
     ∃ w', run = Ok w').
Proof.
  apply (reachable_main_raises exec_known rank_pearson no_match no_match).
  apply reach_predict, reach_installed.
Defined.

(** The day after a first prediction: the row of 2024-03-13 has no
    outcome yet, and [main] raises while it builds the prompt. *)
Lemma unresolved_yesterday_raises :
  main exec_known rank_pearson no_match no_match "2024-03-14" "2024-03-13" 73
    true (Some momentum_src) None
    (with_db (record_prediction "2024-03-13" "BTCUSD" 1 [] (db (installed None)))
             (installed None))
  = Raise TypeError.
Proof. vm_compute. reflexivity. Qed.

Lemma reachable_versions_witness :
  let w := with_db (record_prediction "2024-03-13" "BTCUSD" 1 [] (db (installed None)))
                   (installed None) in
  Forall (fun r => model_version r = Some 1%Z) (trades (db w))
  ∧ get_current_model_version w = 1%Z
  ∧ Forall (fun row => version row = 2%Z) (model_history (db w)).
Proof.
  apply (reachable_versions exec_known rank_pearson no_match no_match).
  apply reach_predict, reach_installed.
Defined.

End SystemFacts.
